(** * AnalyseAgricoles: the data-preparation and analytics pipeline

    A shallow embedding of [src/data_manager.py] (class
    [AgriculturalDataManager]) together with the behaviour of the pandas,
    scikit-learn and statsmodels calls it makes.

    Numbers.  Python floats are idealised as real numbers ([R]); a missing
    value (NaN, NaT, None) is the cell [Null].  Infinite floats are not
    represented.

    Time.  A timestamp is a count of nanoseconds since the epoch, as in
    [datetime64[ns]]; the calendar day of [t] is [t / ns_per_day]. *)

From Stdlib Require Import Reals Lra Lia ZArith String Bool List Permutation.
Import ListNotations.

Local Open Scope string_scope.
Local Open Scope list_scope.

(** ** Risk categories, the labels of [pd.cut] at data_manager.py:184-188 *)

Inductive risk_level := TresBas | Bas | Modere | Eleve.

Definition risk_level_label (c : risk_level) : string :=
  match c with
  | TresBas => "Très Bas"
  | Bas => "Bas"
  | Modere => "Modéré"
  | Eleve => "Élevé"
  end.

(** Position of a category in the ordered categorical dtype. *)
Definition risk_level_code (c : risk_level) : nat :=
  match c with TresBas => 0 | Bas => 1 | Modere => 2 | Eleve => 3 end.

Definition risk_level_eqb (a b : risk_level) : bool :=
  Nat.eqb (risk_level_code a) (risk_level_code b).

(** ** Cells and tables *)

Inductive cell :=
| Null
| Num (x : R)
| Str (s : string)
| Date (t : Z)
| Cat (c : risk_level).

Definition row := list cell.

Record DataFrame := mkDF { columns : list string; rows : list row }.

Definition nrows (df : DataFrame) : nat := length (rows df).

Definition empty (df : DataFrame) : bool :=
  match rows df with [] => true | _ => false end.

(** [name in df.columns] *)
Definition has_column (name : string) (df : DataFrame) : bool :=
  existsb (String.eqb name) (columns df).

(** Position of the first column called [name]. *)
Fixpoint col_index (name : string) (cols : list string) : option nat :=
  match cols with
  | [] => None
  | c :: cs =>
      if String.eqb name c then Some 0%nat
      else option_map S (col_index name cs)
  end.

Definition cell_at (i : nat) (r : row) : cell := nth i r Null.

(** [df[name]] as the list of its values, [None] when the column is absent
    (pandas raises [KeyError]). *)
Definition get_col (name : string) (df : DataFrame) : option (list cell) :=
  match col_index name (columns df) with
  | Some i => Some (map (cell_at i) (rows df))
  | None => None
  end.

Fixpoint replace_nth {A} (i : nat) (x : A) (l : list A) : list A :=
  match i, l with
  | _, [] => []
  | O, _ :: t => x :: t
  | S j, h :: t => h :: replace_nth j x t
  end.

(** [df[name] = values]: overwrite the column in place when it exists,
    otherwise append it as the last column.  [values] is positional (a numpy
    array or a Series on the same index), one per row. *)
Definition set_col (name : string) (values : list cell) (df : DataFrame) : DataFrame :=
  match col_index name (columns df) with
  | Some i =>
      mkDF (columns df)
           (map (fun rv => replace_nth i (snd rv) (fst rv)) (combine (rows df) values))
  | None =>
      mkDF (columns df ++ [name])
           (map (fun rv => fst rv ++ [snd rv]) (combine (rows df) values))
  end.

(** ** Exceptions, the process environment and a state-and-error monad *)

(** The Python exceptions the pipeline meets.  All of them derive from
    [Exception], so each [except Exception] clause catches all of them. *)
Inductive exn :=
| FileNotFoundError (msg : string)
| ParserError (msg : string)
| KeyError (msg : string)
| ValueError (msg : string)
| TypeError (msg : string)
| AttributeError (msg : string)
| OSError (msg : string).

Definition is_FileNotFoundError (e : exn) : bool :=
  match e with FileNotFoundError _ => true | _ => false end.

(** [str(e)], as interpolated by the f-strings of the handlers; [KeyError]
    prints the repr of its argument. *)
Definition exn_str (e : exn) : string :=
  match e with
  | KeyError m => ("'" ++ m ++ "'")%string
  | FileNotFoundError m | ParserError m | ValueError m
  | TypeError m | AttributeError m | OSError m => m
  end.

(** A file under [data/]: either a table or text that is no CSV table.  The
    table is the CSV text as the read of that path in the code types it: the
    column [date] is parsed for the four files read with
    [parse_dates=["date"]], a cell being [Date] when the text parses as a date
    and [Str] when it does not; data/sols.csv is read without, and has no
    [Date] cell. *)
Inductive file := CsvFile (df : DataFrame) | Malformed.

Record world := mkWorld {
  fs : list (string * file);      (* files by path *)
  writable : bool;                (* can files be created under data/ ? *)
  stdout : list string            (* lines printed so far, oldest first *)
}.

Fixpoint lookup_file (path : string) (l : list (string * file)) : option file :=
  match l with
  | [] => None
  | (p, f) :: t => if String.eqb path p then Some f else lookup_file path t
  end.

Inductive outcome (A : Type) := Ok (a : A) | Raise (e : exn).
Arguments Ok {A} a.
Arguments Raise {A} e.

(** A computation over a state [S] that returns a value or raises; the
    state changes made before an exception stay. *)
Definition M (S A : Type) : Type := S -> outcome A * S.

Definition ret {S A} (a : A) : M S A := fun s => (Ok a, s).

Definition bind {S A B} (c : M S A) (k : A -> M S B) : M S B :=
  fun s => match c s with
           | (Ok a, s') => k a s'
           | (Raise e, s') => (Raise e, s')
           end.

Definition raise {S A} (e : exn) : M S A := fun s => (Raise e, s).
Definition gets {S A} (f : S -> A) : M S A := fun s => (Ok (f s), s).
Definition modify {S} (f : S -> S) : M S unit := fun s => (Ok tt, f s).

(** [try: body  except Exception as e: handler e] *)
Definition try_except {S A} (body : M S A) (handler : exn -> M S A) : M S A :=
  fun s => match body s with
           | (Ok a, s') => (Ok a, s')
           | (Raise e, s') => handler e s'
           end.

(** An optional value that raises when absent. *)
Definition or_raise {S A} (o : option A) (e : exn) : M S A :=
  match o with Some a => ret a | None => raise e end.

Declare Scope monad_scope.
Delimit Scope monad_scope with monad.
Notation "x <- c ;; k" := (bind c (fun x => k))
  (at level 61, c at next level, right associativity) : monad_scope.
Notation "c ;;; k" := (bind c (fun _ => k))
  (at level 61, right associativity) : monad_scope.
Local Open Scope monad_scope.

(** ** Numeric helpers (numpy, pandas reductions) *)

Definition Rsum (l : list R) : R := fold_right Rplus 0%R l.

(** Arithmetic mean of a non-empty list. *)
Definition Rmean (l : list R) : R := (Rsum l / INR (length l))%R.

(** Population variance ([ddof=0]). *)
Definition Rvar (l : list R) : R :=
  Rmean (map (fun x => ((x - Rmean l) * (x - Rmean l))%R) l).

(** The non-missing numbers of a column. *)
Fixpoint nums (col : list cell) : list R :=
  match col with
  | [] => []
  | Num x :: t => x :: nums t
  | _ :: t => nums t
  end.

Definition is_numeric (c : cell) : bool :=
  match c with Null | Num _ => true | _ => false end.

(** [Series.mean()]: missing values are skipped, and the mean of no value
    is missing. *)
Definition series_mean (col : list cell) : cell :=
  match nums col with
  | [] => Null
  | l => Num (Rmean l)
  end.

(** ** scikit-learn: [StandardScaler] *)

(** Fitted attributes, per feature; [None] before the first fit. *)
Record StandardScaler := mkScaler {
  mean_ : option (list R);
  scale_ : option (list R)
}.

(** [StandardScaler()] at data_manager.py:19 *)
Definition StandardScaler_new : StandardScaler := mkScaler None None.

(** [_handle_zeros_in_scale]: a constant feature is scaled by 1. *)
Definition handle_zeros_in_scale (s : R) : R :=
  if Req_dec_T s 0 then 1%R else s.

Definition fit_mean (col : list cell) : R := Rmean (nums col).
Definition fit_scale (col : list cell) : R :=
  handle_zeros_in_scale (sqrt (Rvar (nums col))).

(** [transform] on one value: missing stays missing. *)
Definition scale_cell (mu sigma : R) (c : cell) : option R :=
  match c with
  | Num x => Some ((x - mu) / sigma)%R
  | _ => None
  end.

(** [fit_transform(X)], [X] given by its columns: [fit] forgets whatever
    was fitted before, learns mean and scale from [X], skipping missing
    values, and [transform] then applies them to the same [X].  It refuses
    ([ValueError]) a table without rows and values that are not numbers. *)
Definition fit_transform (X : list (list cell))
  : option (StandardScaler * list (list (option R))) :=
  if forallb (forallb is_numeric) X
     && forallb (fun col => negb (Nat.eqb (length col) 0)) X
  then Some (mkScaler (Some (map fit_mean X)) (Some (map fit_scale X)),
             map (fun col => map (scale_cell (fit_mean col) (fit_scale col)) col) X)
  else None.

(** ** pandas: [cut] *)

(** A bin edge: a number or one of [-np.inf], [np.inf]. *)
Inductive edge := NegInf | Fin (r : R) | PosInf.

(** [e < x] *)
Definition edge_ltb (e : edge) (x : R) : bool :=
  match e with
  | NegInf => true
  | Fin r => if Rlt_dec r x then true else false
  | PosInf => false
  end.

(** [bins.searchsorted(x, side="left")] on increasing [bins]: the number of
    edges strictly below [x]. *)
Fixpoint searchsorted_left (bins : list edge) (x : R) : nat :=
  match bins with
  | [] => O
  | e :: t => if edge_ltb e x then S (searchsorted_left t x) else O
  end.

(** [pd.cut(x, bins, labels)] with the default [right=True]: the value falls
    in the bin whose right edge is the first edge not below it; a value
    outside all bins, or a missing one, gets no category. *)
Definition cut {L} (bins : list edge) (labels : list L) (c : cell) : option L :=
  match c with
  | Num x =>
      let id := searchsorted_left bins x in
      if Nat.eqb id 0 || Nat.eqb id (length bins) then None
      else nth_error labels (id - 1)
  | _ => None
  end.

(** data_manager.py:186-187 *)
Definition risk_bins : list edge := [NegInf; Fin (-1); Fin 0; Fin 1; PosInf].
Definition risk_labels : list risk_level := [TresBas; Bas; Modere; Eleve].

Definition cat_cell (o : option risk_level) : cell :=
  match o with Some c => Cat c | None => Null end.

(** ** pandas: [Series.mode] on a categorical column *)

Fixpoint cats (col : list cell) : list risk_level :=
  match col with
  | [] => []
  | Cat c :: t => c :: cats t
  | _ :: t => cats t
  end.

Definition count_level (c : risk_level) (l : list risk_level) : nat :=
  length (filter (risk_level_eqb c) l).

(** [Series.mode()] drops missing values and returns every most frequent
    value, sorted; for a categorical column the order is that of the
    categories. *)
Definition series_mode (col : list cell) : list risk_level :=
  let l := cats col in
  let top := fold_right Nat.max 0%nat (map (fun c => count_level c l) risk_labels) in
  if Nat.eqb top 0 then []
  else filter (fun c => Nat.eqb (count_level c l) top) risk_labels.

(** [lambda x: x.mode()[0] if not x.mode().empty else None],
    data_manager.py:193 *)
Definition most_frequent (col : list cell) : cell :=
  match series_mode col with
  | c :: _ => Cat c
  | [] => Null
  end.

(** ** pandas: [groupby] on two key columns *)

Definition cell_eqb (a b : cell) : bool :=
  match a, b with
  | Null, Null => true
  | Num x, Num y => if Req_dec_T x y then true else false
  | Str s, Str t => String.eqb s t
  | Date s, Date t => Z.eqb s t
  | Cat c, Cat d => risk_level_eqb c d
  | _, _ => false
  end.

Definition cell_rank (c : cell) : nat :=
  match c with Null => 0 | Num _ => 1 | Str _ => 2 | Date _ => 3 | Cat _ => 4 end.

(** Order of the group keys.  pandas orders keys of one type; between keys
    of different types, which it cannot order, the model orders by type. *)
Definition cell_leb (a b : cell) : bool :=
  match a, b with
  | Num x, Num y => if Rle_dec x y then true else false
  | Str s, Str t => String.leb s t
  | Date s, Date t => Z.leb s t
  | Cat c, Cat d => Nat.leb (risk_level_code c) (risk_level_code d)
  | _, _ => Nat.leb (cell_rank a) (cell_rank b)
  end.

Definition key : Type := cell * cell.

Definition key_eqb (a b : key) : bool :=
  cell_eqb (fst a) (fst b) && cell_eqb (snd a) (snd b).

(** Lexicographic order on key pairs. *)
Definition key_leb (a b : key) : bool :=
  if cell_eqb (fst a) (fst b) then cell_leb (snd a) (snd b)
  else cell_leb (fst a) (fst b).

Definition is_null (c : cell) : bool :=
  match c with Null => true | _ => false end.

(** The key of a row; a row with a missing key belongs to no group
    ([dropna=True]). *)
Definition row_key (i j : nat) (r : row) : option key :=
  let k := (cell_at i r, cell_at j r) in
  if is_null (fst k) || is_null (snd k) then None else Some k.

Definition in_group (i j : nat) (k : key) (r : row) : bool :=
  match row_key i j r with
  | Some k' => key_eqb k k'
  | None => false
  end.

(** The distinct elements, each at its first occurrence. *)
Fixpoint unique {A} (eqb : A -> A -> bool) (l : list A) : list A :=
  match l with
  | [] => []
  | x :: t => x :: filter (fun y => negb (eqb x y)) (unique eqb t)
  end.

Fixpoint insert_sorted {A} (leb : A -> A -> bool) (x : A) (l : list A) : list A :=
  match l with
  | [] => [x]
  | y :: t => if leb x y then x :: l else y :: insert_sorted leb x t
  end.

(** A stable sort. *)
Fixpoint sort_by {A} (leb : A -> A -> bool) (l : list A) : list A :=
  match l with
  | [] => []
  | x :: t => insert_sorted leb x (sort_by leb t)
  end.

Fixpoint keep_some {A} (l : list (option A)) : list A :=
  match l with
  | [] => []
  | Some a :: t => a :: keep_some t
  | None :: t => keep_some t
  end.

(** The group keys: the distinct non-missing key pairs, sorted
    ([sort=True]). *)
Definition group_keys (i j : nat) (rs : list row) : list key :=
  sort_by key_leb (unique key_eqb (keep_some (map (row_key i j) rs))).

(** [data.groupby(['parcelle_id', 'culture']).agg(avg_risk_index=('risk_index',
    'mean'), most_frequent_risk_category=('risk_category', lambda ...))
    .reset_index()], data_manager.py:191-194; the arguments are the positions
    of the four columns. *)
Definition groupby_agg (ip ic ir ig : nat) (rs : list row) : DataFrame :=
  mkDF ["parcelle_id"; "culture"; "avg_risk_index"; "most_frequent_risk_category"]
       (map (fun k =>
               let g := filter (in_group ip ic k) rs in
               [fst k; snd k;
                series_mean (map (cell_at ir) g);
                most_frequent (map (cell_at ig) g)])
            (group_keys ip ic rs)).

(** ** The manager and its environment *)

Record AgriculturalDataManager := mkManager {
  monitoring_data : option DataFrame;
  weather_data : option DataFrame;
  soil_data : option DataFrame;
  yield_history : option DataFrame;
  scalar : StandardScaler
}.

(** [__init__], data_manager.py:13-19 *)
Definition init : AgriculturalDataManager :=
  mkManager None None None None StandardScaler_new.

Record state := mkState { self : AgriculturalDataManager; env : world }.

Definition set_self (f : AgriculturalDataManager -> AgriculturalDataManager)
  : M state unit :=
  modify (fun s => mkState (f (self s)) (env s)).

(** [print(line)] *)
Definition print (line : string) : M state unit :=
  modify (fun s => mkState (self s)
            (mkWorld (fs (env s)) (writable (env s)) (stdout (env s) ++ [line]))).

(** [df.to_csv(path, index=False)]: the file replaces any older one; it
    cannot be created when the directory is missing or read-only.  The file
    holds the table as the code reads it back, with [parse_dates=["date"]]. *)
Definition to_csv (path : string) (df : DataFrame) : M state unit :=
  fun s =>
    if writable (env s)
    then (Ok tt, mkState (self s)
                   (mkWorld ((path, CsvFile df) :: fs (env s)) true (stdout (env s))))
    else (Raise (OSError ("Cannot save file into a non-existent directory: " ++ path)%string), s).

(** A computation of the manager, run inside a call that also holds an
    argument object [X]. *)
Definition lift {X A} (c : M state A) : M (X * state) A :=
  fun xs => match c (snd xs) with (o, s') => (o, (fst xs, s')) end.

Definition get_arg {X} : M (X * state) X := gets fst.
Definition set_arg {X} (x : X) : M (X * state) unit :=
  modify (fun xs => (x, snd xs)).

(** ** The risk scorer: [calculate_risk_metrics], data_manager.py:165-203 *)

Definition required_columns : list string :=
  ["parcelle_id"; "culture"; "rendement_estime"; "ph"; "matiere_organique"].

(** data_manager.py:169-171 *)
Fixpoint check_required {S} (cols : list string) (df : DataFrame) : M S unit :=
  match cols with
  | [] => ret tt
  | col :: rest =>
      if has_column col df then check_required rest df
      else raise (KeyError ("Colonne requise manquante : " ++ col)%string)
  end.

(** [df[name]], raising [KeyError] when the column is absent. *)
Definition getitem {S} (name : string) (df : DataFrame) : M S (list cell) :=
  or_raise (get_col name df) (KeyError name).

Definition getpos {S} (name : string) (df : DataFrame) : M S nat :=
  or_raise (col_index name (columns df)) (KeyError name).

(** One row of data_manager.py:177-181; a missing operand makes the sum
    missing. *)
Definition risk_index_of (n0 n1 n2 : option R) : cell :=
  match n0, n1, n2 with
  | Some a, Some b, Some c => Num (0.5 * a + 0.3 * b + 0.2 * c)%R
  | _, _, _ => Null
  end.

Fixpoint map3 {A B C D} (f : A -> B -> C -> D)
  (la : list A) (lb : list B) (lc : list C) : list D :=
  match la, lb, lc with
  | a :: ta, b :: tb, c :: tc => f a b c :: map3 f ta tb tc
  | _, _, _ => []
  end.

(** The [try] block.  The first component of the state is the object bound
    to the parameter [data], which is the caller's table itself; Python's
    [None] is [None]. *)
Definition calculate_risk_metrics_try : M (option DataFrame * state) DataFrame :=
  arg <- get_arg ;;
  data <- or_raise arg (AttributeError "'NoneType' object has no attribute 'columns'") ;;
  check_required required_columns data ;;;
  (* Normalisation des colonnes nécessaires *)
  c0 <- getitem "rendement_estime" data ;;
  c1 <- getitem "ph" data ;;
  c2 <- getitem "matiere_organique" data ;;
  match fit_transform [c0; c1; c2] with
  | Some (fitted, [n0; n1; n2]) =>
      lift (set_self (fun m => mkManager (monitoring_data m) (weather_data m)
                                 (soil_data m) (yield_history m) fitted)) ;;;
      (* Calcul de l'index de risque *)
      set_arg (Some (set_col "risk_index" (map3 risk_index_of n0 n1 n2) data)) ;;;
      arg <- get_arg ;;
      data <- or_raise arg (AttributeError "data") ;;
      (* Attribution des catégories de risque *)
      risk_index <- getitem "risk_index" data ;;
      set_arg (Some (set_col "risk_category"
                       (map (fun c => cat_cell (cut risk_bins risk_labels c)) risk_index)
                       data)) ;;;
      arg <- get_arg ;;
      data <- or_raise arg (AttributeError "data") ;;
      (* Agrégation par parcelle et culture *)
      ip <- getpos "parcelle_id" data ;;
      ic <- getpos "culture" data ;;
      ir <- getpos "risk_index" data ;;
      ig <- getpos "risk_category" data ;;
      let grouped_data := groupby_agg ip ic ir ig (rows data) in
      (* Sauvegarde des données agrégées *)
      lift (to_csv "data/grouped_risk_metrics.csv" grouped_data) ;;;
      ret grouped_data
  | _ =>
      (* [fit] resets the scaler before it looks at the data *)
      lift (set_self (fun m => mkManager (monitoring_data m) (weather_data m)
                                 (soil_data m) (yield_history m) StandardScaler_new)) ;;;
      raise (ValueError "StandardScaler: not a non-empty table of numbers")
  end.

(** The whole method: on any exception it prints and returns [None]. *)
Definition calculate_risk_metrics : M (option DataFrame * state) (option DataFrame) :=
  try_except
    (grouped_data <- calculate_risk_metrics_try ;; ret (Some grouped_data))
    (fun e =>
       lift (print ("Erreur lors du calcul des métriques de risque : " ++ exn_str e)%string) ;;;
       ret None).

(** ** The loader: [load_data], data_manager.py:21-31 *)

(** [pd.read_csv(path, parse_dates=...)]: the file must exist, hold a table
    and have the columns to parse as dates.  The table of the file is typed
    already, so that nothing is parsed here: the model says nothing of a read
    that asks for other dates than the file was typed with.  The text of the
    exceptions the libraries raise is indicative; only their class matters
    below. *)
Definition read_csv (path : string) (parse_dates : list string) : M state DataFrame :=
  fun s =>
    match lookup_file path (fs (env s)) with
    | None => (Raise (FileNotFoundError ("No such file or directory: " ++ path)%string), s)
    | Some Malformed => (Raise (ParserError "Error tokenizing data"), s)
    | Some (CsvFile df) =>
        if forallb (fun c => has_column c df) parse_dates then (Ok df, s)
        else (Raise (ValueError "Missing column provided to 'parse_dates'"), s)
    end.

Definition set_monitoring_data (v : option DataFrame) (m : AgriculturalDataManager) :=
  mkManager v (weather_data m) (soil_data m) (yield_history m) (scalar m).
Definition set_weather_data (v : option DataFrame) (m : AgriculturalDataManager) :=
  mkManager (monitoring_data m) v (soil_data m) (yield_history m) (scalar m).
Definition set_soil_data (v : option DataFrame) (m : AgriculturalDataManager) :=
  mkManager (monitoring_data m) (weather_data m) v (yield_history m) (scalar m).
Definition set_yield_history (v : option DataFrame) (m : AgriculturalDataManager) :=
  mkManager (monitoring_data m) (weather_data m) (soil_data m) v (scalar m).

Definition load_data : M state unit :=
  try_except
    (df <- read_csv "data/monitoring_cultures.csv" ["date"] ;;
     set_self (set_monitoring_data (Some df)) ;;;
     df <- read_csv "data/meteo_detaillee.csv" ["date"] ;;
     set_self (set_weather_data (Some df)) ;;;
     df <- read_csv "data/sols.csv" [] ;;
     set_self (set_soil_data (Some df)) ;;;
     df <- read_csv "data/historique_rendements.csv" ["date"] ;;
     set_self (set_yield_history (Some df)))
    (fun e =>
       if is_FileNotFoundError e
       then print ("Erreur : fichier introuvable. " ++ exn_str e)%string
       else print ("Erreur lors du chargement des données : " ++ exn_str e)%string).

(** ** The cleaner: [clean_data], data_manager.py:33-35 *)

(** [self.weather_data], which is [None] until a load succeeds. *)
Definition the_weather_data : M state DataFrame :=
  w <- gets (fun s => weather_data (self s)) ;;
  or_raise w (TypeError "'NoneType' object is not subscriptable").

Fixpoint all_some {A} (l : list (option A)) : option (list A) :=
  match l with
  | [] => Some []
  | Some a :: t => option_map (cons a) (all_some t)
  | None :: _ => None
  end.

(** [abs] of one value of a column: defined on numbers, missing stays
    missing. *)
Definition abs_cell (c : cell) : option cell :=
  match c with
  | Null => Some Null
  | Num x => Some (Num (Rabs x))
  | _ => None
  end.

(** The method has no [try]: what its one statement raises reaches the
    caller. *)
Definition clean_data : M state unit :=
  w <- the_weather_data ;;
  col <- getitem "rayonnement_solaire" w ;;
  absolute <- or_raise (all_some (map abs_cell col)) (TypeError "bad operand type for abs()") ;;
  set_self (set_weather_data (Some (set_col "rayonnement_solaire" absolute w))).

(** ** The resampler: [meteo_data_hourly_to_daily], data_manager.py:37-49 *)

Definition ns_per_day : Z := 86400000000000.

(** The calendar day of a timestamp, counted from the epoch. *)
Definition day_of (t : Z) : Z := (t / ns_per_day)%Z.

(** Midnight of a day. *)
Definition day_start (d : Z) : Z := (d * ns_per_day)%Z.

(** [pd.to_datetime(column, errors='coerce')]: what is no date becomes
    missing.  (Numbers, which pandas would read as offsets from the epoch,
    are not expected in a date column and are treated as no date.) *)
Definition to_datetime_coerce (c : cell) : cell :=
  match c with Date t => Date t | _ => Null end.

Definition row_day (idate : nat) (r : row) : option Z :=
  match cell_at idate r with
  | Date t => Some (day_of t)
  | _ => None
  end.

Definition on_day (idate : nat) (d : Z) (r : row) : bool :=
  match row_day idate r with
  | Some d' => Z.eqb d d'
  | None => false
  end.

Fixpoint seqZ (start : Z) (n : nat) : list Z :=
  match n with
  | O => []
  | S k => start :: seqZ (start + 1) k
  end.

Definition Zmin_list (d : Z) (l : list Z) : Z := fold_right Z.min d l.
Definition Zmax_list (d : Z) (l : list Z) : Z := fold_right Z.max d l.

(** A column is numeric when it holds numbers and missing values only. *)
Definition numeric_column (rs : list row) (i : nat) : bool :=
  forallb (fun r => is_numeric (cell_at i r)) rs.

(** The positions of the columns that [mean] aggregates: every numeric
    column but the index.  Other columns are left out of the result (newer
    pandas refuse them with [TypeError] instead). *)
Definition mean_columns (idate : nat) (df : DataFrame) : list nat :=
  filter (fun i => negb (Nat.eqb i idate) && numeric_column (rows df) i)
         (seq 0 (length (columns df))).

(** [df.set_index('date').resample('D').mean().reset_index()]: one row for
    each day from the first to the last day of the index, holding the mean of
    every numeric column over the rows of that day; rows without a date are in
    no day.  An index without any date, on a table with rows, is refused. *)
Definition resample_D_mean (idate : nat) (df : DataFrame) : option DataFrame :=
  let keep := mean_columns idate df in
  let cols := "date" :: map (fun i => nth i (columns df) "") keep in
  match keep_some (map (row_day idate) (rows df)) with
  | [] => match rows df with
          | [] => Some (mkDF cols [])
          | _ => None
          end
  | d :: ds =>
      let first := Zmin_list d ds in
      let last := Zmax_list d ds in
      Some (mkDF cols
              (map (fun day =>
                      let bin := filter (on_day idate day) (rows df) in
                      Date (day_start day)
                        :: map (fun i => series_mean (map (cell_at i) bin)) keep)
                   (seqZ first (Z.to_nat (last - first + 1)))))
  end.

Definition meteo_data_hourly_to_daily : M state unit :=
  try_except
    (w <- the_weather_data ;;
     col <- getitem "date" w ;;
     set_self (set_weather_data (Some (set_col "date" (map to_datetime_coerce col) w))) ;;;
     w <- the_weather_data ;;
     idate <- getpos "date" w ;;
     daily <- or_raise (resample_D_mean idate w) (ValueError "resample: no date in the index") ;;
     set_self (set_weather_data (Some daily)))
    (fun e => print ("Erreur lors de l'agrégation des données météo : " ++ exn_str e)%string).

(** ** The feature merger: [prepare_features], data_manager.py:60-108 *)

(** Order of [sort_values]: ascending, missing values last. *)
Definition sort_leb (a b : cell) : bool :=
  match a, b with
  | _, Null => true
  | Null, _ => false
  | _, _ => cell_leb a b
  end.

(** [df.sort_values(by=name)]; [None] when the column is absent.  Rows with
    equal keys keep their order here (numpy's default sort promises no order
    among them). *)
Definition sort_values (by_ : string) (df : DataFrame) : option DataFrame :=
  match col_index by_ (columns df) with
  | Some i =>
      Some (mkDF (columns df)
              (sort_by (fun r1 r2 => sort_leb (cell_at i r1) (cell_at i r2)) (rows df)))
  | None => None
  end.

Definition date_key (i : nat) (r : row) : option Z :=
  match cell_at i r with
  | Date t => Some t
  | _ => None
  end.

Fixpoint sortedb (l : list Z) : bool :=
  match l with
  | a :: ((b :: _) as t) => Z.leb a b && sortedb t
  | _ => true
  end.

(** The number of leading keys that satisfy [p]: where the scan of the
    sorted right keys stops. *)
Fixpoint scan (p : Z -> bool) (rs : list Z) : nat :=
  match rs with
  | r :: t => if p r then S (scan p t) else O
  | [] => O
  end.

(** [asof_join_backward]: the last right key [<=] the left key. *)
Definition asof_backward (l : Z) (rs : list Z) : option nat :=
  match scan (fun r => Z.leb r l) rs with
  | O => None
  | S n => Some n
  end.

(** [asof_join_forward]: the first right key [>=] the left key. *)
Definition asof_forward (l : Z) (rs : list Z) : option nat :=
  let n := scan (fun r => Z.ltb r l) rs in
  if Nat.ltb n (length rs) then Some n else None.

(** [asof_join_nearest]: of the backward and the forward match, the one at
    the smaller distance, the backward one when the distances are equal. *)
Definition asof_nearest (l : Z) (rs : list Z) : option nat :=
  match asof_backward l rs, asof_forward l rs with
  | Some bi, Some fi =>
      let bdiff := (l - nth bi rs 0)%Z in
      let fdiff := (nth fi rs 0 - l)%Z in
      if Z.leb bdiff fdiff then Some bi else Some fi
  | Some bi, None => Some bi
  | None, fo => fo
  end.

Definition mem (c : string) (l : list string) : bool := existsb (String.eqb c) l.

(** Column names of a merge: a name that both sides have, and that is no
    key, gets the suffix of its side. *)
Definition suffixed (sfx : string) (keys others : list string) (c : string) : string :=
  if negb (mem c keys) && mem c others then (c ++ sfx)%string else c.

(** The cells of a row at the positions not in [ps]. *)
Definition without (ps : list nat) (r : row) : row :=
  map snd (filter (fun ic => negb (existsb (Nat.eqb (fst ic)) ps))
                  (combine (seq 0 (length r)) r)).

Definition merged_columns (keys : list string) (left right : DataFrame) : list string :=
  map (suffixed "_x" keys (columns right)) (columns left)
  ++ map (suffixed "_y" keys (columns left))
         (filter (fun c => negb (mem c keys)) (columns right)).

Definition nulls (n : nat) : row := repeat Null n.

(** [pd.merge_asof(left, right, on="date", direction='nearest')]: both
    tables need the key, without missing values and sorted; every left row is
    kept, in order, followed by the other columns of its match, missing when
    the right table is empty. *)
Definition merge_asof_nearest {S} (left right : DataFrame) : M S DataFrame :=
  il <- getpos "date" left ;;
  ir <- getpos "date" right ;;
  lk <- or_raise (all_some (map (date_key il) (rows left)))
                 (ValueError "Merge keys contain null values on left side") ;;
  rk <- or_raise (all_some (map (date_key ir) (rows right)))
                 (ValueError "Merge keys contain null values on right side") ;;
  if sortedb lk && sortedb rk then
    ret (mkDF (merged_columns ["date"] left right)
           (map (fun lr =>
                   fst lr ++
                   match asof_nearest (snd lr) rk with
                   | Some j => without [ir] (nth j (rows right) [])
                   | None => nulls (length (columns right) - 1)
                   end)
                (combine (rows left) lk)))
  else raise (ValueError "keys must be sorted").

Fixpoint positions (names cols : list string) : option (list nat) :=
  match names with
  | [] => Some []
  | n :: t =>
      match col_index n cols, positions t cols with
      | Some i, Some l => Some (i :: l)
      | _, _ => None
      end
  end.

Definition keys_match (li ri : list nat) (lr rr : row) : bool :=
  forallb (fun p => cell_eqb (cell_at (fst p) lr) (cell_at (snd p) rr)) (combine li ri).

(** The type pandas gives a column: text ([object]) as soon as its values
    are not all of one kind or one of them is text, otherwise the type of the
    values present; a column without any value is a column of numbers, as
    [read_csv] types it. *)
Inductive dtype := float64 | object | datetime64 | category.

Definition dtype_name (d : dtype) : string :=
  match d with
  | float64 => "float64"
  | object => "object"
  | datetime64 => "datetime64[ns]"
  | category => "category"
  end.

Definition dtype_eqb (a b : dtype) : bool :=
  match a, b with
  | float64, float64 | object, object | datetime64, datetime64 | category, category => true
  | _, _ => false
  end.

Definition cell_dtype (c : cell) : option dtype :=
  match c with
  | Null => None
  | Num _ => Some float64
  | Str _ => Some object
  | Date _ => Some datetime64
  | Cat _ => Some category
  end.

Definition dtype_of (col : list cell) : dtype :=
  match keep_some (map cell_dtype col) with
  | [] => float64
  | d :: ds => if forallb (dtype_eqb d) ds then d else object
  end.

(** [_maybe_coerce_merge_keys]: the two columns of a key must have one type;
    the check is skipped when exactly one of the tables has no row, and a
    categorical key is left to the join. *)
Definition merge_keys_agree (lk rk : list cell) : bool :=
  match lk, rk with
  | [], _ :: _ | _ :: _, [] => true
  | _, _ =>
      match dtype_of lk, dtype_of rk with
      | category, _ | _, category => true
      | a, b => dtype_eqb a b
      end
  end.

Fixpoint check_merge_keys {S} (keys : list string) (li ri : list nat)
  (left right : DataFrame) : M S unit :=
  match keys, li, ri with
  | k :: keys', i :: li', j :: ri' =>
      let lk := map (cell_at i) (rows left) in
      let rk := map (cell_at j) (rows right) in
      if merge_keys_agree lk rk then check_merge_keys keys' li' ri' left right
      else raise (ValueError ("You are trying to merge on " ++ dtype_name (dtype_of lk)
                              ++ " and " ++ dtype_name (dtype_of rk)
                              ++ " columns for key '" ++ k
                              ++ "'. If you wish to proceed you should use pd.concat")%string)
  | _, _, _ => ret tt
  end.

(** [pd.merge(left, right, how='left', on=keys)]: both tables need the
    keys, of one type on both sides; then every left row, in order, once for
    each right row with the same key, and once with missing values when there
    is none. *)
Definition merge_left {S} (keys : list string) (left right : DataFrame) : M S DataFrame :=
  li <- or_raise (positions keys (columns left)) (KeyError "merge key") ;;
  ri <- or_raise (positions keys (columns right)) (KeyError "merge key") ;;
  check_merge_keys keys li ri left right ;;;
  ret (mkDF (merged_columns keys left right)
         (flat_map (fun lr =>
                      match filter (keys_match li ri lr) (rows right) with
                      | [] => [lr ++ nulls (length (columns right) - length keys)]
                      | ms => map (fun rr => lr ++ without ri rr) ms
                      end)
                   (rows left))).

(** [df.drop(columns=names, errors='ignore')] *)
Definition drop (names : list string) (df : DataFrame) : DataFrame :=
  let ps := map fst (filter (fun ic => mem (snd ic) names)
                            (combine (seq 0 (length (columns df))) (columns df))) in
  mkDF (filter (fun c => negb (mem c names)) (columns df))
       (map (without ps) (rows df)).

(** [df.rename(columns={old: new})] *)
Definition rename (old new : string) (df : DataFrame) : DataFrame :=
  mkDF (map (fun c => if String.eqb c old then new else c) (columns df)) (rows df).

(** data_manager.py:96-108 *)
Definition _enrich_with_yield_history (data : DataFrame) : M state DataFrame :=
  try_except
    (y <- gets (fun s => yield_history (self s)) ;;
     y <- or_raise y (TypeError "Can only merge Series or DataFrame objects") ;;
     merge_left ["parcelle_id"; "date"] data y)
    (fun e =>
       print ("Erreur lors de l'enrichissement avec les rendements historiques : "
              ++ exn_str e)%string ;;;
       ret data).

Definition prepare_features : M state (option DataFrame) :=
  try_except
    (m <- gets (fun s => monitoring_data (self s)) ;;
     m <- or_raise m (AttributeError "'NoneType' object has no attribute 'sort_values'") ;;
     m <- or_raise (sort_values "date" m) (KeyError "date") ;;
     set_self (set_monitoring_data (Some m)) ;;;
     w <- gets (fun s => weather_data (self s)) ;;
     w <- or_raise w (AttributeError "'NoneType' object has no attribute 'sort_values'") ;;
     w <- or_raise (sort_values "date" w) (KeyError "date") ;;
     set_self (set_weather_data (Some w)) ;;;
     (* Fusion des données de monitoring et météo *)
     data <- merge_asof_nearest m w ;;
     (* Ajout des données de sol *)
     soil <- gets (fun s => soil_data (self s)) ;;
     soil <- or_raise soil (TypeError "Can only merge Series or DataFrame objects") ;;
     data <- merge_left ["parcelle_id"] data soil ;;
     (* Enrichissement avec l'historique des rendements *)
     data <- _enrich_with_yield_history data ;;
     (* Nettoyage des colonnes inutiles *)
     let data := drop ["latitude_y"; "longitude_y"] data in
     let data := rename "longitude_x" "longitude" (rename "latitude_x" "latitude" data) in
     let data := drop ["culture_y"] data in
     let data := rename "culture_x" "culture" data in
     (* Sauvegarde des caractéristiques dans un fichier CSV *)
     to_csv "data/features.csv" data ;;;
     (* the printed line names the columns; the rendering of the index is abridged *)
     print ("Colonnes des données finales : " ++ String.concat ", " (columns data))%string ;;;
     ret (Some data))
    (fun e =>
       print ("Erreur lors de la préparation des caractéristiques : " ++ exn_str e)%string ;;;
       ret None).

(** ** The temporal analyser: [get_temporal_patterns], data_manager.py:110-163 *)

(** A series: values with their index labels.  A component of a
    decomposition may miss values. *)
Definition Series (V : Type) : Type := list (cell * V).

Definition index {V} (s : Series V) : list cell := map fst s.
Definition values {V} (s : Series V) : list V := map snd s.

(** [Series.dropna()] *)
Fixpoint dropna (s : Series cell) : Series cell :=
  match s with
  | [] => []
  | (_, Null) :: t => dropna t
  | p :: t => p :: dropna t
  end.

Fixpoint dropna_opt {V} (s : Series (option V)) : Series V :=
  match s with
  | [] => []
  | (i, Some v) :: t => (i, v) :: dropna_opt t
  | (_, None) :: t => dropna_opt t
  end.

Definition num_of (c : cell) : option R :=
  match c with Num x => Some x | _ => None end.

(** *** statsmodels: [seasonal_decompose(x, model="additive", period=12)] *)

Definition period : nat := 12.

(** The centred moving-average filter of an even period: half weights at
    both ends. *)
Definition filt : list R :=
  ((0.5 / 12) :: repeat (1 / 12) 11 ++ [0.5 / 12])%R.

Definition dot (a b : list R) : R :=
  Rsum (map (fun p => (fst p * snd p)%R) (combine a b)).

(** [convolution_filter(x, filt, nsides=2)]: the average of the 13 values
    around each position; the 6 positions at either end have none. *)
Definition convolution_filter (x : list R) : list (option R) :=
  map (fun i =>
         if Nat.leb 6 i && Nat.ltb (i + 6) (length x)
         then Some (dot filt (firstn 13 (skipn (i - 6) x)))
         else None)
      (seq 0 (length x)).

Definition opt_sub (a b : option R) : option R :=
  match a, b with
  | Some x, Some y => Some (x - y)%R
  | _, _ => None
  end.

(** [pd_nanmean(x[i::period])]: the mean of the values present at the
    positions [i], [i + period], ... *)
Definition seasonal_mean (detrended : list (option R)) (i : nat) : option R :=
  match keep_some (map snd (filter (fun p => Nat.eqb (fst p mod period) i)
                                   (combine (seq 0 (length detrended)) detrended))) with
  | [] => None
  | l => Some (Rmean l)
  end.

Record DecomposeResult := mkDecompose {
  trend : Series (option R);
  seasonal : Series (option R);
  resid : Series (option R)
}.

(** The decomposition needs two complete cycles; then the trend is the
    moving average, the seasonal component repeats the centred means of the
    detrended values by position in the cycle, and the residual is what is
    left.  The components carry the index of the input. *)
Definition seasonal_decompose (s : Series R) : option DecomposeResult :=
  let x := values s in
  if Nat.ltb (length x) (2 * period) then None
  else
    let tr := convolution_filter x in
    let detrended := map (fun p => opt_sub (Some (fst p)) (snd p)) (combine x tr) in
    match all_some (map (seasonal_mean detrended) (seq 0 period)) with
    | None =>
        let missing := map (fun _ => @None R) x in
        Some (mkDecompose (combine (index s) tr) (combine (index s) missing)
                          (combine (index s) missing))
    | Some averages =>
        let centred := map (fun a => (a - Rmean averages)%R) averages in
        let seas := map (fun i => Some (nth (i mod period) centred 0%R))
                        (seq 0 (length x)) in
        Some (mkDecompose
                (combine (index s) tr)
                (combine (index s) seas)
                (combine (index s)
                         (map (fun p => opt_sub (fst p) (snd p)) (combine detrended seas))))
    end.

(** *** scikit-learn: [LinearRegression().fit(X, y)] with one feature *)

(** Least squares of [y] on [x]: [(slope, intercept)].  The fit refuses
    samples of different lengths; when all [x] are equal the slope is 0. *)
Definition LinearRegression_fit (x y : list R) : option (R * R) :=
  if Nat.eqb (length x) (length y) && negb (Nat.eqb (length x) 0) then
    let xm := Rmean x in
    let ym := Rmean y in
    let sxx := Rsum (map (fun a => ((a - xm) * (a - xm))%R) x) in
    let sxy := Rsum (map (fun p => ((fst p - xm) * (snd p - ym))%R) (combine x y)) in
    let slope := if Req_dec_T sxx 0 then 0%R else (sxy / sxx)%R in
    Some (slope, (ym - slope * xm)%R)
  else None.

(** [datetime.toordinal]: days since 0001-01-01, that day being 1; not
    defined on a missing date. *)
Definition toordinal (c : cell) : option R :=
  match c with
  | Date t => Some (IZR (day_of t + 719163))
  | _ => None
  end.

(** *** The method *)

Record trend_fit := mkTrend {
  pente : R;
  intercept : R;
  variation_moyenne : R
}.

Record summary_stats := mkStats {
  mean_ndvi : R;
  std_ndvi : R;
  min_ndvi : R;
  max_ndvi : R
}.

Record history := mkHistory {
  ndvi_trend : Series R;
  ndvi_seasonal : Series (option R);
  ndvi_residual : Series R;
  ndvi_moving_avg : Series R;
  stats : summary_stats
}.

(** [s.rolling(window=30).mean()]: from the 30th value on, the mean of the
    last 30 values. *)
Definition rolling_mean (window : nat) (s : Series R) : Series (option R) :=
  combine (index s)
    (map (fun i =>
            if Nat.leb window (i + 1)
            then Some (Rmean (firstn window (skipn (i + 1 - window) (values s))))
            else None)
         (seq 0 (length s))).

(** [Series.std()], with [ddof=1]. *)
Definition series_std (x : list R) : R :=
  sqrt (Rsum (map (fun a => ((a - Rmean x) * (a - Rmean x))%R) x) / INR (length x - 1)).

Definition Rmin_list (x : list R) : R :=
  match x with [] => 0%R | a :: t => fold_right Rmin a t end.
Definition Rmax_list (x : list R) : R :=
  match x with [] => 0%R | a :: t => fold_right Rmax a t end.

(** The [try] block. *)
Definition get_temporal_patterns_try (parcelle_id : string) : M state (history * trend_fit) :=
  features <- read_csv "data/features.csv" ["date"] ;;
  ipid <- getpos "parcelle_id" features ;;
  let parcelle_data :=
    mkDF (columns features)
         (filter (fun r => cell_eqb (cell_at ipid r) (Str parcelle_id)) (rows features)) in
  if negb (has_column "ndvi" parcelle_data)
  then raise (KeyError "Colonne NDVI introuvable dans les données.")
  else
  if empty parcelle_data
  then raise (ValueError ("Aucune donnée trouvée pour parcelle_id : " ++ parcelle_id)%string)
  else
  parcelle_data <- or_raise (sort_values "date" parcelle_data) (KeyError "date") ;;
  idate <- getpos "date" parcelle_data ;;
  indvi <- getpos "ndvi" parcelle_data ;;
  let ndvi_series :=
    dropna (map (fun r => (cell_at idate r, cell_at indvi r)) (rows parcelle_data)) in
  if Nat.ltb (length ndvi_series) 12
  then raise (ValueError "Pas assez de points de données pour une décomposition saisonnière.")
  else
  (* Décomposition saisonnière *)
  ndvi_values <- or_raise (all_some (map num_of (values ndvi_series)))
                          (ValueError "could not convert to float") ;;
  let ndvi_series := combine (index ndvi_series) ndvi_values in
  decomposition <- or_raise (seasonal_decompose ndvi_series)
                     (ValueError "x must have 2 complete cycles requires 24 observations.") ;;
  (* Modélisation linéaire pour analyser la tendance *)
  date_ordinal <- or_raise (all_some (map (fun r => toordinal (cell_at idate r))
                                          (rows parcelle_data)))
                           (ValueError "NaTType does not support toordinal") ;;
  fit <- or_raise (LinearRegression_fit date_ordinal ndvi_values)
           (ValueError "Found input variables with inconsistent numbers of samples") ;;
  let trend_slope := fst fit in
  let trend_intercept := snd fit in
  let mean := Rmean ndvi_values in
  ret (mkHistory
         (dropna_opt (trend decomposition))
         (seasonal decomposition)
         (dropna_opt (resid decomposition))
         (dropna_opt (rolling_mean 30 ndvi_series))
         (mkStats mean (series_std ndvi_values)
                  (Rmin_list ndvi_values) (Rmax_list ndvi_values)),
       mkTrend trend_slope trend_intercept
               (if Req_dec_T mean 0 then 0%R else (trend_slope / mean)%R)).

(** The method returns the pair [(history, trend)], and [(None, None)] after
    any exception. *)
Definition get_temporal_patterns (parcelle_id : string)
  : M state (option history * option trend_fit) :=
  try_except
    (r <- get_temporal_patterns_try parcelle_id ;; ret (Some (fst r), Some (snd r)))
    (fun e =>
       print ("Erreur dans get_temporal_patterns : " ++ exn_str e)%string ;;;
       ret (None, None)).

(** ** Vocabulary of the properties *)

(** A table is rectangular: every row has one cell per column. *)
Definition wf (df : DataFrame) : Prop :=
  Forall (fun r => length r = length (columns df)) (rows df).

(** The value a call returned, if it returned a table. *)
Definition returned_table {S} (r : outcome (option DataFrame) * S) : Prop :=
  exists g, fst r = Ok (Some g).

(** The caller's table after a call of [calculate_risk_metrics]. *)
Definition data_after {A} (r : outcome A * (option DataFrame * state)) : option DataFrame :=
  fst (snd r).

Definition with_line (line : string) (s : state) : state :=
  mkState (self s) (mkWorld (fs (env s)) (writable (env s)) (stdout (env s) ++ [line])).

Definition with_scaler (fitted : StandardScaler) (s : state) : state :=
  mkState (mkManager (monitoring_data (self s)) (weather_data (self s))
                     (soil_data (self s)) (yield_history (self s)) fitted)
          (env s).

Definition with_file (path : string) (df : DataFrame) (s : state) : state :=
  mkState (self s) (mkWorld ((path, CsvFile df) :: fs (env s)) true (stdout (env s))).

Definition risk_error_line (e : exn) : string :=
  ("Erreur lors du calcul des métriques de risque : " ++ exn_str e)%string.

(** What a run that gets past the normalisation computes: the fitted
    scaler, the caller's table with its two new columns, and the aggregate. *)
Inductive scored (d : DataFrame) : StandardScaler -> DataFrame -> DataFrame -> Prop :=
| Scored c0 c1 c2 fitted n0 n1 n2 ri ip ic ir ig :
    get_col "rendement_estime" d = Some c0 ->
    get_col "ph" d = Some c1 ->
    get_col "matiere_organique" d = Some c2 ->
    fit_transform [c0; c1; c2] = Some (fitted, [n0; n1; n2]) ->
    let d1 := set_col "risk_index" (map3 risk_index_of n0 n1 n2) d in
    get_col "risk_index" d1 = Some ri ->
    let d2 := set_col "risk_category"
                (map (fun c => cat_cell (cut risk_bins risk_labels c)) ri) d1 in
    col_index "parcelle_id" (columns d2) = Some ip ->
    col_index "culture" (columns d2) = Some ic ->
    col_index "risk_index" (columns d2) = Some ir ->
    col_index "risk_category" (columns d2) = Some ig ->
    scored d fitted d2 (groupby_agg ip ic ir ig (rows d2)).

(** The standard score of [x] in a column: centred on the mean of the
    column and divided by its standard deviation, both taken over the values
    present in the column; a constant column is centred only. *)
Definition standardize (col : list cell) (x : R) : R :=
  ((x - Rmean (nums col)) /
   (if Req_dec_T (Rvar (nums col)) 0 then 1 else sqrt (Rvar (nums col))))%R.

(** ** Sample inputs *)

(** Two observations of one parcel and crop. *)
Definition sample_features : DataFrame :=
  mkDF ["parcelle_id"; "culture"; "rendement_estime"; "ph"; "matiere_organique"]
       [[Str "P001"; Str "Ble"; Num 1; Num 1; Num 1];
        [Str "P001"; Str "Ble"; Num (-1); Num (-1); Num (-1)]].

(** The same table without the column [ph]. *)
Definition sample_without_ph : DataFrame :=
  mkDF ["parcelle_id"; "culture"; "rendement_estime"; "matiere_organique"]
       [[Str "P001"; Str "Ble"; Num 1; Num 1];
        [Str "P001"; Str "Ble"; Num (-1); Num (-1)]].

(** A fresh manager in a directory where nothing was loaded and files can be
    written. *)
Definition fresh_state : state := mkState init (mkWorld [] true []).

(** ** Vocabulary of the aggregation *)

(** The pair of keys of a row of the aggregate. *)
Definition pair_of (r : row) : key := (cell_at 0 r, cell_at 1 r).

(** The values of a column in the rows whose keys are [k]. *)
Definition select (keys : list key) (k : key) (vals : list cell) : list cell :=
  map snd (filter (fun kv => key_eqb k (fst kv)) (combine keys vals)).

(** [m] is the lowest of the most frequent categories of [l], and missing
    when [l] is empty. *)
Definition lowest_mode (l : list risk_level) (m : cell) : Prop :=
  (l = [] /\ m = Null) \/
  (exists c, m = Cat c /\ In c l /\
             (forall c', count_level c' l <= count_level c l)%nat /\
             (forall c', count_level c' l = count_level c l ->
                         risk_level_code c <= risk_level_code c')%nat).

(** Following the specification's words: of the most frequent categories,
    the one met first in the rows. *)
Definition first_encountered_mode (l : list risk_level) : option risk_level :=
  let top := fold_right Nat.max 0%nat (map (fun c => count_level c l) l) in
  find (fun c => Nat.eqb (count_level c l) top) l.

(** The sample table once scored, and its aggregate. *)
Definition sample_scored : DataFrame :=
  mkDF ["parcelle_id"; "culture"; "rendement_estime"; "ph"; "matiere_organique";
        "risk_index"; "risk_category"]
       [[Str "P001"; Str "Ble"; Num 1; Num 1; Num 1; Num 1; Cat Modere];
        [Str "P001"; Str "Ble"; Num (-1); Num (-1); Num (-1); Num (-1); Cat TresBas]].

Definition sample_risk_table : DataFrame :=
  mkDF ["parcelle_id"; "culture"; "avg_risk_index"; "most_frequent_risk_category"]
       [[Str "P001"; Str "Ble"; Num 0; Cat TresBas]].

(** ** Vocabulary of the resampling *)

(** The date cell of a row coerced to a date, as [pd.to_datetime] leaves
    it. *)
Definition coerce_row (idate : nat) (r : row) : row :=
  replace_nth idate (to_datetime_coerce (cell_at idate r)) r.

(** The values of a row in the numeric columns other than the date. *)
Definition numeric_values (idate : nat) (w : DataFrame) (r : row) : row :=
  map (fun i => cell_at i r) (mean_columns idate w).

(** The weather table after a call of [meteo_data_hourly_to_daily]. *)
Definition weather_after (s : state) : option DataFrame :=
  weather_data (self (snd (meteo_data_hourly_to_daily s))).

(** Hourly weather on day 0 and day 2, nothing on day 1. *)
Definition sample_weather : DataFrame :=
  mkDF ["date"; "rayonnement_solaire"]
       [[Date 0; Num 10];
        [Date 3600000000000; Num 20];
        [Date (2 * 86400000000000); Num 30]].

(** One row a day, on days 3, 4 and 5, at noon, not in order. *)
Definition sample_daily_weather : DataFrame :=
  mkDF ["date"; "rayonnement_solaire"]
       [[Date (4 * 86400000000000 + 43200000000000); Num 20];
        [Date (3 * 86400000000000 + 43200000000000); Num 10];
        [Date (5 * 86400000000000 + 43200000000000); Null]].

(** The sample weather once resampled: the mean of day 0, nothing on day 1,
    the value of day 2. *)
Definition sample_weather_resampled : DataFrame :=
  mkDF ["date"; "rayonnement_solaire"]
       [[Date 0; Num (Rmean [10; 20]%R)];
        [Date 86400000000000; Null];
        [Date (2 * 86400000000000); Num (Rmean [30]%R)]].

(** Three hourly rows of one day, the first with an inverted sign. *)
Definition sample_hourly : DataFrame :=
  mkDF ["date"; "rayonnement_solaire"]
       [[Date 0; Num (-5)];
        [Date 3600000000000; Num 10];
        [Date 7200000000000; Num 9]].

Definition state_with_weather (w : DataFrame) : state :=
  mkState (set_weather_data (Some w) init) (mkWorld [] true []).

(** ** Sample inputs of the feature merger *)

Definition day (n : Z) : Z := (n * 86400000000000)%Z.

(** Two observations of a parcel, on day 10 and on day 20. *)
Definition sample_monitoring : DataFrame :=
  mkDF ["parcelle_id"; "date"; "ndvi"]
       [[Str "P001"; Date (day 20); Num 2];
        [Str "P001"; Date (day 10); Num 1]].

(** Daily weather on days 8, 13, 19 and 21; the temperature tells the
    day. *)
Definition sample_daily : DataFrame :=
  mkDF ["date"; "temperature"]
       [[Date (day 13); Num 13];
        [Date (day 8); Num 8];
        [Date (day 21); Num 21];
        [Date (day 19); Num 19]].

Definition sample_soil : DataFrame :=
  mkDF ["parcelle_id"; "ph"] [[Str "P001"; Num 7]].

Definition sample_yield : DataFrame :=
  mkDF ["parcelle_id"; "date"; "rendement_estime"]
       [[Str "P001"; Date (day 10); Num 3]].

Definition sample_loaded : state :=
  mkState (mkManager (Some sample_monitoring) (Some sample_daily)
                     (Some sample_soil) (Some sample_yield) StandardScaler_new)
          (mkWorld [] true []).

(** The features of the sample: the observation of day 10 with the weather
    of day 8, that of day 20 with the weather of day 19. *)
Definition sample_merged : DataFrame :=
  mkDF ["parcelle_id"; "date"; "ndvi"; "temperature"; "ph"; "rendement_estime"]
       [[Str "P001"; Date (day 10); Num 1; Num 8; Num 7; Num 3];
        [Str "P001"; Date (day 20); Num 2; Num 19; Num 7; Null]].





(** The last steps of [prepare_features], data_manager.py:81-85. *)
Definition tidy (data : DataFrame) : DataFrame :=
  rename "culture_x" "culture"
    (drop ["culture_y"]
       (rename "longitude_x" "longitude"
          (rename "latitude_x" "latitude"
             (drop ["latitude_y"; "longitude_y"] data)))).





(** The sorted sample tables. *)
Definition sample_monitoring_sorted : DataFrame :=
  mkDF ["parcelle_id"; "date"; "ndvi"]
       [[Str "P001"; Date (day 10); Num 1];
        [Str "P001"; Date (day 20); Num 2]].

Definition sample_daily_sorted : DataFrame :=
  mkDF ["date"; "temperature"]
       [[Date (day 8); Num 8];
        [Date (day 13); Num 13];
        [Date (day 19); Num 19];
        [Date (day 21); Num 21]].

(** ** Sample inputs of the temporal analyser *)

(** One observation a day of parcel P001 from day 1 on, [n] of them, all
    with an NDVI. *)
Definition observations (n : nat) : list row :=
  map (fun d => [Str "P001"; Date (day d); Num (IZR d)]) (seqZ 1 n).

Definition features_columns : list string := ["parcelle_id"; "date"; "ndvi"].

(** Twelve observations. *)
Definition twelve_observations : DataFrame :=
  mkDF features_columns (observations 12).

(** Twenty-four observations and one more row of the parcel, on day 25,
    whose NDVI is missing. *)
Definition observations_with_gap : DataFrame :=
  mkDF features_columns (observations 24 ++ [[Str "P001"; Date (day 25); Null]]).

(** A manager beside a persisted feature table. *)
Definition state_with_features (features : DataFrame) : state :=
  mkState init (mkWorld [("data/features.csv", CsvFile features)] true []).

(** The NDVI observations of a parcel in a table: the values present in
    the rows of the parcel. *)
Definition ndvi_observations (parcelle_id : string) (features : DataFrame) : list cell :=
  match col_index "parcelle_id" (columns features), col_index "ndvi" (columns features) with
  | Some ipid, Some indvi =>
      filter (fun c => negb (is_null c))
        (map (cell_at indvi)
             (filter (fun r => cell_eqb (cell_at ipid r) (Str parcelle_id)) (rows features)))
  | _, _ => []
  end.

(** The rows of a parcel in the feature table. *)
Definition parcel_rows (ipid : nat) (parcelle_id : string) (features : DataFrame) : list row :=
  filter (fun r => cell_eqb (cell_at ipid r) (Str parcelle_id)) (rows features).

(** What a successful analysis of a parcel went through, and its result. *)
Inductive analysed (parcelle_id : string) (features : DataFrame)
  : nat -> nat -> nat -> history * trend_fit -> Prop :=
| Analysed ipid idate indvi sorted ndvi_values dec ords fit :
    col_index "parcelle_id" (columns features) = Some ipid ->
    sort_values "date" (mkDF (columns features) (parcel_rows ipid parcelle_id features))
      = Some sorted ->
    col_index "date" (columns sorted) = Some idate ->
    col_index "ndvi" (columns sorted) = Some indvi ->
    let series := dropna (map (fun r => (cell_at idate r, cell_at indvi r)) (rows sorted)) in
    all_some (map num_of (values series)) = Some ndvi_values ->
    seasonal_decompose (combine (index series) ndvi_values) = Some dec ->
    all_some (map (fun r => toordinal (cell_at idate r)) (rows sorted)) = Some ords ->
    LinearRegression_fit ords ndvi_values = Some fit ->
    analysed parcelle_id features ipid idate indvi
      (mkHistory
         (dropna_opt (trend dec))
         (seasonal dec)
         (dropna_opt (resid dec))
         (dropna_opt (rolling_mean 30 (combine (index series) ndvi_values)))
         (mkStats (Rmean ndvi_values) (series_std ndvi_values)
                  (Rmin_list ndvi_values) (Rmax_list ndvi_values)),
       mkTrend (fst fit) (snd fit)
               (if Req_dec_T (Rmean ndvi_values) 0 then 0%R
                else (fst fit / Rmean ndvi_values)%R)).

(** Twenty-four observations. *)
Definition twenty_four_observations : DataFrame :=
  mkDF features_columns (observations 24).

(** ** Vocabulary of the further properties *)

(** The message of the scaler when it refuses the columns. *)
Definition scaler_error : exn :=
  ValueError "StandardScaler: not a non-empty table of numbers".

(** The files after a call of [calculate_risk_metrics]. *)
Definition files_after {A X} (r : outcome A * (X * state)) : list (string * file) :=
  fs (env (snd (snd r))).

(** The table [read_csv] gets from a path: the file exists, holds a table
    and has the columns to read as dates. *)
Definition readable (path : string) (dates : list string) (s : state) : option DataFrame :=
  match lookup_file path (fs (env s)) with
  | Some (CsvFile df) => if forallb (fun c => has_column c df) dates then Some df else None
  | _ => None
  end.

(** The manager with a table in place of one of its four. *)
Definition with_self (m : AgriculturalDataManager) (s : state) : state :=
  mkState m (env s).

(** A directory that holds the four files of the loader. *)
Definition state_with_files (m w so y : file) : state :=
  mkState init
    (mkWorld [("data/monitoring_cultures.csv", m); ("data/meteo_detaillee.csv", w);
              ("data/sols.csv", so); ("data/historique_rendements.csv", y)] true []).

(** [abs] on a cell of a numeric column. *)
Definition abs_value (c : cell) : cell :=
  match c with
  | Num x => Num (Rabs x)
  | c => c
  end.

(** The values a column holds in the rows of a day: [dates] is the date
    column of the table, [col] another of its columns. *)
Definition values_on_day (dates col : list cell) (d : Z) : list cell :=
  map snd
      (filter (fun p => match fst p with
                        | Date t => Z.eqb d (day_of t)
                        | _ => false
                        end)
              (combine dates col)).

(** The line [prepare_features] prints when it has saved the features. *)
Definition columns_line (data : DataFrame) : string :=
  ("Colonnes des données finales : " ++ String.concat ", " (columns data))%string.

(** The line the analyser prints when it gives up. *)
Definition patterns_error_line (e : exn) : string :=
  ("Erreur dans get_temporal_patterns : " ++ exn_str e)%string.

(** A feature table without the column [ndvi]. *)
Definition observations_without_ndvi : DataFrame :=
  mkDF ["parcelle_id"; "date"]
       [[Str "P001"; Date 86400000000000]; [Str "P001"; Date 172800000000000]].

(** A value that is there. *)
Definition present {A} (o : option A) : bool :=
  match o with Some _ => true | None => false end.

(** The two columns of a key have types that [pd.merge] does not join. *)
Definition key_types_differ (name : string) (left right : DataFrame) : Prop :=
  exists lk rk, get_col name left = Some lk /\ get_col name right = Some rk /\
                merge_keys_agree lk rk = false.

(** The reasons for which the enrichment gives up: no yield history, a key
    column missing in one of the two tables, or a key of two types. *)
Definition enrichment_fails (data : DataFrame) (s : state) : Prop :=
  match yield_history (self s) with
  | None => True
  | Some y =>
      has_column "parcelle_id" data = false \/ has_column "date" data = false \/
      has_column "parcelle_id" y = false \/ has_column "date" y = false \/
      key_types_differ "parcelle_id" data y \/ key_types_differ "date" data y
  end.

(** A table and a yield history whose parcels are numbers on one side and
    text on the other. *)
Definition sample_numbered : DataFrame :=
  mkDF ["parcelle_id"; "date"; "ndvi"]
       [[Num 1; Date 86400000000000; Num 2]].

Definition state_with_yield (y : DataFrame) : state :=
  mkState (mkManager None None None (Some y) StandardScaler_new) (mkWorld [] true []).

(** * Properties *)

(** ** Categories *)

Lemma risk_level_code_inj a b : risk_level_code a = risk_level_code b -> a = b.
Proof. destruct a, b; simpl; congruence. Qed.

Lemma risk_level_eqb_eq a b : risk_level_eqb a b = true <-> a = b.
Proof.
  unfold risk_level_eqb. rewrite Nat.eqb_eq. split.
  - apply risk_level_code_inj.
  - intros ->. reflexivity.
Qed.

(** ** Columns *)

Lemma col_index_app_l name cols extra i :
  col_index name cols = Some i -> col_index name (cols ++ extra) = Some i.
Proof.
  revert i. induction cols as [|c cs IH]; simpl; intros i H; [discriminate|].
  destruct (String.eqb name c); [exact H|].
  destruct (col_index name cs) as [j|]; [|discriminate].
  rewrite (IH j eq_refl). exact H.
Qed.

Lemma col_index_app_new name cols :
  col_index name cols = None -> col_index name (cols ++ [name]) = Some (length cols).
Proof.
  induction cols as [|c cs IH]; simpl; intros H.
  - rewrite String.eqb_refl. reflexivity.
  - destruct (String.eqb name c); [discriminate|].
    destruct (col_index name cs); [discriminate|].
    rewrite (IH eq_refl). reflexivity.
Qed.

Lemma col_index_lt name cols i :
  col_index name cols = Some i -> (i < length cols)%nat.
Proof.
  revert i. induction cols as [|c cs IH]; simpl; intros i H; [discriminate|].
  destruct (String.eqb name c).
  - injection H as <-. lia.
  - destruct (col_index name cs) as [j|]; [|discriminate].
    injection H as <-. specialize (IH j eq_refl). lia.
Qed.

Lemma has_column_col_index name df :
  has_column name df = true <-> col_index name (columns df) <> None.
Proof.
  unfold has_column. induction (columns df) as [|c cs IH]; simpl.
  - split; [discriminate | congruence].
  - destruct (String.eqb name c); simpl.
    + split; [discriminate | reflexivity].
    + rewrite IH. destruct (col_index name cs); simpl; split; congruence.
Qed.

Lemma columns_set_col name v df :
  columns (set_col name v df) =
  match col_index name (columns df) with
  | Some _ => columns df
  | None => columns df ++ [name]
  end.
Proof. unfold set_col. destruct (col_index name (columns df)); reflexivity. Qed.

Lemma col_index_set_col_same name v df :
  col_index name (columns (set_col name v df)) =
  Some (match col_index name (columns df) with
        | Some i => i
        | None => length (columns df)
        end).
Proof.
  rewrite columns_set_col.
  destruct (col_index name (columns df)) eqn:E; [exact E|].
  apply col_index_app_new, E.
Qed.

Lemma col_index_set_col_other name other v df i :
  col_index other (columns df) = Some i ->
  col_index other (columns (set_col name v df)) = Some i.
Proof.
  intros H. rewrite columns_set_col.
  destruct (col_index name (columns df)); [exact H|].
  apply col_index_app_l, H.
Qed.

(** ** The runs of [calculate_risk_metrics] *)

Lemma check_required_run {S} cols d (s : S) :
  check_required cols d s =
  match find (fun c => negb (has_column c d)) cols with
  | Some c => (Raise (KeyError ("Colonne requise manquante : " ++ c)%string), s)
  | None => (Ok tt, s)
  end.
Proof.
  induction cols as [|c cs IH]; simpl; [reflexivity|].
  destruct (has_column c d); simpl; [apply IH | reflexivity].
Qed.

Lemma get_col_has_column name d :
  has_column name d = true -> exists c, get_col name d = Some c.
Proof.
  rewrite has_column_col_index. unfold get_col.
  destruct (col_index name (columns d)); [eauto | congruence].
Qed.

Lemma fit_transform_shape X fitted N :
  fit_transform X = Some (fitted, N) -> length N = length X.
Proof.
  unfold fit_transform. destruct (_ && _); [|discriminate].
  intros H. injection H as _ <-. apply length_map.
Qed.

(** The three ways a call on a table ends: a required column is missing; the
    scaler refuses the three columns; or the table is scored, and then the
    result depends on whether the aggregate can be saved. *)
Lemma calculate_risk_metrics_cases d s :
  (exists col,
      find (fun c => negb (has_column c d)) required_columns = Some col /\
      calculate_risk_metrics (Some d, s) =
        (Ok None, (Some d, with_line (risk_error_line
           (KeyError ("Colonne requise manquante : " ++ col)%string)) s)))
  \/ (exists e,
      calculate_risk_metrics (Some d, s) =
        (Ok None, (Some d, with_line (risk_error_line e) (with_scaler StandardScaler_new s))))
  \/ (exists fitted d2 g,
      scored d fitted d2 g /\
      calculate_risk_metrics (Some d, s) =
        if writable (env s)
        then (Ok (Some g),
              (Some d2, with_file "data/grouped_risk_metrics.csv" g (with_scaler fitted s)))
        else (Ok None,
              (Some d2, with_line (risk_error_line
                  (OSError "Cannot save file into a non-existent directory: data/grouped_risk_metrics.csv"))
                  (with_scaler fitted s)))).
Proof.
  unfold calculate_risk_metrics, calculate_risk_metrics_try, try_except.
  unfold bind, get_arg, gets, or_raise, ret. cbn beta iota delta [fst snd].
  rewrite check_required_run.
  destruct (find _ required_columns) as [col|] eqn:Efind.
  { left. exists col. split; [reflexivity|]. reflexivity. }
  assert (Hall : forall c, In c required_columns -> has_column c d = true).
  { intros c Hc. pose proof (find_none _ _ Efind c Hc) as H.
    simpl in H. destruct (has_column c d); [reflexivity | discriminate H]. }
  destruct (get_col_has_column "rendement_estime" d) as [c0 E0]; [apply Hall; simpl; tauto|].
  destruct (get_col_has_column "ph" d) as [c1 E1]; [apply Hall; simpl; tauto|].
  destruct (get_col_has_column "matiere_organique" d) as [c2 E2]; [apply Hall; simpl; tauto|].
  assert (Hp : col_index "parcelle_id" (columns d) <> None)
    by (apply has_column_col_index, Hall; simpl; tauto).
  assert (Hc : col_index "culture" (columns d) <> None)
    by (apply has_column_col_index, Hall; simpl; tauto).
  unfold getitem, or_raise, ret. rewrite E0, E1, E2. cbn beta iota.
  destruct (fit_transform [c0; c1; c2]) as [[fitted N]|] eqn:Efit.
  2:{ right; left. eexists. reflexivity. }
  pose proof (fit_transform_shape _ _ _ Efit) as HN.
  destruct N as [|n0 [|n1 [|n2 [|]]]]; try discriminate HN.
  right; right.
  set (d1 := set_col "risk_index" (map3 risk_index_of n0 n1 n2) d).
  destruct (get_col "risk_index" d1) as [ri|] eqn:Eri.
  2:{ unfold get_col, d1 in Eri. rewrite col_index_set_col_same in Eri. discriminate. }
  set (d2 := set_col "risk_category"
                (map (fun c => cat_cell (cut risk_bins risk_labels c)) ri) d1).
  destruct (col_index "parcelle_id" (columns d)) as [ip|] eqn:Eip; [|congruence].
  destruct (col_index "culture" (columns d)) as [ic|] eqn:Eic; [|congruence].
  assert (Eip2 : col_index "parcelle_id" (columns d2) = Some ip)
    by (unfold d2, d1; do 2 apply col_index_set_col_other; exact Eip).
  assert (Eic2 : col_index "culture" (columns d2) = Some ic)
    by (unfold d2, d1; do 2 apply col_index_set_col_other; exact Eic).
  destruct (col_index "risk_index" (columns d2)) as [ir|] eqn:Eir.
  2:{ unfold d2 in Eir. erewrite col_index_set_col_other in Eir; [discriminate|].
      unfold d1. apply col_index_set_col_same. }
  destruct (col_index "risk_category" (columns d2)) as [ig|] eqn:Eig.
  2:{ unfold d2 in Eig. rewrite col_index_set_col_same in Eig. discriminate. }
  exists fitted, d2, (groupby_agg ip ic ir ig (rows d2)). split.
  - eapply Scored; eauto.
  - unfold lift, set_self, set_arg, getpos, or_raise, ret, to_csv, print, raise, modify.
    cbn beta iota delta [fst snd]. fold d1. rewrite Eri. cbn beta iota delta [fst snd].
    fold d2. rewrite Eip2, Eic2, Eir, Eig. cbn beta iota delta [fst snd self env].
    destruct (writable (env s)); reflexivity.
Qed.

(** ** Reading back what [set_col] wrote *)

Lemma nth_replace_nth_same {A} i (x d : A) l :
  (i < length l)%nat -> nth i (replace_nth i x l) d = x.
Proof.
  revert i. induction l as [|h t IH]; intros [|i] H; simpl in *; try lia.
  - reflexivity.
  - apply IH. lia.
Qed.

Lemma nth_replace_nth_other {A} i j (x d : A) l :
  i <> j -> nth j (replace_nth i x l) d = nth j l d.
Proof.
  revert i j. induction l as [|h t IH]; intros [|i] [|j] H; simpl; try reflexivity.
  - congruence.
  - apply IH. congruence.
Qed.

Lemma length_replace_nth {A} i (x : A) l : length (replace_nth i x l) = length l.
Proof.
  revert i. induction l as [|h t IH]; intros [|i]; simpl; try reflexivity.
  f_equal. apply IH.
Qed.

Lemma rows_set_col name v df :
  length v = nrows df -> length (rows (set_col name v df)) = nrows df.
Proof.
  intros H. unfold set_col, nrows in *.
  destruct (col_index name (columns df)); simpl;
    rewrite length_map, length_combine; lia.
Qed.

Lemma wf_set_col name v df :
  wf df -> wf (set_col name v df).
Proof.
  unfold wf, set_col. intros H.
  destruct (col_index name (columns df)) as [i|]; simpl.
  - apply Forall_forall. intros r Hr. apply in_map_iff in Hr.
    destruct Hr as [[r0 x] [<- Hin]]. simpl. rewrite length_replace_nth.
    apply in_combine_l in Hin. rewrite Forall_forall in H. apply H, Hin.
  - apply Forall_forall. intros r Hr. apply in_map_iff in Hr.
    destruct Hr as [[r0 x] [<- Hin]]. simpl. rewrite !length_app. simpl.
    apply in_combine_l in Hin. rewrite Forall_forall in H. rewrite (H _ Hin). reflexivity.
Qed.

Lemma map_combine_rows {A B C} (f : A -> B -> C) (g : C -> B) (l : list A) (v : list B) :
  length v = length l ->
  (forall a b, In a l -> g (f a b) = b) ->
  map g (map (fun p => f (fst p) (snd p)) (combine l v)) = v.
Proof.
  revert v. induction l as [|a l IH]; intros [|b v] Hlen Hg; simpl in *; try discriminate.
  - reflexivity.
  - rewrite Hg by auto. f_equal. apply IH; [lia | auto].
Qed.

Lemma map_combine_keep {A B C D} (f : A -> B -> C) (g : C -> D) (h : A -> D)
  (l : list A) (v : list B) :
  length v = length l ->
  (forall a b, In a l -> g (f a b) = h a) ->
  map g (map (fun p => f (fst p) (snd p)) (combine l v)) = map h l.
Proof.
  revert v. induction l as [|a l IH]; intros [|b v] Hlen Hg; simpl in *; try discriminate.
  - reflexivity.
  - rewrite Hg by auto. f_equal. apply IH; [lia | auto].
Qed.

Lemma get_col_set_col_same name v df :
  wf df -> length v = nrows df ->
  get_col name (set_col name v df) = Some v.
Proof.
  intros Hwf Hlen. unfold get_col. rewrite col_index_set_col_same.
  f_equal. unfold set_col, wf, nrows in *. rewrite Forall_forall in Hwf.
  destruct (col_index name (columns df)) as [i|] eqn:E; simpl.
  - apply (map_combine_rows (fun r x => replace_nth i x r)); [exact Hlen|].
    intros r x Hr. unfold cell_at. apply nth_replace_nth_same.
    rewrite (Hwf _ Hr). eapply col_index_lt, E.
  - apply (map_combine_rows (fun r x => r ++ [x])); [exact Hlen|].
    intros r x Hr. unfold cell_at. rewrite app_nth2; rewrite (Hwf _ Hr); [|lia].
    rewrite Nat.sub_diag. reflexivity.
Qed.

Lemma col_index_app_other name other cols :
  name <> other -> col_index other (cols ++ [name]) = col_index other cols.
Proof.
  intros Hne. induction cols as [|c cs IH]; simpl.
  - destruct (String.eqb_spec other name); [congruence | reflexivity].
  - destruct (String.eqb other c); [reflexivity|]. rewrite IH. reflexivity.
Qed.

Lemma col_index_inj name other cols i :
  col_index name cols = Some i -> col_index other cols = Some i -> name = other.
Proof.
  revert i. induction cols as [|c cs IH]; simpl; intros i H1 H2; [discriminate|].
  destruct (String.eqb_spec name c) as [->|Hn], (String.eqb_spec other c) as [->|Ho].
  - reflexivity.
  - destruct (col_index other cs); simpl in H2; congruence.
  - destruct (col_index name cs); simpl in H1; congruence.
  - destruct (col_index name cs) as [j|] eqn:Ej; [|discriminate].
    destruct (col_index other cs) as [k|] eqn:Ek; [|discriminate].
    simpl in H1, H2. apply (IH j); [reflexivity|]. congruence.
Qed.

(** Writing one column leaves every other column as it was. *)
Lemma get_col_set_col_other name other v df :
  wf df -> length v = nrows df -> name <> other ->
  get_col other (set_col name v df) = get_col other df.
Proof.
  intros Hwf Hlen Hne. unfold get_col. rewrite columns_set_col.
  unfold set_col, wf, nrows in *. rewrite Forall_forall in Hwf.
  destruct (col_index name (columns df)) as [i|] eqn:E; simpl.
  - destruct (col_index other (columns df)) as [j|] eqn:Ej; [|reflexivity].
    f_equal. apply (map_combine_keep (fun r x => replace_nth i x r)); [exact Hlen|].
    intros r x Hr. unfold cell_at. apply nth_replace_nth_other.
    intros ->. apply Hne. eapply col_index_inj; eauto.
  - rewrite (col_index_app_other _ _ _ Hne).
    destruct (col_index other (columns df)) as [j|] eqn:Ej; [|reflexivity].
    f_equal. apply (map_combine_keep (fun r x => r ++ [x])); [exact Hlen|].
    intros r x Hr. unfold cell_at. apply app_nth1.
    rewrite (Hwf _ Hr). eapply col_index_lt, Ej.
Qed.

Lemma length_get_col name df c : get_col name df = Some c -> length c = nrows df.
Proof.
  unfold get_col, nrows. destruct (col_index name (columns df)); [|discriminate].
  intros H. injection H as <-. apply length_map.
Qed.

Lemma length_map3 {A B C D} (f : A -> B -> C -> D) la lb lc :
  length lb = length la -> length lc = length la ->
  length (map3 f la lb lc) = length la.
Proof.
  revert lb lc. induction la as [|a la IH]; intros [|b lb] [|c lc]; simpl;
    intros H1 H2; try discriminate; try reflexivity.
  f_equal. apply IH; lia.
Qed.

(** The transformed features, when the scaler accepts the columns. *)
Lemma fit_transform_ok c0 c1 c2 fitted n0 n1 n2 :
  fit_transform [c0; c1; c2] = Some (fitted, [n0; n1; n2]) ->
  n0 = map (scale_cell (fit_mean c0) (fit_scale c0)) c0 /\
  n1 = map (scale_cell (fit_mean c1) (fit_scale c1)) c1 /\
  n2 = map (scale_cell (fit_mean c2) (fit_scale c2)) c2 /\
  fitted = mkScaler (Some [fit_mean c0; fit_mean c1; fit_mean c2])
                    (Some [fit_scale c0; fit_scale c1; fit_scale c2]).
Proof.
  unfold fit_transform. destruct (_ && _); [|discriminate].
  simpl. intros H. injection H as <- <- <- <-. auto.
Qed.

(** The columns of a scored table. *)
Lemma scored_columns d fitted d2 g :
  wf d -> scored d fitted d2 g ->
  exists c0 c1 c2,
    get_col "rendement_estime" d = Some c0 /\
    get_col "ph" d = Some c1 /\
    get_col "matiere_organique" d = Some c2 /\
    fit_transform [c0; c1; c2] =
      Some (fitted, [map (scale_cell (fit_mean c0) (fit_scale c0)) c0;
                     map (scale_cell (fit_mean c1) (fit_scale c1)) c1;
                     map (scale_cell (fit_mean c2) (fit_scale c2)) c2]) /\
    let ri := map3 risk_index_of
                (map (scale_cell (fit_mean c0) (fit_scale c0)) c0)
                (map (scale_cell (fit_mean c1) (fit_scale c1)) c1)
                (map (scale_cell (fit_mean c2) (fit_scale c2)) c2) in
    let rc := map (fun c => cat_cell (cut risk_bins risk_labels c)) ri in
    length ri = nrows d /\
    d2 = set_col "risk_category" rc (set_col "risk_index" ri d) /\
    get_col "risk_index" d2 = Some ri /\
    get_col "risk_category" d2 = Some rc.
Proof.
  intros Hwf H. destruct H as [c0 c1 c2 fitted n0 n1 n2 ri ip ic ir ig E0 E1 E2 Efit d1 Eri d2 _ _ _ _].
  destruct (fit_transform_ok _ _ _ _ _ _ _ Efit) as (-> & -> & -> & _).
  exists c0, c1, c2. repeat (split; [assumption|]).
  pose proof (length_get_col _ _ _ E0) as L0.
  pose proof (length_get_col _ _ _ E1) as L1.
  pose proof (length_get_col _ _ _ E2) as L2.
  cbv zeta.
  assert (Lri : length (map3 risk_index_of
                (map (scale_cell (fit_mean c0) (fit_scale c0)) c0)
                (map (scale_cell (fit_mean c1) (fit_scale c1)) c1)
                (map (scale_cell (fit_mean c2) (fit_scale c2)) c2)) = nrows d).
  { rewrite length_map3; rewrite !length_map; congruence. }
  split; [exact Lri|].
  unfold d1 in Eri. rewrite get_col_set_col_same in Eri by assumption.
  injection Eri as <-.
  split; [reflexivity|].
  assert (wf d1) by (apply wf_set_col; assumption).
  assert (nrows d1 = nrows d) by (apply rows_set_col; assumption).
  split.
  - unfold d2. rewrite get_col_set_col_other.
    + apply get_col_set_col_same; assumption.
    + assumption.
    + rewrite length_map. fold d1. congruence.
    + discriminate.
  - unfold d2. apply get_col_set_col_same; [assumption|].
    rewrite length_map. fold d1. congruence.
Qed.

(** A call that returns a table has scored the caller's table and saved the
    aggregate. *)
Lemma calculate_risk_metrics_returned d s :
  returned_table (calculate_risk_metrics (Some d, s)) ->
  exists fitted d2 g,
    scored d fitted d2 g /\
    calculate_risk_metrics (Some d, s) =
      (Ok (Some g),
       (Some d2, with_file "data/grouped_risk_metrics.csv" g (with_scaler fitted s))).
Proof.
  intros [g Hg].
  destruct (calculate_risk_metrics_cases d s)
    as [(col & _ & E) | [(e & E) | (fitted & d2 & g' & Hs & E)]];
    rewrite E in Hg; simpl in Hg; try discriminate Hg.
  exists fitted, d2, g'. split; [exact Hs|].
  rewrite E. destruct (writable (env s)); [reflexivity | discriminate Hg].
Qed.

(** ** The risk categories *)

Ltac Rcases :=
  repeat match goal with
         | |- context [Rlt_dec ?a ?b] => destruct (Rlt_dec a b); try lra
         | |- context [Rle_dec ?a ?b] => destruct (Rle_dec a b); try lra
         | |- context [Req_dec_T ?a ?b] => destruct (Req_dec_T a b); try lra
         end.

(** The bin of a number. *)
Lemma cut_risk_bins (x : R) :
  ((x <= -1)%R -> cut risk_bins risk_labels (Num x) = Some TresBas) /\
  ((-1 < x <= 0)%R -> cut risk_bins risk_labels (Num x) = Some Bas) /\
  ((0 < x <= 1)%R -> cut risk_bins risk_labels (Num x) = Some Modere) /\
  ((1 < x)%R -> cut risk_bins risk_labels (Num x) = Some Eleve).
Proof.
  unfold cut, risk_bins, risk_labels; simpl.
  repeat split; intros H; Rcases; reflexivity.
Qed.

(** C2: in a table scored by [calculate_risk_metrics], the category of every
    row follows from its risk index by the fixed right-closed thresholds:
    at most -1 is "Très Bas", above -1 and at most 0 is "Bas", above 0 and at
    most 1 is "Modéré", above 1 is "Élevé"; so 0 is "Bas" and 1 is
    "Modéré". *)
Theorem risk_category_thresholds d s :
  wf d ->
  returned_table (calculate_risk_metrics (Some d, s)) ->
  exists d' ri rc,
    data_after (calculate_risk_metrics (Some d, s)) = Some d' /\
    get_col "risk_index" d' = Some ri /\
    get_col "risk_category" d' = Some rc /\
    length ri = nrows d /\
    (forall i x, nth_error ri i = Some (Num x) ->
       ((x <= -1)%R -> nth_error rc i = Some (Cat TresBas)) /\
       ((-1 < x <= 0)%R -> nth_error rc i = Some (Cat Bas)) /\
       ((0 < x <= 1)%R -> nth_error rc i = Some (Cat Modere)) /\
       ((1 < x)%R -> nth_error rc i = Some (Cat Eleve)) /\
       (x = 0%R -> nth_error rc i = Some (Cat Bas)) /\
       (x = 1%R -> nth_error rc i = Some (Cat Modere))).
Proof.
  intros Hwf Hret.
  destruct (calculate_risk_metrics_returned d s Hret) as (fitted & d2 & g & Hs & E).
  destruct (scored_columns d fitted d2 g Hwf Hs)
    as (c0 & c1 & c2 & _ & _ & _ & _ & Hlen & _ & Hri & Hrc).
  eexists d2, _, _. rewrite E. split; [reflexivity|].
  split; [exact Hri|]. split; [exact Hrc|]. split; [exact Hlen|].
  intros i x Hi.
  assert (Hcut : forall c, cut risk_bins risk_labels (Num x) = Some c ->
                           nth_error
                             (map (fun c => cat_cell (cut risk_bins risk_labels c))
                                  (map3 risk_index_of
                                     (map (scale_cell (fit_mean c0) (fit_scale c0)) c0)
                                     (map (scale_cell (fit_mean c1) (fit_scale c1)) c1)
                                     (map (scale_cell (fit_mean c2) (fit_scale c2)) c2))) i
                           = Some (Cat c)).
  { intros c Hc. rewrite nth_error_map, Hi. cbn [option_map]. rewrite Hc. reflexivity. }
  destruct (cut_risk_bins x) as (H1 & H2 & H3 & H4).
  repeat split; intros Hx; apply Hcut; auto.
  - apply H2. lra.
  - apply H3. lra.
Qed.

Lemma risk_category_thresholds_witness :
  exists d' ri rc,
    data_after (calculate_risk_metrics (Some sample_features, fresh_state)) = Some d' /\
    get_col "risk_index" d' = Some ri /\
    get_col "risk_category" d' = Some rc /\
    length ri = nrows sample_features /\
    (forall i x, nth_error ri i = Some (Num x) ->
       ((x <= -1)%R -> nth_error rc i = Some (Cat TresBas)) /\
       ((-1 < x <= 0)%R -> nth_error rc i = Some (Cat Bas)) /\
       ((0 < x <= 1)%R -> nth_error rc i = Some (Cat Modere)) /\
       ((1 < x)%R -> nth_error rc i = Some (Cat Eleve)) /\
       (x = 0%R -> nth_error rc i = Some (Cat Bas)) /\
       (x = 1%R -> nth_error rc i = Some (Cat Modere))).
Proof.
  apply (risk_category_thresholds sample_features fresh_state).
  - repeat constructor.
  - eexists. cbn. reflexivity.
Defined.

(** ** A missing column *)

(** C6: on a table that has [parcelle_id], [culture] and [rendement_estime]
    but not [ph], the check raises the missing-column error that names [ph],
    and the method reports it and returns no table, leaving the caller's table
    as it was. *)
Theorem missing_ph_is_reported d s :
  has_column "parcelle_id" d = true ->
  has_column "culture" d = true ->
  has_column "rendement_estime" d = true ->
  has_column "ph" d = false ->
  calculate_risk_metrics_try (Some d, s) =
    (Raise (KeyError "Colonne requise manquante : ph"), (Some d, s)) /\
  calculate_risk_metrics (Some d, s) =
    (Ok None,
     (Some d,
      with_line "Erreur lors du calcul des métriques de risque : 'Colonne requise manquante : ph'" s)).
Proof.
  intros Hp Hc Hr Hph.
  assert (Htry : calculate_risk_metrics_try (Some d, s) =
                 (Raise (KeyError "Colonne requise manquante : ph"), (Some d, s))).
  { unfold calculate_risk_metrics_try.
    unfold bind, get_arg, gets, or_raise, ret. cbn beta iota delta [fst snd].
    rewrite check_required_run. simpl. rewrite Hp, Hc, Hr, Hph. reflexivity. }
  split; [exact Htry|].
  unfold calculate_risk_metrics, try_except. unfold bind at 1. rewrite Htry.
  reflexivity.
Qed.

Lemma missing_ph_is_reported_witness :
  calculate_risk_metrics_try (Some sample_without_ph, fresh_state) =
    (Raise (KeyError "Colonne requise manquante : ph"), (Some sample_without_ph, fresh_state)) /\
  calculate_risk_metrics (Some sample_without_ph, fresh_state) =
    (Ok None,
     (Some sample_without_ph,
      with_line "Erreur lors du calcul des métriques de risque : 'Colonne requise manquante : ph'"
                fresh_state)).
Proof.
  apply (missing_ph_is_reported sample_without_ph fresh_state); reflexivity.
Defined.

(** ** Standard scores *)

Lemma Rsum_map_div (f : R -> R) (k : R) l :
  Rsum (map (fun x => (f x / k)%R) l) = (Rsum (map f l) / k)%R.
Proof.
  induction l as [|a l IH]; simpl.
  - unfold Rdiv. lra.
  - rewrite IH. unfold Rdiv. lra.
Qed.

Lemma Rsum_map_minus (m : R) l :
  Rsum (map (fun x => (x - m)%R) l) = (Rsum l - INR (length l) * m)%R.
Proof.
  induction l as [|a l IH].
  - simpl. lra.
  - change (length (a :: l)) with (S (length l)). rewrite S_INR. simpl. rewrite IH. lra.
Qed.

Lemma Rsum_squares_nonneg (f : R -> R) l :
  (0 <= Rsum (map (fun x => f x * f x) l))%R.
Proof.
  induction l as [|a l IH]; simpl; [lra|].
  pose proof (Rle_0_sqr (f a)) as H. unfold Rsqr in H. lra.
Qed.

Lemma INR_length_pos {A} (l : list A) : l <> [] -> (0 < INR (length l))%R.
Proof.
  destruct l; [congruence|]. intros _. apply lt_0_INR. simpl. lia.
Qed.

Lemma Rmean_nil : Rmean [] = 0%R.
Proof. unfold Rmean. simpl. unfold Rdiv. lra. Qed.

Lemma Rvar_nonneg l : (0 <= Rvar l)%R.
Proof.
  unfold Rvar. destruct l as [|a l].
  - simpl. rewrite Rmean_nil. lra.
  - unfold Rmean at 1. rewrite length_map.
    apply Rmult_le_pos.
    + apply (Rsum_squares_nonneg (fun x => (x - Rmean (a :: l))%R)).
    + left. apply Rinv_0_lt_compat, INR_length_pos. discriminate.
Qed.

(** The scale the scaler fits is the standard deviation, and 1 on a
    constant column. *)
Lemma fit_scale_spec col :
  fit_scale col =
  if Req_dec_T (Rvar (nums col)) 0 then 1%R else sqrt (Rvar (nums col)).
Proof.
  unfold fit_scale, handle_zeros_in_scale.
  destruct (Req_dec_T (Rvar (nums col)) 0) as [E|E].
  - rewrite E, sqrt_0. destruct (Req_dec_T 0 0); [reflexivity | congruence].
  - destruct (Req_dec_T (sqrt (Rvar (nums col))) 0) as [E'|E']; [|reflexivity].
    exfalso. apply E. apply sqrt_eq_0; [apply Rvar_nonneg | exact E'].
Qed.

Lemma scale_cell_standardize col x :
  scale_cell (fit_mean col) (fit_scale col) (Num x) = Some (standardize col x).
Proof. unfold scale_cell, standardize, fit_mean. rewrite fit_scale_spec. reflexivity. Qed.

(** The standard scores of a column have mean zero. *)
Lemma standardize_zero_mean col :
  Rmean (map (standardize col) (nums col)) = 0%R.
Proof.
  unfold standardize. set (l := nums col).
  set (k := if Req_dec_T (Rvar l) 0 then 1%R else sqrt (Rvar l)).
  unfold Rmean at 1. rewrite length_map.
  rewrite (Rsum_map_div (fun x => (x - Rmean l)%R) k), Rsum_map_minus.
  destruct l as [|a l'] eqn:El.
  - simpl. unfold Rdiv. lra.
  - assert (Hn : (0 < INR (length (a :: l')))%R) by (apply INR_length_pos; discriminate).
    unfold Rmean.
    replace (Rsum (a :: l') - INR (length (a :: l')) * (Rsum (a :: l') / INR (length (a :: l'))))%R
      with 0%R by (field; lra).
    unfold Rdiv. lra.
Qed.

(** The standard scores of a column that is not constant have variance
    one. *)
Lemma standardize_unit_variance col :
  Rvar (nums col) <> 0%R ->
  Rvar (map (standardize col) (nums col)) = 1%R.
Proof.
  intros Hv. unfold Rvar at 1. rewrite standardize_zero_mean.
  rewrite map_map. unfold standardize.
  destruct (Req_dec_T (Rvar (nums col)) 0) as [E|_]; [congruence|].
  set (l := nums col) in *. set (m := Rmean l).
  assert (Hs : (sqrt (Rvar l) * sqrt (Rvar l))%R = Rvar l)
    by (apply sqrt_sqrt, Rvar_nonneg).
  assert (Hs0 : sqrt (Rvar l) <> 0%R).
  { intros E. rewrite E in Hs. lra. }
  rewrite (map_ext _ (fun x => ((x - m) * (x - m) / Rvar l)%R)).
  2:{ intros x. remember (sqrt (Rvar l)) as sd. rewrite <- Hs. field. exact Hs0. }
  unfold Rmean at 1. rewrite length_map.
  rewrite (Rsum_map_div (fun x => ((x - m) * (x - m))%R) (Rvar l)).
  assert (Hl : l <> []).
  { intros E. apply Hv. rewrite E. unfold Rvar. simpl. apply Rmean_nil. }
  pose proof (INR_length_pos l Hl) as Hn.
  assert (Hvar : Rvar l = (Rsum (map (fun x => ((x - m) * (x - m))%R) l) / INR (length l))%R).
  { unfold Rvar, Rmean at 1. rewrite length_map. reflexivity. }
  rewrite Hvar at 1.
  rewrite Hvar in Hv. field. split; [lra|].
  intros E. apply Hv. rewrite E. unfold Rdiv. lra.
Qed.

Lemma nth_error_map3 {A B C D} (f : A -> B -> C -> D) la lb lc i a b c :
  nth_error la i = Some a -> nth_error lb i = Some b -> nth_error lc i = Some c ->
  nth_error (map3 f la lb lc) i = Some (f a b c).
Proof.
  revert la lb lc. induction i as [|i IH]; intros [|a' la] [|b' lb] [|c' lc];
    simpl; try discriminate.
  - congruence.
  - apply IH.
Qed.

(** C3: in a table that [calculate_risk_metrics] accepts, the risk index of
    every row is 0.5 z(rendement_estime) + 0.3 z(ph) + 0.2 z(matiere_organique),
    where z is the standard score with the mean and the variance of that
    column of the same table, whatever the scaler had been fitted on before;
    the scores of a column have mean zero and, unless the column is constant,
    variance one; afterwards the scaler holds the means of this table. *)
Theorem risk_index_is_weighted_standard_score d s :
  wf d ->
  returned_table (calculate_risk_metrics (Some d, s)) ->
  exists d' c0 c1 c2 ri,
    data_after (calculate_risk_metrics (Some d, s)) = Some d' /\
    get_col "rendement_estime" d = Some c0 /\
    get_col "ph" d = Some c1 /\
    get_col "matiere_organique" d = Some c2 /\
    get_col "risk_index" d' = Some ri /\
    length ri = nrows d /\
    (forall i x0 x1 x2,
        nth_error c0 i = Some (Num x0) ->
        nth_error c1 i = Some (Num x1) ->
        nth_error c2 i = Some (Num x2) ->
        nth_error ri i =
          Some (Num (0.5 * standardize c0 x0 + 0.3 * standardize c1 x1
                     + 0.2 * standardize c2 x2)%R)) /\
    (forall col, In col [c0; c1; c2] ->
        Rmean (map (standardize col) (nums col)) = 0%R /\
        (Rvar (nums col) <> 0%R -> Rvar (map (standardize col) (nums col)) = 1%R)) /\
    mean_ (scalar (self (snd (snd (calculate_risk_metrics (Some d, s)))))) =
      Some [Rmean (nums c0); Rmean (nums c1); Rmean (nums c2)].
Proof.
  intros Hwf Hret.
  destruct (calculate_risk_metrics_returned d s Hret) as (fitted & d2 & g & Hs & E).
  destruct (scored_columns d fitted d2 g Hwf Hs)
    as (c0 & c1 & c2 & E0 & E1 & E2 & Efit & Hlen & _ & Hri & _).
  exists d2, c0, c1, c2. eexists. rewrite E.
  split; [reflexivity|]. do 3 (split; [assumption|]).
  split; [exact Hri|]. split; [exact Hlen|]. split; [|split].
  - intros i x0 x1 x2 H0 H1 H2.
    rewrite (nth_error_map3 risk_index_of _ _ _ i
               (Some (standardize c0 x0)) (Some (standardize c1 x1))
               (Some (standardize c2 x2))).
    + reflexivity.
    + rewrite nth_error_map, H0. cbn [option_map]. rewrite scale_cell_standardize. reflexivity.
    + rewrite nth_error_map, H1. cbn [option_map]. rewrite scale_cell_standardize. reflexivity.
    + rewrite nth_error_map, H2. cbn [option_map]. rewrite scale_cell_standardize. reflexivity.
  - intros col _. split; [apply standardize_zero_mean | apply standardize_unit_variance].
  - apply fit_transform_ok in Efit. destruct Efit as (_ & _ & _ & ->). reflexivity.
Qed.

Lemma risk_index_is_weighted_standard_score_witness :
  exists d' c0 c1 c2 ri,
    data_after (calculate_risk_metrics (Some sample_features, fresh_state)) = Some d' /\
    get_col "rendement_estime" sample_features = Some c0 /\
    get_col "ph" sample_features = Some c1 /\
    get_col "matiere_organique" sample_features = Some c2 /\
    get_col "risk_index" d' = Some ri /\
    length ri = nrows sample_features /\
    (forall i x0 x1 x2,
        nth_error c0 i = Some (Num x0) ->
        nth_error c1 i = Some (Num x1) ->
        nth_error c2 i = Some (Num x2) ->
        nth_error ri i =
          Some (Num (0.5 * standardize c0 x0 + 0.3 * standardize c1 x1
                     + 0.2 * standardize c2 x2)%R)) /\
    (forall col, In col [c0; c1; c2] ->
        Rmean (map (standardize col) (nums col)) = 0%R /\
        (Rvar (nums col) <> 0%R -> Rvar (map (standardize col) (nums col)) = 1%R)) /\
    mean_ (scalar (self (snd (snd (calculate_risk_metrics (Some sample_features, fresh_state)))))) =
      Some [Rmean (nums c0); Rmean (nums c1); Rmean (nums c2)].
Proof.
  apply (risk_index_is_weighted_standard_score sample_features fresh_state).
  - repeat constructor.
  - eexists. cbn. reflexivity.
Defined.

(** ** The caller's table *)

Lemma has_column_set_col name v df : has_column name (set_col name v df) = true.
Proof.
  apply has_column_col_index. rewrite col_index_set_col_same. discriminate.
Qed.

(** Scoring adds two columns and touches nothing else. *)
Lemma scored_frame d fitted d2 g :
  wf d -> scored d fitted d2 g ->
  nrows d2 = nrows d /\
  (forall name, name <> "risk_index" -> name <> "risk_category" ->
                get_col name d2 = get_col name d) /\
  has_column "risk_index" d2 = true /\
  has_column "risk_category" d2 = true.
Proof.
  intros Hwf Hs.
  destruct (scored_columns d fitted d2 g Hwf Hs)
    as (c0 & c1 & c2 & _ & _ & _ & _ & Hlen & Hd2 & Hri & Hrc).
  cbv zeta in Hd2.
  set (ri := map3 risk_index_of
               (map (scale_cell (fit_mean c0) (fit_scale c0)) c0)
               (map (scale_cell (fit_mean c1) (fit_scale c1)) c1)
               (map (scale_cell (fit_mean c2) (fit_scale c2)) c2)) in *.
  assert (Hwf1 : wf (set_col "risk_index" ri d)) by (apply wf_set_col, Hwf).
  assert (Hn1 : nrows (set_col "risk_index" ri d) = nrows d)
    by (apply rows_set_col, Hlen).
  assert (Hlen2 : length (map (fun c => cat_cell (cut risk_bins risk_labels c)) ri)
                  = nrows (set_col "risk_index" ri d))
    by (rewrite length_map; congruence).
  split; [|split; [|split]].
  - rewrite Hd2. unfold nrows at 1. rewrite rows_set_col by exact Hlen2. exact Hn1.
  - intros name H1 H2. rewrite Hd2.
    rewrite get_col_set_col_other by (try assumption; congruence).
    apply get_col_set_col_other; try assumption. congruence.
  - rewrite Hd2. apply has_column_col_index.
    erewrite col_index_set_col_other; [discriminate|]. apply col_index_set_col_same.
  - rewrite Hd2. apply has_column_set_col.
Qed.

(** C9, as the code has it: [calculate_risk_metrics] writes into the
    caller's table.  Every column other than [risk_index] and [risk_category]
    and the number of rows stay as they were, and the table has the two
    columns [risk_index] and [risk_category] whenever a table is returned. *)
Theorem calculate_risk_metrics_writes_two_columns d s :
  wf d ->
  exists d',
    data_after (calculate_risk_metrics (Some d, s)) = Some d' /\
    nrows d' = nrows d /\
    (forall name, name <> "risk_index" -> name <> "risk_category" ->
                  get_col name d' = get_col name d) /\
    (returned_table (calculate_risk_metrics (Some d, s)) ->
     has_column "risk_index" d' = true /\ has_column "risk_category" d' = true).
Proof.
  intros Hwf.
  destruct (calculate_risk_metrics_cases d s)
    as [(col & _ & E) | [(e & E) | (fitted & d2 & g & Hs & E)]].
  - exists d. rewrite E. repeat split; try reflexivity.
    all: destruct H as [g Hg]; discriminate Hg.
  - exists d. rewrite E. repeat split; try reflexivity.
    all: destruct H as [g Hg]; discriminate Hg.
  - exists d2.
    destruct (scored_frame d fitted d2 g Hwf Hs) as (Hn & Hother & Hri & Hrc).
    rewrite E. destruct (writable (env s)); repeat split; assumption.
Qed.

Lemma calculate_risk_metrics_writes_two_columns_witness :
  exists d',
    data_after (calculate_risk_metrics (Some sample_features, fresh_state)) = Some d' /\
    nrows d' = nrows sample_features /\
    (forall name, name <> "risk_index" -> name <> "risk_category" ->
                  get_col name d' = get_col name sample_features) /\
    (returned_table (calculate_risk_metrics (Some sample_features, fresh_state)) ->
     has_column "risk_index" d' = true /\ has_column "risk_category" d' = true).
Proof.
  apply (calculate_risk_metrics_writes_two_columns sample_features fresh_state).
  repeat constructor.
Defined.

(** ** Groups *)

Lemma cell_eqb_eq a b : cell_eqb a b = true <-> a = b.
Proof.
  destruct a, b; simpl; try (split; [discriminate | congruence]).
  - tauto.
  - destruct (Req_dec_T x x0); split; congruence.
  - rewrite String.eqb_eq. split; congruence.
  - rewrite Z.eqb_eq. split; congruence.
  - rewrite risk_level_eqb_eq. split; congruence.
Qed.

Lemma key_eqb_eq (a b : key) : key_eqb a b = true <-> a = b.
Proof.
  destruct a as [a1 a2], b as [b1 b2]. unfold key_eqb. simpl.
  rewrite andb_true_iff, !cell_eqb_eq. split; [intros [-> ->] | intros [= -> ->]]; auto.
Qed.

Section Unique.
Context {A : Type} (eqb : A -> A -> bool).
Hypothesis eqb_eq : forall x y, eqb x y = true <-> x = y.

Lemma unique_In x l : In x (unique eqb l) <-> In x l.
Proof.
  induction l as [|a l IH]; simpl; [tauto|].
  rewrite filter_In, IH, negb_true_iff. split.
  - intros [H | [H _]]; auto.
  - intros [H | H]; [auto|].
    destruct (eqb a x) eqn:E; [left; apply eqb_eq, E | right; auto].
Qed.

Lemma unique_NoDup l : NoDup (unique eqb l).
Proof.
  induction l as [|a l IH]; simpl; constructor.
  - rewrite filter_In. intros [_ H]. apply negb_true_iff in H.
    assert (eqb a a = true) by (apply eqb_eq; reflexivity). congruence.
  - apply NoDup_filter, IH.
Qed.
End Unique.

Section SortBy.
Context {A : Type} (leb : A -> A -> bool).

Lemma insert_sorted_perm x l : Permutation (insert_sorted leb x l) (x :: l).
Proof.
  induction l as [|y l IH]; simpl; [reflexivity|].
  destruct (leb x y); [reflexivity|].
  rewrite IH. apply perm_swap.
Qed.

Lemma sort_by_perm l : Permutation (sort_by leb l) l.
Proof.
  induction l as [|x l IH]; simpl; [reflexivity|].
  rewrite insert_sorted_perm. apply perm_skip, IH.
Qed.
End SortBy.

Lemma keep_some_In {A} (x : A) l : In x (keep_some l) <-> In (Some x) l.
Proof.
  induction l as [|[a|] l IH]; simpl; [tauto | |].
  - rewrite IH. split; intros [H|H]; auto; left; congruence.
  - rewrite IH. split; [auto | intros [H|H]; [discriminate | auto]].
Qed.

Lemma row_key_Some ip ic r p c :
  row_key ip ic r = Some (p, c) <->
  cell_at ip r = p /\ cell_at ic r = c /\ p <> Null /\ c <> Null.
Proof.
  unfold row_key. simpl.
  destruct (cell_at ip r) eqn:Ep, (cell_at ic r) eqn:Ec; simpl;
    split; try discriminate; try (intros (<- & <- & H1 & H2); congruence);
    intros [= <- <-]; repeat split; discriminate.
Qed.

(** The group keys are the pairs of non-missing keys met in the rows, each
    once. *)
Lemma group_keys_In ip ic rs p c :
  In (p, c) (group_keys ip ic rs) <->
  p <> Null /\ c <> Null /\ exists r, In r rs /\ cell_at ip r = p /\ cell_at ic r = c.
Proof.
  unfold group_keys.
  split.
  - intros H. apply (Permutation_in _ (sort_by_perm key_leb _)) in H.
    apply (proj1 (unique_In key_eqb key_eqb_eq _ _)) in H.
    apply (proj1 (keep_some_In _ _)) in H.
    apply in_map_iff in H. destruct H as (r & Hk & Hr).
    apply (proj1 (row_key_Some _ _ _ _ _)) in Hk. destruct Hk as (H1 & H2 & H3 & H4). eauto 10.
  - intros (H1 & H2 & r & Hr & H3 & H4).
    apply (Permutation_in _ (Permutation_sym (sort_by_perm key_leb _))).
    apply (proj2 (unique_In key_eqb key_eqb_eq _ _)). apply (proj2 (keep_some_In _ _)).
    apply in_map_iff. exists r. split; [|exact Hr]. apply (proj2 (row_key_Some _ _ _ _ _)). auto.
Qed.

Lemma group_keys_NoDup ip ic rs : NoDup (group_keys ip ic rs).
Proof.
  unfold group_keys.
  eapply Permutation_NoDup; [apply Permutation_sym, sort_by_perm|].
  apply (unique_NoDup key_eqb key_eqb_eq).
Qed.

Lemma in_group_key_eqb ip ic p c r :
  p <> Null -> c <> Null ->
  in_group ip ic (p, c) r = key_eqb (p, c) (cell_at ip r, cell_at ic r).
Proof.
  intros Hp Hc. unfold in_group, row_key, key_eqb. simpl.
  destruct (cell_at ip r) eqn:Ep; simpl.
  - destruct p; try reflexivity. congruence.
  - destruct (cell_at ic r); simpl; try reflexivity.
    destruct c; try (rewrite andb_false_r; reflexivity). congruence.
  - destruct (cell_at ic r); simpl; try reflexivity.
    destruct c; try (rewrite andb_false_r; reflexivity). congruence.
  - destruct (cell_at ic r); simpl; try reflexivity.
    destruct c; try (rewrite andb_false_r; reflexivity). congruence.
  - destruct (cell_at ic r); simpl; try reflexivity.
    destruct c; try (rewrite andb_false_r; reflexivity). congruence.
Qed.

Lemma combine_map {A B C} (f : A -> B) (g : A -> C) l :
  combine (map f l) (map g l) = map (fun a => (f a, g a)) l.
Proof. induction l as [|a l IH]; simpl; [reflexivity | rewrite IH; reflexivity]. Qed.

Lemma map_filter_select {A} (kf : A -> key) (v : A -> cell) (k : key) l :
  map v (filter (fun a => key_eqb k (kf a)) l) = select (map kf l) k (map v l).
Proof.
  unfold select. rewrite combine_map.
  induction l as [|a l IH]; simpl; [reflexivity|].
  destruct (key_eqb k (kf a)); simpl; rewrite IH; reflexivity.
Qed.

Lemma get_col_at name df i :
  col_index name (columns df) = Some i ->
  get_col name df = Some (map (cell_at i) (rows df)).
Proof. unfold get_col. intros ->. reflexivity. Qed.

(** ** The most frequent category *)

Lemma count_level_pos c l : In c l -> (1 <= count_level c l)%nat.
Proof.
  unfold count_level. induction l as [|a l IH]; simpl; [tauto|].
  intros [->|H].
  - assert (E : risk_level_eqb c c = true) by (apply risk_level_eqb_eq; reflexivity).
    rewrite E. simpl. lia.
  - destruct (risk_level_eqb c a); simpl; [|auto]. specialize (IH H). lia.
Qed.

Lemma count_level_In c l : (1 <= count_level c l)%nat -> In c l.
Proof.
  unfold count_level. induction l as [|a l IH]; simpl; [lia|].
  destruct (risk_level_eqb c a) eqn:E; simpl; intros H.
  - left. symmetry. apply risk_level_eqb_eq, E.
  - right. apply IH, H.
Qed.

Lemma most_frequent_lowest_mode col : lowest_mode (cats col) (most_frequent col).
Proof.
  unfold most_frequent, series_mode, lowest_mode. set (l := cats col).
  destruct l as [|x l'] eqn:El; [left; split; reflexivity|].
  right. rewrite <- El.
  assert (Hx : (1 <= count_level x l)%nat) by (apply count_level_pos; rewrite El; left; reflexivity).
  unfold risk_labels. cbn [map fold_right filter].
  set (a := count_level TresBas l) in *. set (b := count_level Bas l) in *.
  set (c := count_level Modere l) in *. set (e := count_level Eleve l) in *.
  assert (Ha : forall y, count_level y l = match y with
                          | TresBas => a | Bas => b | Modere => c | Eleve => e end)
    by (intros []; reflexivity).
  assert (Htop : (1 <= Nat.max a (Nat.max b (Nat.max c (Nat.max e 0))))%nat).
  { rewrite (Ha x) in Hx. destruct x; lia. }
  destruct (Nat.eqb_spec (Nat.max a (Nat.max b (Nat.max c (Nat.max e 0)))) 0); [lia|].
  destruct (Nat.eqb_spec a (Nat.max a (Nat.max b (Nat.max c (Nat.max e 0))))).
  { exists TresBas. split; [reflexivity|]. split; [apply count_level_In; fold a; lia|].
    split; intros y; rewrite (Ha y); fold a; destruct y; simpl; lia. }
  destruct (Nat.eqb_spec b (Nat.max a (Nat.max b (Nat.max c (Nat.max e 0))))).
  { exists Bas. split; [reflexivity|]. split; [apply count_level_In; fold b; lia|].
    split; intros y; rewrite (Ha y); fold b; destruct y; simpl; lia. }
  destruct (Nat.eqb_spec c (Nat.max a (Nat.max b (Nat.max c (Nat.max e 0))))).
  { exists Modere. split; [reflexivity|]. split; [apply count_level_In; fold c; lia|].
    split; intros y; rewrite (Ha y); fold c; destruct y; simpl; lia. }
  destruct (Nat.eqb_spec e (Nat.max a (Nat.max b (Nat.max c (Nat.max e 0))))).
  { exists Eleve. split; [reflexivity|]. split; [apply count_level_In; fold e; lia|].
    split; intros y; rewrite (Ha y); fold e; destruct y; simpl; lia. }
  lia.
Qed.

(** ** The run on the sample table *)

Lemma sample_fit_mean : fit_mean [Num 1; Num (-1)] = 0%R.
Proof. unfold fit_mean, Rmean. simpl. lra. Qed.

Lemma sample_Rvar : Rvar [1; -1]%R = 1%R.
Proof.
  unfold Rvar. replace (Rmean [1; -1]%R) with 0%R by (unfold Rmean; simpl; lra).
  unfold Rmean. simpl. lra.
Qed.

Lemma sample_fit_scale : fit_scale [Num 1; Num (-1)] = 1%R.
Proof.
  rewrite fit_scale_spec. simpl. rewrite sample_Rvar.
  destruct (Req_dec_T 1 0); [lra | apply sqrt_1].
Qed.

Lemma sample_run :
  calculate_risk_metrics (Some sample_features, fresh_state) =
  (Ok (Some sample_risk_table),
   (Some sample_scored,
    with_file "data/grouped_risk_metrics.csv" sample_risk_table
      (with_scaler (mkScaler (Some [0; 0; 0]%R) (Some [1; 1; 1]%R)) fresh_state))).
Proof.
  cbn. rewrite !sample_fit_mean, !sample_fit_scale.
  replace (0.5 * ((1 - 0) / 1) + 0.3 * ((1 - 0) / 1) + 0.2 * ((1 - 0) / 1))%R
    with 1%R by lra.
  replace (0.5 * ((-1 - 0) / 1) + 0.3 * ((-1 - 0) / 1) + 0.2 * ((-1 - 0) / 1))%R
    with (-1)%R by lra.
  Rcases. cbn.
  assert (G : groupby_agg 0 1 5 6 (rows sample_scored) = sample_risk_table).
  { unfold groupby_agg, sample_risk_table, group_keys. cbn.
    replace (Rmean [1; -1]%R) with 0%R by (unfold Rmean; simpl; lra).
    reflexivity. }
  cbn in G. rewrite G. reflexivity.
Qed.

(** ** The aggregate *)

Lemma groupby_agg_row ip ic ir ig rs r :
  In r (rows (groupby_agg ip ic ir ig rs)) ->
  exists p c,
    In (p, c) (group_keys ip ic rs) /\
    r = [p; c;
         series_mean (map (cell_at ir) (filter (in_group ip ic (p, c)) rs));
         most_frequent (map (cell_at ig) (filter (in_group ip ic (p, c)) rs))].
Proof.
  unfold groupby_agg. cbn [rows]. intros H. apply in_map_iff in H.
  destruct H as ([p c] & <- & Hk). exists p, c. split; [exact Hk | reflexivity].
Qed.

(** C7, as the code has it: the returned table has exactly one row for each
    pair (parcelle_id, culture) present, without a missing key, in the input;
    its [avg_risk_index] is the mean of the risk indexes of the rows of that
    pair, and its [most_frequent_risk_category] is the most frequent category
    of those rows, the lowest of them in the order of the categories when
    several are as frequent, and missing when the rows have no category. *)
Theorem risk_table_one_row_per_pair d s :
  wf d ->
  returned_table (calculate_risk_metrics (Some d, s)) ->
  exists g d' pcol ccol ri rc,
    fst (calculate_risk_metrics (Some d, s)) = Ok (Some g) /\
    data_after (calculate_risk_metrics (Some d, s)) = Some d' /\
    get_col "parcelle_id" d = Some pcol /\
    get_col "culture" d = Some ccol /\
    get_col "risk_index" d' = Some ri /\
    get_col "risk_category" d' = Some rc /\
    columns g = ["parcelle_id"; "culture"; "avg_risk_index"; "most_frequent_risk_category"] /\
    NoDup (map pair_of (rows g)) /\
    (forall p c,
        In (p, c) (map pair_of (rows g)) <->
        p <> Null /\ c <> Null /\ In (p, c) (combine pcol ccol)) /\
    (forall r, In r (rows g) ->
        let idx := nums (select (combine pcol ccol) (pair_of r) ri) in
        let lv := cats (select (combine pcol ccol) (pair_of r) rc) in
        cell_at 2 r = match idx with
                      | [] => Null
                      | _ => Num (Rsum idx / INR (length idx))
                      end /\
        lowest_mode lv (cell_at 3 r)).
Proof.
  intros Hwf Hret.
  destruct (calculate_risk_metrics_returned d s Hret) as (fitted & d2 & g & Hs & E).
  destruct (scored_frame d fitted d2 g Hwf Hs) as (_ & Hframe & _).
  destruct Hs as [c0 c1 c2 fitted n0 n1 n2 ri0 ip ic ir ig _ _ _ _ d1 _ d2 Hip Hic Hir Hig].
  set (rs := rows d2) in *.
  assert (Hpd : get_col "parcelle_id" d = Some (map (cell_at ip) rs)).
  { rewrite <- Hframe by discriminate. apply get_col_at, Hip. }
  assert (Hcd : get_col "culture" d = Some (map (cell_at ic) rs)).
  { rewrite <- Hframe by discriminate. apply get_col_at, Hic. }
  exists (groupby_agg ip ic ir ig rs), d2,
    (map (cell_at ip) rs), (map (cell_at ic) rs), (map (cell_at ir) rs), (map (cell_at ig) rs).
  rewrite E.
  assert (Hkeys : map pair_of (rows (groupby_agg ip ic ir ig rs)) = group_keys ip ic rs).
  { unfold groupby_agg. cbn [rows]. rewrite map_map.
    rewrite <- (map_id (group_keys ip ic rs)) at 2. apply map_ext.
    intros [p c]. reflexivity. }
  split; [reflexivity|]. split; [reflexivity|].
  split; [exact Hpd|]. split; [exact Hcd|].
  split; [apply get_col_at, Hir|]. split; [apply get_col_at, Hig|].
  split; [reflexivity|].
  split; [rewrite Hkeys; apply group_keys_NoDup|].
  split.
  - intros p c. rewrite Hkeys, group_keys_In, combine_map, in_map_iff.
    split.
    + intros (Hp & Hc & r & Hr & <- & <-). repeat split; auto. exists r. auto.
    + intros (Hp & Hc & r & [= <- <-] & Hr). repeat split; auto. exists r. auto.
  - intros r Hr. apply groupby_agg_row in Hr. destruct Hr as (p & c & Hk & ->).
    apply group_keys_In in Hk. destruct Hk as (Hp & Hc & _).
    set (A := series_mean (map (cell_at ir) (filter (in_group ip ic (p, c)) rs))).
    set (B := most_frequent (map (cell_at ig) (filter (in_group ip ic (p, c)) rs))).
    cbv zeta.
    change (pair_of [p; c; A; B]) with (p, c).
    change (cell_at 2 [p; c; A; B]) with A.
    change (cell_at 3 [p; c; A; B]) with B.
    subst A B.
    rewrite (filter_ext _ _ (fun r => in_group_key_eqb ip ic p c r Hp Hc)).
    rewrite !(map_filter_select (fun r => (cell_at ip r, cell_at ic r))).
    unfold key. rewrite <- (combine_map (cell_at ip) (cell_at ic) rs).
    split.
    + unfold series_mean.
      destruct (nums (select (combine (map (cell_at ip) rs) (map (cell_at ic) rs))
                             (p, c) (map (cell_at ir) rs))); reflexivity.
    + apply most_frequent_lowest_mode.
Qed.

Lemma risk_table_one_row_per_pair_witness :
  exists g d' pcol ccol ri rc,
    fst (calculate_risk_metrics (Some sample_features, fresh_state)) = Ok (Some g) /\
    data_after (calculate_risk_metrics (Some sample_features, fresh_state)) = Some d' /\
    get_col "parcelle_id" sample_features = Some pcol /\
    get_col "culture" sample_features = Some ccol /\
    get_col "risk_index" d' = Some ri /\
    get_col "risk_category" d' = Some rc /\
    columns g = ["parcelle_id"; "culture"; "avg_risk_index"; "most_frequent_risk_category"] /\
    NoDup (map pair_of (rows g)) /\
    (forall p c,
        In (p, c) (map pair_of (rows g)) <->
        p <> Null /\ c <> Null /\ In (p, c) (combine pcol ccol)) /\
    (forall r, In r (rows g) ->
        let idx := nums (select (combine pcol ccol) (pair_of r) ri) in
        let lv := cats (select (combine pcol ccol) (pair_of r) rc) in
        cell_at 2 r = match idx with
                      | [] => Null
                      | _ => Num (Rsum idx / INR (length idx))
                      end /\
        lowest_mode lv (cell_at 3 r)).
Proof.
  apply (risk_table_one_row_per_pair sample_features fresh_state).
  - repeat constructor.
  - eexists. cbn. reflexivity.
Defined.

(** C7, as the specification has it, fails on the sample table: its two
    rows, of one pair, have the categories "Modéré" and "Très Bas" in that
    order, once each; the category met first is "Modéré", and the table
    returned holds "Très Bas". *)
Lemma first_encountered_mode_is_not_returned :
  exists rc,
    get_col "risk_category" sample_scored = Some rc /\
    data_after (calculate_risk_metrics (Some sample_features, fresh_state))
      = Some sample_scored /\
    first_encountered_mode (cats rc) = Some Modere /\
    fst (calculate_risk_metrics (Some sample_features, fresh_state))
      = Ok (Some sample_risk_table) /\
    get_col "most_frequent_risk_category" sample_risk_table = Some [Cat TresBas].
Proof.
  eexists. rewrite sample_run. repeat split; reflexivity.
Qed.

(** C9, as the specification has it, fails: after a call on the sample
    table the caller's table is no longer the table that was passed, it has
    two more columns. *)
Lemma caller_table_is_modified :
  data_after (calculate_risk_metrics (Some sample_features, fresh_state))
  <> Some sample_features /\
  data_after (calculate_risk_metrics (Some sample_features, fresh_state))
  = Some sample_scored.
Proof. rewrite sample_run. split; [discriminate | reflexivity]. Qed.

(** ** Which stages catch their faults *)

(** A [try] whose handler returns always returns. *)
Lemma try_except_returns {S A} (body : M S A) (handler : exn -> M S A) :
  (forall e s, exists a s', handler e s = (Ok a, s')) ->
  forall s, exists a s', try_except body handler s = (Ok a, s').
Proof.
  intros Hh s. unfold try_except.
  destruct (body s) as [[a|e] s']; [eauto | apply Hh].
Qed.

Lemma load_data_returns s : exists a s', load_data s = (Ok a, s').
Proof.
  apply try_except_returns. intros e s0.
  destruct (is_FileNotFoundError e); eexists; eexists; reflexivity.
Qed.

Lemma meteo_data_hourly_to_daily_returns s :
  exists a s', meteo_data_hourly_to_daily s = (Ok a, s').
Proof.
  apply try_except_returns. intros e s0. eexists; eexists; reflexivity.
Qed.

Lemma prepare_features_returns s : exists a s', prepare_features s = (Ok a, s').
Proof.
  apply try_except_returns. intros e s0. eexists; eexists; reflexivity.
Qed.

Lemma get_temporal_patterns_returns p s :
  exists a s', get_temporal_patterns p s = (Ok a, s').
Proof.
  apply try_except_returns. intros e s0. eexists; eexists; reflexivity.
Qed.

Lemma calculate_risk_metrics_returns a : exists r a', calculate_risk_metrics a = (Ok r, a').
Proof.
  apply try_except_returns. intros e s0. eexists; eexists; reflexivity.
Qed.

(** Without weather data, [clean_data] raises. *)
Lemma clean_data_without_weather s :
  weather_data (self s) = None ->
  clean_data s = (Raise (TypeError "'NoneType' object is not subscriptable"), s).
Proof.
  intros H. unfold clean_data, the_weather_data, bind, gets, or_raise. rewrite H. reflexivity.
Qed.

(** C5: five of the six stages return on every state, whatever happens
    inside their [try]; [clean_data], which has no [try], does not: after a
    load that found no file, it raises [TypeError] to its caller. *)
Theorem clean_data_propagates :
  (forall s, exists a s', load_data s = (Ok a, s')) /\
  (forall s, exists a s', meteo_data_hourly_to_daily s = (Ok a, s')) /\
  (forall s, exists a s', prepare_features s = (Ok a, s')) /\
  (forall p s, exists a s', get_temporal_patterns p s = (Ok a, s')) /\
  (forall a, exists r a', calculate_risk_metrics a = (Ok r, a')) /\
  (exists s,
      load_data fresh_state = (Ok tt, s) /\
      weather_data (self s) = None /\
      clean_data s = (Raise (TypeError "'NoneType' object is not subscriptable"), s)).
Proof.
  split; [exact load_data_returns|].
  split; [exact meteo_data_hourly_to_daily_returns|].
  split; [exact prepare_features_returns|].
  split; [exact get_temporal_patterns_returns|].
  split; [exact calculate_risk_metrics_returns|].
  eexists. split; [reflexivity|]. split; [reflexivity|].
  apply clean_data_without_weather. reflexivity.
Qed.

(** ** Days *)

Lemma seqZ_In d a n : In d (seqZ a n) <-> (a <= d < a + Z.of_nat n)%Z.
Proof.
  revert a. induction n as [|n IH]; intros a.
  - simpl. lia.
  - cbn [seqZ In]. rewrite IH. lia.
Qed.

Lemma seqZ_NoDup a n : NoDup (seqZ a n).
Proof.
  revert a. induction n as [|n IH]; intros a; simpl; constructor.
  - rewrite seqZ_In. lia.
  - apply IH.
Qed.

Lemma length_seqZ a n : length (seqZ a n) = n.
Proof. revert a. induction n as [|n IH]; intros a; simpl; [|rewrite IH]; reflexivity. Qed.

Lemma Zmin_list_spec d l :
  In (Zmin_list d l) (d :: l) /\ forall x, In x (d :: l) -> (Zmin_list d l <= x)%Z.
Proof.
  unfold Zmin_list. induction l as [|a l [IHin IHle]]; simpl.
  - split; [auto | intros x [<-|[]]; lia].
  - split.
    + destruct (Z.min_spec a (fold_right Z.min d l)) as [[_ ->]|[_ ->]]; [auto|].
      destruct IHin as [H|H]; auto.
    + intros x [<-|[<-|H]].
      * specialize (IHle d (or_introl eq_refl)). lia.
      * lia.
      * specialize (IHle x (or_intror H)). lia.
Qed.

Lemma Zmax_list_spec d l :
  In (Zmax_list d l) (d :: l) /\ forall x, In x (d :: l) -> (x <= Zmax_list d l)%Z.
Proof.
  unfold Zmax_list. induction l as [|a l [IHin IHle]]; simpl.
  - split; [auto | intros x [<-|[]]; lia].
  - split.
    + destruct (Z.max_spec a (fold_right Z.max d l)) as [[_ ->]|[_ ->]]; [|auto].
      destruct IHin as [H|H]; auto.
    + intros x [<-|[<-|H]].
      * specialize (IHle d (or_introl eq_refl)). lia.
      * lia.
      * specialize (IHle x (or_intror H)). lia.
Qed.

(** ** Coercing the date column *)

Lemma replace_nth_beyond {A} i (x : A) l : (length l <= i)%nat -> replace_nth i x l = l.
Proof.
  revert i. induction l as [|h t IH]; intros [|i] H; simpl in *; try reflexivity; try lia.
  f_equal. apply IH. lia.
Qed.

Lemma cell_at_coerce_row_other idate i r :
  i <> idate -> cell_at i (coerce_row idate r) = cell_at i r.
Proof.
  intros H. unfold coerce_row, cell_at. apply nth_replace_nth_other. congruence.
Qed.

Lemma row_day_coerce_row idate r : row_day idate (coerce_row idate r) = row_day idate r.
Proof.
  unfold row_day, coerce_row.
  destruct (Nat.lt_ge_cases idate (length r)) as [H|H].
  - unfold cell_at at 1. rewrite nth_replace_nth_same by exact H.
    destruct (cell_at idate r); reflexivity.
  - rewrite replace_nth_beyond by exact H. reflexivity.
Qed.

Lemma map_combine_map {A B C} (f : A -> B) (g : A * B -> C) l :
  map g (combine l (map f l)) = map (fun a => g (a, f a)) l.
Proof. induction l as [|a l IH]; simpl; [|rewrite IH]; reflexivity. Qed.

Lemma set_col_date_coerce w idate :
  col_index "date" (columns w) = Some idate ->
  set_col "date" (map to_datetime_coerce (map (cell_at idate) (rows w))) w =
  mkDF (columns w) (map (coerce_row idate) (rows w)).
Proof.
  intros H. unfold set_col. rewrite H. f_equal.
  rewrite map_map. rewrite (map_combine_map (fun r => to_datetime_coerce (cell_at idate r))).
  reflexivity.
Qed.

Lemma on_day_coerce_row idate d r : on_day idate d (coerce_row idate r) = on_day idate d r.
Proof. unfold on_day. rewrite row_day_coerce_row. reflexivity. Qed.

Lemma filter_map_commute {A B} (f : A -> B) (p : B -> bool) (q : A -> bool) l :
  (forall a, p (f a) = q a) -> filter p (map f l) = map f (filter q l).
Proof.
  intros H. induction l as [|a l IH]; simpl; [reflexivity|].
  rewrite H. destruct (q a); simpl; rewrite IH; reflexivity.
Qed.

Lemma forallb_map {A B} (f : A -> B) (p : B -> bool) l :
  forallb p (map f l) = forallb (fun a => p (f a)) l.
Proof. induction l as [|a l IH]; simpl; [|rewrite IH]; reflexivity. Qed.

(** Coercing the dates first does not change what the resampling
    computes. *)
Lemma resample_D_mean_coerced idate w :
  resample_D_mean idate (mkDF (columns w) (map (coerce_row idate) (rows w))) =
  resample_D_mean idate w.
Proof.
  unfold resample_D_mean. cbn [rows columns].
  assert (Hkeep : mean_columns idate (mkDF (columns w) (map (coerce_row idate) (rows w)))
                  = mean_columns idate w).
  { unfold mean_columns. cbn [rows columns]. apply filter_ext. intros i.
    destruct (Nat.eqb_spec i idate) as [->|Hne]; [reflexivity|]. simpl. 
    unfold numeric_column. rewrite forallb_map.
    induction (rows w) as [|r rs IH]; simpl; [reflexivity|].
    rewrite cell_at_coerce_row_other by exact Hne. f_equal. exact IH. }
  rewrite Hkeep. rewrite map_map.
  rewrite (map_ext _ (row_day idate) (row_day_coerce_row idate)).
  destruct (keep_some (map (row_day idate) (rows w))) as [|d ds].
  - destruct (rows w); reflexivity.
  - f_equal. f_equal. apply map_ext. intros day. f_equal.
    rewrite (filter_map_commute _ _ (on_day idate day)) by (intros; apply on_day_coerce_row).
    apply map_ext_in. intros i Hi. f_equal. rewrite map_map. apply map_ext.
    intros r. apply cell_at_coerce_row_other.
    unfold mean_columns in Hi. apply filter_In in Hi. destruct Hi as [_ Hi].
    apply andb_true_iff in Hi. destruct Hi as [Hi _].
    destruct (Nat.eqb_spec i idate); [discriminate | assumption].
Qed.

(** The run of the resampler on a table with a date column. *)
Lemma meteo_data_hourly_to_daily_run s w idate :
  weather_data (self s) = Some w ->
  col_index "date" (columns w) = Some idate ->
  weather_after s =
    match resample_D_mean idate w with
    | Some out => Some out
    | None => Some (mkDF (columns w) (map (coerce_row idate) (rows w)))
    end.
Proof.
  intros Hw Hi. unfold weather_after, meteo_data_hourly_to_daily, try_except.
  unfold the_weather_data, getitem, getpos, bind, gets, or_raise, set_self, modify, ret.
  rewrite Hw. cbn beta iota delta [fst snd self weather_data set_weather_data].
  rewrite (get_col_at _ _ _ Hi). cbn beta iota delta [self weather_data set_weather_data].
  rewrite set_col_date_coerce by exact Hi. cbn [columns]. rewrite Hi.
  cbn beta iota. rewrite resample_D_mean_coerced.
  destruct (resample_D_mean idate w); reflexivity.
Qed.

(** ** The daily table *)

Lemma filter_nil_iff {A} (p : A -> bool) l :
  (forall a, In a l -> p a = false) -> filter p l = [].
Proof.
  induction l as [|a l IH]; simpl; intros H; [reflexivity|].
  rewrite (H a) by auto. apply IH. auto.
Qed.

Lemma map_const_nulls {A} (l : list A) : map (fun _ => Null) l = nulls (length l).
Proof. unfold nulls. induction l as [|a l IH]; simpl; [|rewrite IH]; reflexivity. Qed.

Lemma col_index_head name cols : col_index name (name :: cols) = Some 0%nat.
Proof. simpl. rewrite String.eqb_refl. reflexivity. Qed.

(** C10: when the weather table has a date column with at least one valid
    date, the table after [meteo_data_hourly_to_daily] has exactly one row for
    every calendar day from the earliest to the latest valid date, in order,
    and the row of a day without observation holds only missing values. *)
Theorem daily_table_covers_every_day s w idate d0 ds :
  weather_data (self s) = Some w ->
  col_index "date" (columns w) = Some idate ->
  keep_some (map (row_day idate) (rows w)) = d0 :: ds ->
  exists out first last,
    weather_after s = Some out /\
    In first (d0 :: ds) /\ In last (d0 :: ds) /\
    (forall d, In d (d0 :: ds) -> (first <= d <= last)%Z) /\
    get_col "date" out =
      Some (map (fun d => Date (day_start d)) (seqZ first (Z.to_nat (last - first + 1)))) /\
    (forall d, (first <= d <= last)%Z <-> In d (seqZ first (Z.to_nat (last - first + 1)))) /\
    NoDup (seqZ first (Z.to_nat (last - first + 1))) /\
    (forall d, (first <= d <= last)%Z ->
               (forall r, In r (rows w) -> row_day idate r <> Some d) ->
               In (Date (day_start d) :: nulls (length (columns out) - 1)) (rows out)).
Proof.
  intros Hw Hi Hdays.
  rewrite (meteo_data_hourly_to_daily_run s w idate Hw Hi).
  unfold resample_D_mean. rewrite Hdays.
  destruct (Zmin_list_spec d0 ds) as [Hmin_in Hmin_le].
  destruct (Zmax_list_spec d0 ds) as [Hmax_in Hmax_le].
  set (first := Zmin_list d0 ds) in *. set (last := Zmax_list d0 ds) in *.
  eexists _, first, last. split; [reflexivity|].
  split; [exact Hmin_in|]. split; [exact Hmax_in|].
  split; [intros d Hd; split; [apply Hmin_le | apply Hmax_le]; exact Hd|].
  assert (Hle : (first <= last)%Z) by (apply Hmin_le, Hmax_in).
  assert (Hrange : forall d, (first <= d <= last)%Z <->
                             In d (seqZ first (Z.to_nat (last - first + 1))))
    by (intros d; rewrite seqZ_In; lia).
  split; [|split; [exact Hrange | split; [apply seqZ_NoDup|]]].
  - unfold get_col. cbn [columns rows]. rewrite col_index_head.
    f_equal. rewrite map_map. reflexivity.
  - intros d Hd Hnone. cbn [columns rows length]. rewrite Nat.sub_succ, Nat.sub_0_r, length_map.
    apply in_map_iff. exists d. split; [|apply Hrange, Hd].
    f_equal. rewrite filter_nil_iff.
    + apply map_const_nulls.
    + intros r Hr. unfold on_day. specialize (Hnone r Hr).
      destruct (row_day idate r) as [d'|]; [|reflexivity].
      destruct (Z.eqb_spec d d'); [congruence | reflexivity].
Qed.

Lemma daily_table_covers_every_day_witness :
  exists out first last,
    weather_after (state_with_weather sample_weather) = Some out /\
    In first [0; 0; 2]%Z /\ In last [0; 0; 2]%Z /\
    (forall d, In d [0; 0; 2]%Z -> (first <= d <= last)%Z) /\
    get_col "date" out =
      Some (map (fun d => Date (day_start d)) (seqZ first (Z.to_nat (last - first + 1)))) /\
    (forall d, (first <= d <= last)%Z <-> In d (seqZ first (Z.to_nat (last - first + 1)))) /\
    NoDup (seqZ first (Z.to_nat (last - first + 1))) /\
    (forall d, (first <= d <= last)%Z ->
               (forall r, In r (rows sample_weather) -> row_day 0 r <> Some d) ->
               In (Date (day_start d) :: nulls (length (columns out) - 1)) (rows out)).
Proof.
  apply (daily_table_covers_every_day (state_with_weather sample_weather) sample_weather 0%nat);
    reflexivity.
Defined.

(** The run on the sample: three days, the second without observation. *)
Lemma sample_weather_run :
  weather_after (state_with_weather sample_weather) = Some sample_weather_resampled.
Proof. reflexivity. Qed.

(** Cleaning, then resampling: the three rows of the day become one, with
    the mean of the absolute values. *)
Lemma sample_hourly_run :
  exists s,
    clean_data (state_with_weather sample_hourly) = (Ok tt, s) /\
    weather_after s =
      Some (mkDF ["date"; "rayonnement_solaire"]
                 [[Date 0; Num (Rmean [Rabs (-5); Rabs 10; Rabs 9]%R)]]).
Proof. eexists. split; reflexivity. Qed.

(** ** Resampling a table that is daily already *)

Lemma keep_some_map_Some {A} (l : list A) : keep_some (map Some l) = l.
Proof. induction l as [|a l IH]; simpl; [|rewrite IH]; reflexivity. Qed.

Lemma keep_some_perm {A} (l l' : list (option A)) :
  Permutation l l' -> Permutation (keep_some l) (keep_some l').
Proof.
  induction 1 as [| [x|] l l' _ IH | [x|] [y|] l | l l' l'' _ IH1 _ IH2]; simpl;
    try reflexivity; auto.
  - apply perm_swap.
  - etransitivity; eassumption.
Qed.

Lemma filter_single {A B} (f : A -> B) (p : A -> bool) l r :
  NoDup (map f l) -> In r l ->
  (forall x, p x = true <-> f x = f r) ->
  filter p l = [r].
Proof.
  intros Hnd Hin Hp. induction l as [|a l IH]; [destruct Hin|].
  simpl in Hnd. apply NoDup_cons_iff in Hnd. destruct Hnd as [Hna Hnd].
  simpl. destruct Hin as [->|Hin].
  - assert (E : p r = true) by (apply Hp; reflexivity). rewrite E. f_equal.
    apply filter_nil_iff. intros x Hx. destruct (p x) eqn:Ex; [|reflexivity].
    exfalso. apply Hna. apply Hp in Ex. rewrite <- Ex. apply in_map, Hx.
  - destruct (p a) eqn:Ea.
    + exfalso. apply Hna. apply Hp in Ea. rewrite Ea. apply in_map, Hin.
    + apply IH; assumption.
Qed.

Lemma Rmean_single x : Rmean [x] = x.
Proof. unfold Rmean. simpl. field. Qed.

Lemma series_mean_single c : is_numeric c = true -> series_mean [c] = c.
Proof.
  destruct c; simpl; try discriminate; intros _; [reflexivity|].
  unfold series_mean. simpl. rewrite Rmean_single. reflexivity.
Qed.

(** The bin of the day of a row, when no other row is of that day. *)
Lemma bin_of_row idate w r d :
  NoDup (map (row_day idate) (rows w)) ->
  In r (rows w) -> row_day idate r = Some d ->
  map (fun i => series_mean (map (cell_at i) (filter (on_day idate d) (rows w))))
      (mean_columns idate w)
  = numeric_values idate w r.
Proof.
  intros Hnd Hr Hd. unfold numeric_values.
  rewrite (filter_single (row_day idate) _ _ r Hnd Hr).
  - apply map_ext_in. intros i Hi. simpl. apply series_mean_single.
    unfold mean_columns in Hi. apply filter_In in Hi. destruct Hi as [_ Hi].
    apply andb_true_iff in Hi. destruct Hi as [_ Hi].
    unfold numeric_column in Hi. rewrite forallb_forall in Hi. apply Hi, Hr.
  - intros x. unfold on_day. rewrite Hd.
    destruct (row_day idate x) as [d'|]; [|split; discriminate].
    rewrite Z.eqb_eq. split; congruence.
Qed.

Lemma map_days {B} (F : Z -> B) (G : row -> B) idate l :
  (forall r, In r l -> exists dr, row_day idate r = Some dr /\ F dr = G r) ->
  map F (keep_some (map (row_day idate) l)) = map G l.
Proof.
  induction l as [|r l IH]; intros H; [reflexivity|].
  destruct (H r (or_introl eq_refl)) as (dr & Hdr & HF).
  simpl. rewrite Hdr. simpl. rewrite HF. f_equal. apply IH. intros; apply H; right; assumption.
Qed.

(** C8: on a weather table that has exactly one row for every day of a
    range of consecutive days, the resampling keeps the number of rows and,
    for every row, the values of its numeric columns, now in the row of its
    day; when the rows were in the order of the days, they still are. *)
Theorem resample_of_daily_table s w idate d0 :
  weather_data (self s) = Some w ->
  col_index "date" (columns w) = Some idate ->
  Permutation (map (row_day idate) (rows w)) (map Some (seqZ d0 (nrows w))) ->
  exists out,
    weather_after s = Some out /\
    nrows out = nrows w /\
    (forall r, In r (rows w) ->
       exists d, row_day idate r = Some d /\
                 In (Date (day_start d) :: numeric_values idate w r) (rows out)) /\
    (map (row_day idate) (rows w) = map Some (seqZ d0 (nrows w)) ->
     map (fun r => tl r) (rows out) = map (numeric_values idate w) (rows w)).
Proof.
  intros Hw Hi Hperm.
  rewrite (meteo_data_hourly_to_daily_run s w idate Hw Hi).
  unfold resample_D_mean, nrows in *.
  pose proof (keep_some_perm _ _ Hperm) as Hdays. rewrite keep_some_map_Some in Hdays.
  assert (Hnd : NoDup (map (row_day idate) (rows w))).
  { eapply Permutation_NoDup; [apply Permutation_sym, Hperm|].
    apply Finite.Injective_map_NoDup; [intros a b [=]; assumption | apply seqZ_NoDup]. }
  assert (Hday : forall r, In r (rows w) ->
            exists d, row_day idate r = Some d /\ In d (seqZ d0 (length (rows w)))).
  { intros r Hr. apply (in_map (row_day idate)) in Hr.
    apply (Permutation_in _ Hperm) in Hr. apply in_map_iff in Hr.
    destruct Hr as (d & Hd & Hin). eauto. }
  destruct (keep_some (map (row_day idate) (rows w))) as [|d ds] eqn:Ek.
  - apply Permutation_nil in Hdays.
    assert (Hn : length (rows w) = 0%nat)
      by (rewrite <- (length_seqZ d0 (length (rows w))), Hdays; reflexivity).
    destruct (rows w) as [|r rs]; [|discriminate Hn].
    eexists. split; [reflexivity|]. repeat split; try reflexivity.
    intros r [].
  - destruct (Zmin_list_spec d ds) as [Hmin_in Hmin_le].
    destruct (Zmax_list_spec d ds) as [Hmax_in Hmax_le].
    set (first := Zmin_list d ds) in *. set (last := Zmax_list d ds) in *.
    set (n := length (rows w)) in *.
    assert (Hn : (0 < n)%nat).
    { apply Permutation_length in Hdays. rewrite length_seqZ in Hdays. simpl in Hdays. lia. }
    assert (Hfirst : first = d0).
    { apply (Permutation_in _ Hdays) in Hmin_in. apply seqZ_In in Hmin_in.
      assert (H0 : In d0 (d :: ds))
        by (apply (Permutation_in _ (Permutation_sym Hdays)), seqZ_In; lia).
      specialize (Hmin_le d0 H0). lia. }
    assert (Hlast : last = (d0 + Z.of_nat n - 1)%Z).
    { apply (Permutation_in _ Hdays) in Hmax_in. apply seqZ_In in Hmax_in.
      assert (H0 : In (d0 + Z.of_nat n - 1)%Z (d :: ds))
        by (apply (Permutation_in _ (Permutation_sym Hdays)), seqZ_In; lia).
      specialize (Hmax_le _ H0). lia. }
    assert (Hcount : Z.to_nat (last - first + 1) = n) by lia.
    rewrite Hcount, Hfirst.
    eexists. split; [reflexivity|]. cbn [rows].
    split; [rewrite length_map; apply length_seqZ|].
    split.
    + intros r Hr. destruct (Hday r Hr) as (dr & Hdr & Hin).
      exists dr. split; [exact Hdr|].
      apply in_map_iff. exists dr. split; [|exact Hin].
      f_equal. apply bin_of_row; assumption.
    + intros Hsorted. rewrite map_map. cbn [tl].
      assert (Hseq : seqZ d0 n = keep_some (map (row_day idate) (rows w)))
        by (rewrite Hsorted, keep_some_map_Some; reflexivity).
      rewrite Hseq.
      apply map_days. intros r Hr. destruct (Hday r Hr) as (dr & Hdr & _).
      exists dr. split; [exact Hdr|]. apply bin_of_row; assumption.
Qed.

Lemma day_of_day_start d : day_of (day_start d) = d.
Proof. unfold day_of, day_start, ns_per_day. apply Z.div_mul. discriminate. Qed.

(** The table the resampler produces is daily: its rows are those of
    consecutive days, in order, so that resampling it again keeps its rows and
    their values. *)
Lemma resampled_is_daily idate w out :
  resample_D_mean idate w = Some out ->
  col_index "date" (columns out) = Some 0%nat /\
  exists first, map (row_day 0) (rows out) = map Some (seqZ first (nrows out)).
Proof.
  unfold resample_D_mean.
  destruct (keep_some (map (row_day idate) (rows w))) as [|d ds].
  - destruct (rows w); [|discriminate]. intros [= <-].
    split; [apply col_index_head|]. exists 0%Z. reflexivity.
  - intros [= <-]. split; [apply col_index_head|].
    exists (Zmin_list d ds). unfold nrows. cbn [rows].
    rewrite length_map, length_seqZ, map_map. apply map_ext. intros day.
    unfold row_day. cbn. rewrite day_of_day_start. reflexivity.
Qed.

Lemma resample_of_daily_table_witness :
  exists out,
    weather_after (state_with_weather sample_daily_weather) = Some out /\
    nrows out = nrows sample_daily_weather /\
    (forall r, In r (rows sample_daily_weather) ->
       exists d, row_day 0 r = Some d /\
                 In (Date (day_start d) :: numeric_values 0 sample_daily_weather r)
                    (rows out)) /\
    (map (row_day 0) (rows sample_daily_weather)
       = map Some (seqZ 3 (nrows sample_daily_weather)) ->
     map (fun r => tl r) (rows out)
       = map (numeric_values 0 sample_daily_weather) (rows sample_daily_weather)).
Proof.
  apply (resample_of_daily_table (state_with_weather sample_daily_weather)
           sample_daily_weather 0%nat 3%Z).
  - reflexivity.
  - reflexivity.
  - apply perm_swap.
Defined.

(** ** The nearest match of the as-of join *)






(** ** Sorting by date *)


Section SortedByKey.
Context {A : Type} (k : A -> Z) (leb : A -> A -> bool) (P : A -> Prop).
Hypothesis leb_key : forall a b, P a -> P b -> leb a b = Z.leb (k a) (k b).



End SortedByKey.







(** ** The temporal analyser *)

(** C1 fails on the code in two ways.  Twelve observations, all with an
    NDVI, pass the check of the method but not the decomposition, which needs
    two cycles of twelve; and with twenty-four observations and one more row
    whose NDVI is missing, the regression gets twenty-five dates for
    twenty-four values.  Both calls return [(None, None)]. *)
Theorem get_temporal_patterns_returns_nothing :
  length (ndvi_observations "P001" twelve_observations) = 12%nat /\
  get_temporal_patterns_try "P001" (state_with_features twelve_observations)
    = (Raise (ValueError "x must have 2 complete cycles requires 24 observations."),
       state_with_features twelve_observations) /\
  fst (get_temporal_patterns "P001" (state_with_features twelve_observations))
    = Ok (None, None) /\
  length (ndvi_observations "P001" observations_with_gap) = 24%nat /\
  get_temporal_patterns_try "P001" (state_with_features observations_with_gap)
    = (Raise (ValueError "Found input variables with inconsistent numbers of samples"),
       state_with_features observations_with_gap) /\
  fst (get_temporal_patterns "P001" (state_with_features observations_with_gap))
    = Ok (None, None).
Proof.
  repeat split; reflexivity.
Qed.

(** A call that returns a result has read the feature table and analysed
    the parcel. *)
Lemma get_temporal_patterns_try_inv pid s r s1 :
  get_temporal_patterns_try pid s = (Ok r, s1) ->
  exists features ipid idate indvi,
    lookup_file "data/features.csv" (fs (env s)) = Some (CsvFile features) /\
    analysed pid features ipid idate indvi r.
Proof.
  unfold get_temporal_patterns_try. unfold bind at 1. unfold read_csv.
  destruct (lookup_file "data/features.csv" (fs (env s))) as [[features|]|] eqn:Efile;
    try discriminate.
  cbn [forallb]. destruct (has_column "date" features && true) eqn:Edate; try discriminate.
  unfold getpos, or_raise, bind, ret, raise.
  destruct (col_index "parcelle_id" (columns features)) as [ipid|] eqn:Eipid; try discriminate.
  fold (parcel_rows ipid pid features).
  destruct (negb (has_column "ndvi" _)) eqn:Endvi; try discriminate.
  destruct (empty _) eqn:Eempty; try discriminate.
  destruct (sort_values "date" _) as [sorted|] eqn:Esort; try discriminate.
  destruct (col_index "date" (columns sorted)) as [idate|] eqn:Eidate; try discriminate.
  destruct (col_index "ndvi" (columns sorted)) as [indvi|] eqn:Eindvi; try discriminate.
  destruct (Nat.ltb _ 12) eqn:E12; try discriminate.
  destruct (all_some (map num_of _)) as [ndvi_values|] eqn:Evalues; try discriminate.
  destruct (seasonal_decompose _) as [dec|] eqn:Edec; try discriminate.
  destruct (all_some (map (fun r0 => toordinal _) _)) as [ords|] eqn:Eords; try discriminate.
  destruct (LinearRegression_fit ords ndvi_values) as [fit|] eqn:Efit; try discriminate.
  intros [= <- <-]. exists features, ipid, idate, indvi. split; [reflexivity|].
  eapply Analysed; eassumption.
Qed.

Lemma get_temporal_patterns_inv pid s h t :
  fst (get_temporal_patterns pid s) = Ok (Some h, t) ->
  exists features ipid idate indvi r,
    lookup_file "data/features.csv" (fs (env s)) = Some (CsvFile features) /\
    analysed pid features ipid idate indvi r /\ h = fst r /\ t = Some (snd r).
Proof.
  unfold get_temporal_patterns, try_except, bind.
  destruct (get_temporal_patterns_try pid s) as [[r|e] s1] eqn:E.
  - cbn. intros [= <- <-].
    destruct (get_temporal_patterns_try_inv _ _ _ _ E) as (f & ipid & idate & indvi & Hf & Ha).
    exists f, ipid, idate, indvi, r. auto.
  - cbn. discriminate.
Qed.

Lemma length_all_some {A} (l : list (option A)) v : all_some l = Some v -> length v = length l.
Proof.
  revert v. induction l as [|[a|] l IH]; simpl; intros v H; try discriminate.
  - injection H as <-. reflexivity.
  - destruct (all_some l) as [v'|]; [|discriminate]. injection H as <-.
    simpl. f_equal. apply IH. reflexivity.
Qed.

Lemma length_dropna s : (length (dropna s) <= length s)%nat.
Proof.
  induction s as [|[i v] s IH]; simpl; [lia|]. destruct v; simpl; lia.
Qed.

Lemma dropna_full s :
  length (dropna s) = length s -> dropna s = s /\ Forall (fun p => snd p <> Null) s.
Proof.
  induction s as [|[i v] s IH]; simpl; intros H; [split; [reflexivity | constructor]|].
  pose proof (length_dropna s) as Hle.
  destruct v; simpl in H; try lia;
    (destruct IH as [IH1 IH2]; [lia|]; split;
     [rewrite IH1; reflexivity | constructor; [discriminate | exact IH2]]).
Qed.

Lemma seasonal_decompose_length {s dec} :
  seasonal_decompose s = Some dec -> (24 <= length s)%nat.
Proof.
  unfold seasonal_decompose, values. rewrite length_map.
  destruct (Nat.ltb_spec (length s) (2 * period)) as [H|H]; [discriminate|].
  intros _. exact H.
Qed.

Lemma LinearRegression_fit_length {x y fit} :
  LinearRegression_fit x y = Some fit -> length x = length y.
Proof.
  unfold LinearRegression_fit. destruct (Nat.eqb_spec (length x) (length y)); [auto|discriminate].
Qed.

(** An analysis succeeds only on a parcel with at least twenty-four rows,
    none of them without NDVI. *)
Lemma analysed_needs pid features ipid idate indvi r :
  analysed pid features ipid idate indvi r ->
  (24 <= length (parcel_rows ipid pid features))%nat /\
  Forall (fun row => cell_at indvi row <> Null) (parcel_rows ipid pid features).
Proof.
  intros H. destruct H as [ipid idate indvi sorted ndvi_values dec ords fit
                             Hipid Hsort Hidate Hindvi series Hvalues Hdec Hords Hfit].
  unfold sort_values in Hsort. cbn [columns rows] in Hsort.
  destruct (col_index "date" (columns features)) as [i|] eqn:Ei; [|discriminate].
  injection Hsort as <-. cbn [rows columns] in *.
  set (parcel := parcel_rows ipid pid features) in *.
  set (srt := sort_by (fun r1 r2 => sort_leb (cell_at i r1) (cell_at i r2)) parcel) in *.
  assert (Hperm : Permutation srt parcel) by apply sort_by_perm.
  apply length_all_some in Hvalues. apply length_all_some in Hords.
  apply LinearRegression_fit_length in Hfit.
  apply seasonal_decompose_length in Hdec.
  unfold values, index in *. rewrite !length_map in *. rewrite length_combine, length_map in Hdec.
  assert (Hfull : length series = length (map (fun r => (cell_at idate r, cell_at indvi r)) srt)).
  { rewrite length_map. lia. }
  apply dropna_full in Hfull. destruct Hfull as [_ Hnn].
  split.
  - rewrite <- (Permutation_length Hperm). lia.
  - rewrite Forall_forall in *. intros row Hrow.
    apply (Permutation_in _ (Permutation_sym Hperm)) in Hrow.
    apply (Hnn (cell_at idate row, cell_at indvi row)).
    apply in_map_iff. exists row. auto.
Qed.

(** A call of [get_temporal_patterns] returns
    a result only for a parcel with at least twenty-four rows in the feature
    table, all of them with an NDVI. *)
Lemma get_temporal_patterns_needs_two_cycles pid s h t :
  fst (get_temporal_patterns pid s) = Ok (Some h, t) ->
  exists features ipid indvi,
    lookup_file "data/features.csv" (fs (env s)) = Some (CsvFile features) /\
    col_index "parcelle_id" (columns features) = Some ipid /\
    col_index "ndvi" (columns features) = Some indvi /\
    (24 <= length (parcel_rows ipid pid features))%nat /\
    Forall (fun row => cell_at indvi row <> Null) (parcel_rows ipid pid features).
Proof.
  intros H. destruct (get_temporal_patterns_inv _ _ _ _ H)
    as (features & ipid & idate & indvi & r & Hfile & Ha & _ & _).
  exists features, ipid, indvi. split; [exact Hfile|].
  destruct (analysed_needs _ _ _ _ _ _ Ha) as [H24 Hnn].
  destruct Ha as [ipid idate indvi sorted ? ? ? ? Hipid Hsort Hidate Hindvi].
  unfold sort_values in Hsort. cbn [columns rows] in Hsort.
  destruct (col_index "date" (columns features)); [|discriminate].
  injection Hsort as <-. cbn [columns] in Hindvi. auto.
Qed.

(** ** The components of the decomposition *)

Lemma nth_error_seq0 n k : (k < n)%nat -> nth_error (seq 0 n) k = Some k.
Proof.
  intros H. rewrite (nth_error_nth' _ 0%nat) by (rewrite length_seq; exact H).
  rewrite seq_nth by exact H. reflexivity.
Qed.

Lemma nth_error_combine {A B} (a : list A) (b : list B) k x y :
  nth_error a k = Some x -> nth_error b k = Some y ->
  nth_error (combine a b) k = Some (x, y).
Proof.
  revert a b. induction k as [|k IH]; intros [|a0 a] [|b0 b]; simpl; try discriminate.
  - intros [= ->] [= ->]. reflexivity.
  - apply IH.
Qed.

Lemma nth_error_Some_lt {A} (l : list A) k : (k < length l)%nat -> exists x, nth_error l k = Some x.
Proof.
  intros H. destruct (nth_error l k) eqn:E; [eauto|].
  apply nth_error_None in E. lia.
Qed.

(** The moving average exists away from the ends. *)
Lemma convolution_filter_inner x k :
  (6 <= k)%nat -> (k + 6 < length x)%nat ->
  exists v, nth_error (convolution_filter x) k = Some (Some v).
Proof.
  intros H1 H2. unfold convolution_filter.
  rewrite nth_error_map, nth_error_seq0 by lia. cbn [option_map].
  destruct (Nat.leb_spec 6 k); [|lia]. destruct (Nat.ltb_spec (k + 6) (length x)); [|lia].
  eexists. reflexivity.
Qed.

Lemma detrended_inner x k :
  (6 <= k)%nat -> (k + 6 < length x)%nat ->
  exists v, nth_error (map (fun p => opt_sub (Some (fst p)) (snd p))
                           (combine x (convolution_filter x))) k = Some (Some v).
Proof.
  intros H1 H2.
  destruct (convolution_filter_inner x k H1 H2) as [v Hv].
  destruct (nth_error_Some_lt x k ltac:(lia)) as [xk Hxk].
  rewrite nth_error_map, (nth_error_combine _ _ _ _ _ Hxk Hv). cbn. eexists. reflexivity.
Qed.

Lemma In_combine_seq {A} (l : list A) start k y :
  nth_error l k = Some y -> In ((start + k)%nat, y) (combine (seq start (length l)) l).
Proof.
  revert start k. induction l as [|a l IH]; intros start [|k] H; simpl in *; try discriminate.
  - injection H as ->. left. f_equal. lia.
  - right. replace (start + S k)%nat with (S start + k)%nat by lia. apply IH, H.
Qed.

Lemma seasonal_mean_Some d i k v :
  nth_error d k = Some (Some v) -> (k mod period = i)%nat ->
  exists a, seasonal_mean d i = Some a.
Proof.
  intros Hk Hmod. unfold seasonal_mean.
  assert (Hin : In v (keep_some (map snd
             (filter (fun p => Nat.eqb (fst p mod period) i)
                     (combine (seq 0 (length d)) d))))).
  { apply keep_some_In. apply in_map_iff. exists (k, Some v). split; [reflexivity|].
    apply filter_In. split; [apply (In_combine_seq d 0 k), Hk|].
    cbn [fst]. apply Nat.eqb_eq, Hmod. }
  destruct (keep_some _) as [|a l]; [destruct Hin | eexists; reflexivity].
Qed.

Lemma all_some_exists {A B} (f : A -> option B) l :
  (forall a, In a l -> exists b, f a = Some b) -> exists bs, all_some (map f l) = Some bs.
Proof.
  induction l as [|a l IH]; intros H; [eexists; reflexivity|].
  destruct (H a (or_introl eq_refl)) as [b Hb].
  destruct IH as [bs Hbs]; [intros; apply H; right; assumption|].
  cbn [map all_some]. rewrite Hb, Hbs. eexists. reflexivity.
Qed.

(** With two cycles, every position of the cycle has a detrended value. *)
Lemma seasonal_means_exist x :
  (24 <= length x)%nat ->
  exists averages,
    all_some (map (seasonal_mean (map (fun p => opt_sub (Some (fst p)) (snd p))
                                      (combine x (convolution_filter x))))
                  (seq 0 period)) = Some averages.
Proof.
  intros Hn. apply all_some_exists. intros i Hi. apply in_seq in Hi.
  unfold period in Hi.
  set (k := if Nat.ltb i 6 then (i + 12)%nat else i).
  assert (Hk : (6 <= k)%nat /\ (k + 6 < length x)%nat /\ (k mod period = i)%nat).
  { unfold k, period. destruct (Nat.ltb_spec i 6).
    - repeat split; try lia.
      do 6 (destruct i as [|i]; [reflexivity|]). lia.
    - repeat split; try lia.
      do 12 (destruct i as [|i]; [try reflexivity; lia|]). lia. }
  destruct Hk as (H1 & H2 & H3).
  destruct (detrended_inner x k H1 H2) as [v Hv].
  eapply seasonal_mean_Some; eassumption.
Qed.

Lemma dropna_opt_nonempty {V} (s : Series (option V)) k i v :
  nth_error s k = Some (i, Some v) -> dropna_opt s <> [].
Proof.
  revert k. induction s as [|[j [w|]] s IH]; intros [|k]; simpl; try discriminate.
  - intros H. apply (IH k H).
Qed.

Lemma incl_index_dropna_opt {V} (s : Series (option V)) :
  incl (index (dropna_opt s)) (index s).
Proof.
  unfold index. induction s as [|[j [w|]] s IH]; simpl.
  - apply incl_refl.
  - apply incl_cons; [left; reflexivity | apply incl_tl, IH].
  - apply incl_tl, IH.
Qed.

Lemma incl_index_combine {V} (idx : list cell) (v : list V) : incl (index (combine idx v)) idx.
Proof.
  unfold index. intros c Hc. apply in_map_iff in Hc. destruct Hc as ([a b] & <- & H).
  apply in_combine_l in H. exact H.
Qed.

Lemma incl_index_dropna (s : Series cell) : incl (index (dropna s)) (index s).
Proof.
  unfold index. induction s as [|[j v] s IH]; simpl; [apply incl_refl|].
  destruct v; simpl; try (apply incl_cons; [left; reflexivity | apply incl_tl, IH]).
  apply incl_tl, IH.
Qed.

(** The components of a decomposition: none is empty, and each is indexed
    by labels of the input. *)
Lemma seasonal_decompose_components s dec :
  seasonal_decompose s = Some dec ->
  dropna_opt (trend dec) <> [] /\ seasonal dec <> [] /\ dropna_opt (resid dec) <> [] /\
  incl (index (dropna_opt (trend dec))) (index s) /\
  incl (index (seasonal dec)) (index s) /\
  incl (index (dropna_opt (resid dec))) (index s).
Proof.
  intros H. pose proof (seasonal_decompose_length H) as Hn.
  unfold seasonal_decompose in H.
  destruct (Nat.ltb (length (values s)) (2 * period)); [discriminate|].
  set (x := values s) in *.
  assert (Hx : length x = length s) by (unfold x, values; apply length_map).
  assert (Hidx : length (index s) = length s) by (unfold index; apply length_map).
  destruct (seasonal_means_exist x ltac:(lia)) as [averages Hav].
  rewrite Hav in H. injection H as <-. cbn [trend seasonal resid].
  destruct (nth_error_Some_lt (index s) 6 ltac:(lia)) as [i6 Hi6].
  destruct (convolution_filter_inner x 6 ltac:(lia) ltac:(lia)) as [t6 Ht6].
  destruct (detrended_inner x 6 ltac:(lia) ltac:(lia)) as [d6 Hd6].
  split; [|split; [|split; [|split; [|split]]]].
  - eapply dropna_opt_nonempty. apply nth_error_combine; eassumption.
  - intros E. apply (f_equal (@length _)) in E.
    rewrite length_combine, length_map, length_seq in E. simpl in E. lia.
  - eapply dropna_opt_nonempty. apply nth_error_combine; [exact Hi6|].
    rewrite nth_error_map.
    rewrite (nth_error_combine _ _ 6 (Some d6)
               (Some (nth (6 mod period) (map (fun a => (a - Rmean averages)%R) averages) 0%R))).
    + cbn. reflexivity.
    + exact Hd6.
    + rewrite nth_error_map, nth_error_seq0 by lia. reflexivity.
  - eapply incl_tran; [apply incl_index_dropna_opt | apply incl_index_combine].
  - apply incl_index_combine.
  - eapply incl_tran; [apply incl_index_dropna_opt | apply incl_index_combine].
Qed.

Lemma dropna_all (s : Series cell) : Forall (fun p => snd p <> Null) s -> dropna s = s.
Proof.
  induction 1 as [|[i v] s Hv _ IH]; [reflexivity|].
  simpl in *. destruct v; try congruence; rewrite IH; reflexivity.
Qed.

Lemma all_some_not_None {A B} (f : A -> option B) l :
  (forall a, In a l -> exists b, f a = Some b) -> all_some (map f l) <> None.
Proof.
  intros H. destruct (all_some_exists f l H) as [bs Hbs]. congruence.
Qed.

(** The analysis of a parcel with two cycles of dated observations goes
    through. *)
Lemma get_temporal_patterns_try_two_cycles pid s features ipid idate indvi :
  lookup_file "data/features.csv" (fs (env s)) = Some (CsvFile features) ->
  col_index "parcelle_id" (columns features) = Some ipid ->
  col_index "date" (columns features) = Some idate ->
  col_index "ndvi" (columns features) = Some indvi ->
  (24 <= length (parcel_rows ipid pid features))%nat ->
  Forall (fun r => (exists t, cell_at idate r = Date t) /\ (exists x, cell_at indvi r = Num x))
         (parcel_rows ipid pid features) ->
  exists r, get_temporal_patterns_try pid s = (Ok r, s).
Proof.
  intros Hfile Hipid Hidate Hindvi H24 Hall.
  unfold get_temporal_patterns_try. unfold bind at 1. unfold read_csv. rewrite Hfile.
  cbn [forallb].
  assert (Hd : has_column "date" features = true) by (apply has_column_col_index; congruence).
  rewrite Hd. cbn [andb].
  unfold getpos, or_raise, bind, ret, raise. rewrite Hipid.
  fold (parcel_rows ipid pid features). set (parcel := parcel_rows ipid pid features) in *.
  change (has_column "ndvi" (mkDF (columns features) parcel)) with (has_column "ndvi" features).
  assert (Hn : has_column "ndvi" features = true) by (apply has_column_col_index; congruence).
  rewrite Hn. cbn [negb].
  unfold empty. cbn [rows].
  destruct parcel as [|r0 rest] eqn:Eparcel; [simpl in H24; lia|]. rewrite <- Eparcel in *.
  unfold sort_values. cbn [columns rows]. rewrite Hidate. cbn [columns rows].
  rewrite Hidate, Hindvi. cbn [rows].
  set (srt := sort_by (fun r1 r2 => sort_leb (cell_at idate r1) (cell_at idate r2)) parcel).
  assert (Hperm : Permutation srt parcel) by apply sort_by_perm.
  assert (Hsrt : Forall (fun r => (exists t, cell_at idate r = Date t) /\
                                  (exists x, cell_at indvi r = Num x)) srt).
  { rewrite Forall_forall in *. intros r Hr. apply Hall, (Permutation_in _ Hperm), Hr. }
  rewrite Forall_forall in Hsrt.
  assert (Hlen : length srt = length parcel) by (apply Permutation_length, Hperm).
  assert (Hseries : dropna (map (fun r => (cell_at idate r, cell_at indvi r)) srt)
                    = map (fun r => (cell_at idate r, cell_at indvi r)) srt).
  { apply dropna_all. apply Forall_forall. intros p Hp. apply in_map_iff in Hp.
    destruct Hp as (r & <- & Hr). destruct (Hsrt r Hr) as [_ [x Hx]]. cbn. congruence. }
  rewrite Hseries. rewrite length_map.
  destruct (Nat.ltb_spec (length srt) 12) as [H|_]; [lia|].
  unfold values, index. rewrite !map_map. cbn [fst snd].
  destruct (all_some (map (fun r => num_of (cell_at indvi r)) srt)) as [ndvi_values|] eqn:Ev.
  2:{ exfalso. revert Ev. apply all_some_not_None. intros r Hr.
      destruct (Hsrt r Hr) as [_ [x Hx]]. rewrite Hx. eexists. reflexivity. }
  pose proof (length_all_some _ _ Ev) as Hlv. rewrite length_map in Hlv.
  destruct (seasonal_decompose _) as [dec|] eqn:Edec.
  2:{ exfalso. unfold seasonal_decompose, values in Edec.
      rewrite length_map, length_combine, length_map in Edec.
      destruct (Nat.ltb_spec (Nat.min (length srt) (length ndvi_values)) (2 * period)) as [H|_];
        [unfold period in H; lia|].
      destruct (all_some _) in Edec; discriminate Edec. }
  destruct (all_some (map (fun r => toordinal (cell_at idate r)) srt)) as [ords|] eqn:Eo.
  2:{ exfalso. revert Eo. apply all_some_not_None. intros r Hr.
      destruct (Hsrt r Hr) as [[t Ht] _]. rewrite Ht. eexists. reflexivity. }
  pose proof (length_all_some _ _ Eo) as Hlo. rewrite length_map in Hlo.
  destruct (LinearRegression_fit ords ndvi_values) as [fit|] eqn:Ef.
  2:{ exfalso. unfold LinearRegression_fit in Ef.
      destruct (Nat.eqb_spec (length ords) (length ndvi_values)); [|lia].
      destruct (Nat.eqb_spec (length ords) 0); [lia|]. discriminate Ef. }
  eexists. reflexivity.
Qed.

(** For a parcel with at least twenty-four rows in the
    feature table, each with a date and an NDVI, [get_temporal_patterns]
    returns a result whose trend, seasonal and residual series are not empty
    and are indexed by dates of the rows of the parcel. *)
Lemma get_temporal_patterns_two_cycles pid s features ipid idate indvi :
  lookup_file "data/features.csv" (fs (env s)) = Some (CsvFile features) ->
  col_index "parcelle_id" (columns features) = Some ipid ->
  col_index "date" (columns features) = Some idate ->
  col_index "ndvi" (columns features) = Some indvi ->
  (24 <= length (parcel_rows ipid pid features))%nat ->
  Forall (fun r => (exists t, cell_at idate r = Date t) /\ (exists x, cell_at indvi r = Num x))
         (parcel_rows ipid pid features) ->
  exists h t,
    fst (get_temporal_patterns pid s) = Ok (Some h, Some t) /\
    ndvi_trend h <> [] /\ ndvi_seasonal h <> [] /\ ndvi_residual h <> [] /\
    incl (index (ndvi_trend h)) (map (cell_at idate) (parcel_rows ipid pid features)) /\
    incl (index (ndvi_seasonal h)) (map (cell_at idate) (parcel_rows ipid pid features)) /\
    incl (index (ndvi_residual h)) (map (cell_at idate) (parcel_rows ipid pid features)).
Proof.
  intros Hfile Hipid Hidate Hindvi H24 Hall.
  destruct (get_temporal_patterns_try_two_cycles pid s features ipid idate indvi
              Hfile Hipid Hidate Hindvi H24 Hall) as [r Hr].
  destruct (get_temporal_patterns_try_inv _ _ _ _ Hr)
    as (features' & ipid' & idate' & indvi' & Hfile' & Ha).
  rewrite Hfile in Hfile'. injection Hfile' as <-.
  exists (fst r), (snd r). split.
  { unfold get_temporal_patterns, try_except, bind. rewrite Hr. reflexivity. }
  destruct Ha as [ipid' idate' indvi' sorted ndvi_values dec ords fit
                    Hipid' Hsort Hidate' Hindvi' series Hvalues Hdec Hords Hfit].
  rewrite Hipid in Hipid'. injection Hipid' as <-.
  unfold sort_values in Hsort. cbn [columns rows] in Hsort. rewrite Hidate in Hsort.
  injection Hsort as <-. cbn [columns rows] in *.
  rewrite Hidate in Hidate'. injection Hidate' as <-.
  rewrite Hindvi in Hindvi'. injection Hindvi' as <-.
  cbn [fst ndvi_trend ndvi_seasonal ndvi_residual].
  destruct (seasonal_decompose_components _ _ Hdec) as (T1 & T2 & T3 & I1 & I2 & I3).
  set (srt := sort_by (fun r1 r2 => sort_leb (cell_at idate r1) (cell_at idate r2))
                      (parcel_rows ipid pid features)) in *.
  assert (Hidx : incl (index (combine (index series) ndvi_values))
                      (map (cell_at idate) (parcel_rows ipid pid features))).
  { eapply incl_tran; [apply incl_index_combine|].
    eapply incl_tran; [apply incl_index_dropna|].
    unfold index. rewrite map_map. cbn [fst].
    intros c Hc. apply in_map_iff in Hc. destruct Hc as (row & <- & Hrow).
    apply in_map. apply (Permutation_in _ (sort_by_perm _ _)) in Hrow. exact Hrow. }
  repeat split; try assumption; eapply incl_tran; eassumption.
Qed.

(** Twenty-four observations, all with an NDVI, are analysed. *)
Lemma twenty_four_observations_are_analysed :
  exists h t,
    fst (get_temporal_patterns "P001" (state_with_features twenty_four_observations))
      = Ok (Some h, Some t) /\
    ndvi_trend h <> [] /\ ndvi_seasonal h <> [] /\ ndvi_residual h <> [] /\
    incl (index (ndvi_trend h)) (map (cell_at 1) (rows twenty_four_observations)) /\
    incl (index (ndvi_seasonal h)) (map (cell_at 1) (rows twenty_four_observations)) /\
    incl (index (ndvi_residual h)) (map (cell_at 1) (rows twenty_four_observations)).
Proof.
  apply (get_temporal_patterns_two_cycles "P001"
           (state_with_features twenty_four_observations) twenty_four_observations
           0%nat 1%nat 2%nat); try reflexivity.
  cbn. repeat constructor; eexists; reflexivity.
Qed.

(** * Further properties *)

(** ** The risk scorer: when it returns a table *)

(** The run on a table, with the reason of each failure. *)
Lemma calculate_risk_metrics_run d s :
  (exists col,
      find (fun c => negb (has_column c d)) required_columns = Some col /\
      calculate_risk_metrics (Some d, s) =
        (Ok None, (Some d, with_line (risk_error_line
           (KeyError ("Colonne requise manquante : " ++ col)%string)) s)))
  \/ (exists c0 c1 c2,
      find (fun c => negb (has_column c d)) required_columns = None /\
      get_col "rendement_estime" d = Some c0 /\
      get_col "ph" d = Some c1 /\
      get_col "matiere_organique" d = Some c2 /\
      fit_transform [c0; c1; c2] = None /\
      calculate_risk_metrics (Some d, s) =
        (Ok None, (Some d, with_line (risk_error_line scaler_error)
                                     (with_scaler StandardScaler_new s))))
  \/ (exists fitted d2 g,
      find (fun c => negb (has_column c d)) required_columns = None /\
      scored d fitted d2 g /\
      calculate_risk_metrics (Some d, s) =
        if writable (env s)
        then (Ok (Some g),
              (Some d2, with_file "data/grouped_risk_metrics.csv" g (with_scaler fitted s)))
        else (Ok None,
              (Some d2, with_line (risk_error_line
                  (OSError "Cannot save file into a non-existent directory: data/grouped_risk_metrics.csv"))
                  (with_scaler fitted s)))).
Proof.
  unfold calculate_risk_metrics, calculate_risk_metrics_try, try_except.
  unfold bind, get_arg, gets, or_raise, ret. cbn beta iota delta [fst snd].
  rewrite check_required_run.
  destruct (find _ required_columns) as [col|] eqn:Efind.
  { left. exists col. split; [reflexivity|]. reflexivity. }
  assert (Hall : forall c, In c required_columns -> has_column c d = true).
  { intros c Hc. pose proof (find_none _ _ Efind c Hc) as H.
    simpl in H. destruct (has_column c d); [reflexivity | discriminate H]. }
  destruct (get_col_has_column "rendement_estime" d) as [c0 E0]; [apply Hall; simpl; tauto|].
  destruct (get_col_has_column "ph" d) as [c1 E1]; [apply Hall; simpl; tauto|].
  destruct (get_col_has_column "matiere_organique" d) as [c2 E2]; [apply Hall; simpl; tauto|].
  assert (Hp : col_index "parcelle_id" (columns d) <> None)
    by (apply has_column_col_index, Hall; simpl; tauto).
  assert (Hc : col_index "culture" (columns d) <> None)
    by (apply has_column_col_index, Hall; simpl; tauto).
  unfold getitem, or_raise, ret. rewrite E0, E1, E2. cbn beta iota.
  destruct (fit_transform [c0; c1; c2]) as [[fitted N]|] eqn:Efit.
  2:{ right; left. exists c0, c1, c2.
      do 4 (split; [reflexivity|]). split; [exact Efit | reflexivity]. }
  pose proof (fit_transform_shape _ _ _ Efit) as HN.
  destruct N as [|n0 [|n1 [|n2 [|]]]]; try discriminate HN.
  right; right.
  set (d1 := set_col "risk_index" (map3 risk_index_of n0 n1 n2) d).
  destruct (get_col "risk_index" d1) as [ri|] eqn:Eri.
  2:{ unfold get_col, d1 in Eri. rewrite col_index_set_col_same in Eri. discriminate. }
  set (d2 := set_col "risk_category"
                (map (fun c => cat_cell (cut risk_bins risk_labels c)) ri) d1).
  destruct (col_index "parcelle_id" (columns d)) as [ip|] eqn:Eip; [|congruence].
  destruct (col_index "culture" (columns d)) as [ic|] eqn:Eic; [|congruence].
  assert (Eip2 : col_index "parcelle_id" (columns d2) = Some ip)
    by (unfold d2, d1; do 2 apply col_index_set_col_other; exact Eip).
  assert (Eic2 : col_index "culture" (columns d2) = Some ic)
    by (unfold d2, d1; do 2 apply col_index_set_col_other; exact Eic).
  destruct (col_index "risk_index" (columns d2)) as [ir|] eqn:Eir.
  2:{ unfold d2 in Eir. erewrite col_index_set_col_other in Eir; [discriminate|].
      unfold d1. apply col_index_set_col_same. }
  destruct (col_index "risk_category" (columns d2)) as [ig|] eqn:Eig.
  2:{ unfold d2 in Eig. rewrite col_index_set_col_same in Eig. discriminate. }
  exists fitted, d2, (groupby_agg ip ic ir ig (rows d2)). split; [reflexivity|]. split.
  - eapply Scored; eauto.
  - unfold lift, set_self, set_arg, getpos, or_raise, ret, to_csv, print, raise, modify.
    cbn beta iota delta [fst snd]. fold d1. rewrite Eri. cbn beta iota delta [fst snd].
    fold d2. rewrite Eip2, Eic2, Eir, Eig. cbn beta iota delta [fst snd self env].
    destruct (writable (env s)); reflexivity.
Qed.

Lemma scored_fit d fitted d2 g :
  scored d fitted d2 g ->
  exists c0 c1 c2 N,
    get_col "rendement_estime" d = Some c0 /\
    get_col "ph" d = Some c1 /\
    get_col "matiere_organique" d = Some c2 /\
    fit_transform [c0; c1; c2] = Some (fitted, N).
Proof.
  intros H. destruct H as [c0 c1 c2 fitted n0 n1 n2 ? ? ? ? ? E0 E1 E2 Efit].
  exists c0, c1, c2. eauto.
Qed.

Lemma fit_transform_Some_iff X :
  (exists r, fit_transform X = Some r) <->
  forallb (forallb is_numeric) X = true /\
  forallb (fun col => negb (Nat.eqb (length col) 0)) X = true.
Proof.
  unfold fit_transform.
  destruct (forallb (forallb is_numeric) X), (forallb _ X); simpl; split;
    try (intros [r H]; discriminate H); try (intros [H1 H2]; discriminate);
    try (intros _; eauto).
Qed.

(** What a call that returns a table has found. *)
Lemma returned_table_needs d s :
  returned_table (calculate_risk_metrics (Some d, s)) ->
  (forall c, In c required_columns -> has_column c d = true) /\
  (forall name c, In name ["rendement_estime"; "ph"; "matiere_organique"] ->
                  get_col name d = Some c -> forallb is_numeric c = true) /\
  rows d <> [] /\
  writable (env s) = true.
Proof.
  intros [g Hg].
  destruct (calculate_risk_metrics_run d s)
    as [(col & _ & E) | [(c0 & c1 & c2 & _ & _ & _ & _ & _ & E)
                        | (fitted & d2 & g' & Hfind & Hs & E)]];
    rewrite E in Hg; try discriminate Hg.
  destruct (writable (env s)) eqn:Ew; [|discriminate Hg].
  destruct (scored_fit _ _ _ _ Hs) as (c0 & c1 & c2 & N & E0 & E1 & E2 & Efit).
  destruct (proj1 (fit_transform_Some_iff _) (ex_intro _ _ Efit)) as [Hnum Hlen].
  cbn [forallb] in Hnum, Hlen. rewrite !andb_true_iff in Hnum, Hlen.
  split; [|split; [|split; [|reflexivity]]].
  - intros c Hc. pose proof (find_none _ _ Hfind c Hc) as H. simpl in H.
    destruct (has_column c d); [reflexivity | discriminate H].
  - intros name c [<-|[<-|[<-|[]]]] Hc; rewrite Hc in *;
      [injection E0 as <- | injection E1 as <- | injection E2 as <-]; tauto.
  - intros Hrows. apply length_get_col in E0. unfold nrows in E0. rewrite Hrows in E0.
    destruct c0; [|discriminate E0]. simpl in Hlen. destruct Hlen as [Hl _]. discriminate Hl.
Qed.

(** What is enough for a call to return a table. *)
Lemma returned_table_when d s :
  (forall c, In c required_columns -> has_column c d = true) /\
  (forall name c, In name ["rendement_estime"; "ph"; "matiere_organique"] ->
                  get_col name d = Some c -> forallb is_numeric c = true) /\
  rows d <> [] /\
  writable (env s) = true ->
  returned_table (calculate_risk_metrics (Some d, s)).
Proof.
  intros (Hall & Hnum & Hrows & Hw).
  destruct (calculate_risk_metrics_run d s)
    as [(col & Hfind & _) | [(c0 & c1 & c2 & _ & E0 & E1 & E2 & Efit & _)
                            | (fitted & d2 & g & _ & _ & E)]].
  - exfalso. apply find_some in Hfind. destruct Hfind as [Hin Hneg].
    rewrite (Hall col Hin) in Hneg. discriminate Hneg.
  - exfalso.
    assert (Hex : exists r, fit_transform [c0; c1; c2] = Some r).
    { apply fit_transform_Some_iff. cbn [forallb].
      rewrite (Hnum _ _ (or_introl eq_refl) E0).
      rewrite (Hnum _ _ (or_intror (or_introl eq_refl)) E1).
      rewrite (Hnum _ _ (or_intror (or_intror (or_introl eq_refl))) E2).
      assert (Hn : nrows d <> 0%nat) by (unfold nrows; destruct (rows d); simpl; congruence).
      rewrite (length_get_col _ _ _ E0), (length_get_col _ _ _ E1), (length_get_col _ _ _ E2).
      split; [reflexivity|].
      destruct (Nat.eqb_spec (nrows d) 0); [contradiction | reflexivity]. }
    destruct Hex as [r Hr]. congruence.
  - exists g. rewrite E, Hw. reflexivity.
Qed.

(** [calculate_risk_metrics] returns a table exactly when the table it is
    given has the five required columns and at least one row, its three
    features hold only numbers and missing values, and the aggregate can be
    written; in every other case it returns [None].  So an empty table gives
    no result. *)
Theorem calculate_risk_metrics_returns_iff d s :
  returned_table (calculate_risk_metrics (Some d, s)) <->
  (forall c, In c required_columns -> has_column c d = true) /\
  (forall name c, In name ["rendement_estime"; "ph"; "matiere_organique"] ->
                  get_col name d = Some c -> forallb is_numeric c = true) /\
  rows d <> [] /\
  writable (env s) = true.
Proof.
  split.
  - intros Hret. exact (returned_table_needs d s Hret).
  - intros Hneeds. exact (returned_table_when d s Hneeds).
Qed.

(** ** The risk scorer: what it saves, and a second call *)

(** The aggregate that a call returns is the table it has saved, and a call
    that returns nothing has written no file. *)
Theorem calculate_risk_metrics_saves_what_it_returns arg s :
  (forall g, fst (calculate_risk_metrics (arg, s)) = Ok (Some g) ->
     lookup_file "data/grouped_risk_metrics.csv" (files_after (calculate_risk_metrics (arg, s)))
       = Some (CsvFile g)) /\
  (fst (calculate_risk_metrics (arg, s)) = Ok None ->
     files_after (calculate_risk_metrics (arg, s)) = fs (env s)).
Proof.
  destruct arg as [d|].
  - destruct (calculate_risk_metrics_run d s)
      as [(col & _ & E) | [(c0 & c1 & c2 & _ & _ & _ & _ & _ & E)
                          | (fitted & d2 & g' & _ & _ & E)]]; rewrite E.
    + split; [intros g Hg; discriminate Hg | reflexivity].
    + split; [intros g Hg; discriminate Hg | reflexivity].
    + destruct (writable (env s)).
      * split; [|intros H; discriminate H].
        intros g [= <-]. unfold files_after, with_file. cbn. reflexivity.
      * split; [intros g Hg; discriminate Hg | reflexivity].
  - split; [intros g Hg; discriminate Hg | reflexivity].
Qed.

Lemma replace_nth_same {A} i (d : A) l : replace_nth i (nth i l d) l = l.
Proof.
  revert i. induction l as [|h t IH]; intros [|i]; simpl; try reflexivity.
  f_equal. apply IH.
Qed.

(** Writing a column over itself changes nothing. *)
Lemma set_col_get_col name v df :
  get_col name df = Some v -> set_col name v df = df.
Proof.
  unfold get_col, set_col. destruct (col_index name (columns df)) as [i|]; [|discriminate].
  intros [= <-]. destruct df as [cols rs]. cbn [columns rows]. f_equal.
  rewrite (map_combine_map (cell_at i)). cbn [fst snd].
  rewrite <- (map_id rs) at 2. apply map_ext. intros r. apply replace_nth_same.
Qed.

Lemma scored_aggregate d fitted d2 g :
  scored d fitted d2 g ->
  exists ip ic ir ig,
    col_index "parcelle_id" (columns d2) = Some ip /\
    col_index "culture" (columns d2) = Some ic /\
    col_index "risk_index" (columns d2) = Some ir /\
    col_index "risk_category" (columns d2) = Some ig /\
    g = groupby_agg ip ic ir ig (rows d2).
Proof.
  intros H. destruct H as [? ? ? ? ? ? ? ? ip ic ir ig]. exists ip, ic, ir, ig. auto.
Qed.

(** A second call on the table that a first call has scored returns the same
    aggregate and leaves the table as the first call left it. *)
Theorem calculate_risk_metrics_twice d s :
  wf d ->
  returned_table (calculate_risk_metrics (Some d, s)) ->
  exists g d' s' s'',
    calculate_risk_metrics (Some d, s) = (Ok (Some g), (Some d', s')) /\
    calculate_risk_metrics (Some d', s') = (Ok (Some g), (Some d', s'')).
Proof.
  intros Hwf Hret.
  destruct (returned_table_needs d s Hret) as (Hall & Hnum & Hrows & Hw).
  destruct (calculate_risk_metrics_returned d s Hret) as (fitted & d2 & g & Hs & E).
  destruct (scored_frame d fitted d2 g Hwf Hs) as (Hn & Hframe & _ & _).
  destruct (scored_columns d fitted d2 g Hwf Hs)
    as (c0 & c1 & c2 & E0 & E1 & E2 & Efit & Hlen & Hd2 & Hri & Hrc).
  cbv zeta in Hd2, Hri, Hrc.
  assert (Hwf2 : wf d2) by (rewrite Hd2; do 2 apply wf_set_col; exact Hwf).
  set (s' := with_file "data/grouped_risk_metrics.csv" g (with_scaler fitted s)) in *.
  assert (Hret2 : returned_table (calculate_risk_metrics (Some d2, s'))).
  { apply returned_table_when. split; [|split; [|split]].
    - intros c Hc. apply has_column_col_index. specialize (Hall c Hc).
      apply has_column_col_index in Hall.
      destruct (col_index c (columns d)) as [i|] eqn:Ei; [|congruence].
      rewrite Hd2. rewrite (col_index_set_col_other _ _ _ _ i); [discriminate|].
      apply col_index_set_col_other. exact Ei.
    - intros name c Hin Hc. apply (Hnum name c Hin). rewrite <- Hframe; [exact Hc | |];
        destruct Hin as [<-|[<-|[<-|[]]]]; discriminate.
    - intros Hr. apply Hrows. unfold nrows in Hn. rewrite Hr in Hn.
      destruct (rows d); [reflexivity | discriminate Hn].
    - reflexivity. }
  destruct (calculate_risk_metrics_returned d2 s' Hret2) as (fitted' & d3 & g' & Hs' & E').
  destruct (scored_columns d2 fitted' d3 g' Hwf2 Hs')
    as (c0' & c1' & c2' & E0' & E1' & E2' & _ & _ & Hd3 & _ & _).
  cbv zeta in Hd3.
  rewrite Hframe in E0', E1', E2' by discriminate.
  rewrite E0 in E0'. rewrite E1 in E1'. rewrite E2 in E2'.
  injection E0' as <-. injection E1' as <-. injection E2' as <-.
  rewrite (set_col_get_col _ _ _ Hri) in Hd3. rewrite (set_col_get_col _ _ _ Hrc) in Hd3.
  subst d3.
  destruct (scored_aggregate _ _ _ _ Hs) as (ip & ic & ir & ig & Hip & Hic & Hir & Hig & Hg).
  destruct (scored_aggregate _ _ _ _ Hs') as (ip' & ic' & ir' & ig' & Hip' & Hic' & Hir' & Hig' & Hg').
  assert (Hgg : g' = g) by congruence. rewrite Hgg in E'.
  exists g, d2, s'. eexists. split; [exact E | exact E'].
Qed.

Lemma calculate_risk_metrics_twice_witness :
  exists g d' s' s'',
    calculate_risk_metrics (Some sample_features, fresh_state) = (Ok (Some g), (Some d', s')) /\
    calculate_risk_metrics (Some d', s') = (Ok (Some g), (Some d', s'')).
Proof.
  apply (calculate_risk_metrics_twice sample_features fresh_state).
  - repeat constructor.
  - eexists. cbn. reflexivity.
Defined.

(** ** The risk scorer: the indexes and their categories *)

Lemma cut_risk_bins_total x : exists c, cut risk_bins risk_labels (Num x) = Some c.
Proof.
  destruct (cut_risk_bins x) as (H1 & H2 & H3 & H4).
  destruct (Rle_dec x (-1)); [eexists; apply H1; lra|].
  destruct (Rle_dec x 0); [eexists; apply H2; lra|].
  destruct (Rle_dec x 1); [eexists; apply H3; lra|].
  eexists; apply H4; lra.
Qed.

Lemma cut_risk_bins_monotone x y cx cy :
  cut risk_bins risk_labels (Num x) = Some cx ->
  cut risk_bins risk_labels (Num y) = Some cy ->
  (x <= y)%R -> (risk_level_code cx <= risk_level_code cy)%nat.
Proof.
  intros Hx Hy Hle.
  destruct (cut_risk_bins x) as (X1 & X2 & X3 & X4).
  destruct (cut_risk_bins y) as (Y1 & Y2 & Y3 & Y4).
  destruct (Rle_dec x (-1)) as [Hx1|Hx1].
  { rewrite X1 in Hx by lra. injection Hx as <-. simpl. lia. }
  destruct (Rle_dec x 0) as [Hx2|Hx2].
  { rewrite X2 in Hx by lra. injection Hx as <-.
    destruct (Rle_dec y 0); [rewrite Y2 in Hy by lra | ]; [injection Hy as <-; simpl; lia|].
    destruct (Rle_dec y 1); [rewrite Y3 in Hy by lra | rewrite Y4 in Hy by lra];
      injection Hy as <-; simpl; lia. }
  destruct (Rle_dec x 1) as [Hx3|Hx3].
  { rewrite X3 in Hx by lra. injection Hx as <-.
    destruct (Rle_dec y 1); [rewrite Y3 in Hy by lra | rewrite Y4 in Hy by lra];
      injection Hy as <-; simpl; lia. }
  rewrite X4 in Hx by lra. rewrite Y4 in Hy by lra.
  injection Hx as <-. injection Hy as <-. simpl. lia.
Qed.

Lemma risk_index_of_cases a b c :
  (exists x, risk_index_of a b c = Num x) \/ risk_index_of a b c = Null.
Proof. destruct a, b, c; simpl; eauto. Qed.

(** In a scored table a row has a category exactly when it has a risk index,
    and the categories follow the order of the indexes: a higher index never
    gets a lower category. *)
Theorem risk_categories_follow_the_indexes d s :
  wf d ->
  returned_table (calculate_risk_metrics (Some d, s)) ->
  exists d' ri rc,
    data_after (calculate_risk_metrics (Some d, s)) = Some d' /\
    get_col "risk_index" d' = Some ri /\
    get_col "risk_category" d' = Some rc /\
    (forall i v, nth_error ri i = Some v ->
       (exists x c, v = Num x /\ nth_error rc i = Some (Cat c)) \/
       (v = Null /\ nth_error rc i = Some Null)) /\
    (forall i j x y ci cj,
       nth_error ri i = Some (Num x) -> nth_error ri j = Some (Num y) ->
       nth_error rc i = Some (Cat ci) -> nth_error rc j = Some (Cat cj) ->
       (x <= y)%R -> (risk_level_code ci <= risk_level_code cj)%nat).
Proof.
  intros Hwf Hret.
  destruct (calculate_risk_metrics_returned d s Hret) as (fitted & d2 & g & Hs & E).
  destruct (scored_columns d fitted d2 g Hwf Hs)
    as (c0 & c1 & c2 & _ & _ & _ & _ & _ & _ & Hri & Hrc).
  cbv zeta in Hri, Hrc.
  set (ri := map3 risk_index_of
               (map (scale_cell (fit_mean c0) (fit_scale c0)) c0)
               (map (scale_cell (fit_mean c1) (fit_scale c1)) c1)
               (map (scale_cell (fit_mean c2) (fit_scale c2)) c2)) in *.
  exists d2, ri, (map (fun c => cat_cell (cut risk_bins risk_labels c)) ri).
  rewrite E. split; [reflexivity|]. split; [exact Hri|]. split; [exact Hrc|].
  assert (Hcells : forall i v, nth_error ri i = Some v -> (exists x, v = Num x) \/ v = Null).
  { intros i v Hv. apply nth_error_In in Hv. unfold ri in Hv.
    clear - Hv. revert Hv.
    generalize (map (scale_cell (fit_mean c0) (fit_scale c0)) c0)
               (map (scale_cell (fit_mean c1) (fit_scale c1)) c1)
               (map (scale_cell (fit_mean c2) (fit_scale c2)) c2).
    intros l0. induction l0 as [|a l0 IH]; intros [|b l1] [|c l2]; simpl; try tauto.
    intros [<-|H]; [apply risk_index_of_cases | eapply IH; exact H]. }
  split.
  - intros i v Hv. rewrite nth_error_map, Hv. cbn [option_map].
    destruct (Hcells i v Hv) as [[x ->]| ->].
    + left. destruct (cut_risk_bins_total x) as [c Hc]. exists x, c.
      rewrite Hc. split; reflexivity.
    + right. split; reflexivity.
  - intros i j x y ci cj Hi Hj Hci Hcj Hle.
    rewrite nth_error_map, Hi in Hci. rewrite nth_error_map, Hj in Hcj.
    cbn [option_map] in Hci, Hcj.
    destruct (cut_risk_bins_total x) as [cx Hx]. destruct (cut_risk_bins_total y) as [cy Hy].
    rewrite Hx in Hci. rewrite Hy in Hcj. cbn in Hci, Hcj.
    injection Hci as <-. injection Hcj as <-.
    eapply cut_risk_bins_monotone; eassumption.
Qed.

Lemma risk_categories_follow_the_indexes_witness :
  exists d' ri rc,
    data_after (calculate_risk_metrics (Some sample_features, fresh_state)) = Some d' /\
    get_col "risk_index" d' = Some ri /\
    get_col "risk_category" d' = Some rc /\
    (forall i v, nth_error ri i = Some v ->
       (exists x c, v = Num x /\ nth_error rc i = Some (Cat c)) \/
       (v = Null /\ nth_error rc i = Some Null)) /\
    (forall i j x y ci cj,
       nth_error ri i = Some (Num x) -> nth_error ri j = Some (Num y) ->
       nth_error rc i = Some (Cat ci) -> nth_error rc j = Some (Cat cj) ->
       (x <= y)%R -> (risk_level_code ci <= risk_level_code cj)%nat).
Proof.
  apply (risk_categories_follow_the_indexes sample_features fresh_state).
  - repeat constructor.
  - eexists. cbn. reflexivity.
Defined.

(** ** The loader *)

Lemma read_csv_cases path dates s :
  (exists df, readable path dates s = Some df /\ read_csv path dates s = (Ok df, s)) \/
  (readable path dates s = None /\ exists e, read_csv path dates s = (Raise e, s)).
Proof.
  unfold readable, read_csv.
  destruct (lookup_file path (fs (env s))) as [[df|]|]; eauto.
  destruct (forallb (fun c => has_column c df) dates); eauto.
Qed.

Lemma load_data_handler e s : exists line,
  (if is_FileNotFoundError e
   then print ("Erreur : fichier introuvable. " ++ exn_str e)%string
   else print ("Erreur lors du chargement des données : " ++ exn_str e)%string) s
  = (Ok tt, with_line line s).
Proof. destruct (is_FileNotFoundError e); eexists; reflexivity. Qed.

(** The run of the loader: it stops at the first file it cannot read. *)
Lemma load_data_cases s :
  let rm := readable "data/monitoring_cultures.csv" ["date"] s in
  let rw := readable "data/meteo_detaillee.csv" ["date"] s in
  let rs := readable "data/sols.csv" [] s in
  let ry := readable "data/historique_rendements.csv" ["date"] s in
  (rm = None /\ exists line, load_data s = (Ok tt, with_line line s)) \/
  (exists m, rm = Some m /\ rw = None /\
     exists line, load_data s =
       (Ok tt, with_line line (with_self (set_monitoring_data (Some m) (self s)) s))) \/
  (exists m w, rm = Some m /\ rw = Some w /\ rs = None /\
     exists line, load_data s =
       (Ok tt, with_line line
                 (with_self (set_weather_data (Some w)
                               (set_monitoring_data (Some m) (self s))) s))) \/
  (exists m w so, rm = Some m /\ rw = Some w /\ rs = Some so /\ ry = None /\
     exists line, load_data s =
       (Ok tt, with_line line
                 (with_self (set_soil_data (Some so)
                               (set_weather_data (Some w)
                                  (set_monitoring_data (Some m) (self s)))) s))) \/
  (exists m w so y, rm = Some m /\ rw = Some w /\ rs = Some so /\ ry = Some y /\
     load_data s =
       (Ok tt, with_self (mkManager (Some m) (Some w) (Some so) (Some y) (scalar (self s))) s)).
Proof.
  intros rm rw rs ry. unfold load_data, try_except, bind, set_self, modify.
  destruct (read_csv_cases "data/monitoring_cultures.csv" ["date"] s)
    as [(m & Hm & Em) | (Hm & e & Em)]; rewrite Em; fold rm in Hm.
  2:{ left. split; [exact Hm|]. apply load_data_handler. }
  right. cbn beta iota.
  set (s1 := mkState (set_monitoring_data (Some m) (self s)) (env s)).
  destruct (read_csv_cases "data/meteo_detaillee.csv" ["date"] s1)
    as [(w & Hw & Ew) | (Hw & e & Ew)]; rewrite Ew;
    [change (rw = Some w) in Hw | change (rw = None) in Hw].
  2:{ left. exists m. split; [exact Hm|]. split; [exact Hw|]. apply load_data_handler. }
  right. cbn beta iota.
  set (s2 := mkState (set_weather_data (Some w) (self s1)) (env s1)).
  destruct (read_csv_cases "data/sols.csv" [] s2)
    as [(so & Hso & Eso) | (Hso & e & Eso)]; rewrite Eso;
    [change (rs = Some so) in Hso | change (rs = None) in Hso].
  2:{ left. exists m, w. repeat (split; [assumption|]). apply load_data_handler. }
  right. cbn beta iota.
  set (s3 := mkState (set_soil_data (Some so) (self s2)) (env s2)).
  destruct (read_csv_cases "data/historique_rendements.csv" ["date"] s3)
    as [(y & Hy & Ey) | (Hy & e & Ey)]; rewrite Ey;
    [change (ry = Some y) in Hy | change (ry = None) in Hy].
  2:{ left. exists m, w, so. repeat (split; [assumption|]). apply load_data_handler. }
  right. exists m, w, so, y. repeat (split; [assumption|]). reflexivity.
Qed.

Lemma app_one_neq {A} (l : list A) x : l ++ [x] <> l.
Proof.
  intros H. apply (f_equal (@length A)) in H. rewrite length_app in H. simpl in H. lia.
Qed.

(** The loader prints nothing exactly when it could read the four files;
    the manager then holds the four tables of the files, and in every case
    the files are left as they were. *)
Theorem load_data_silent_iff_loaded s :
  let s' := snd (load_data s) in
  fs (env s') = fs (env s) /\
  (stdout (env s') = stdout (env s) <->
   exists m w so y,
     readable "data/monitoring_cultures.csv" ["date"] s = Some m /\
     readable "data/meteo_detaillee.csv" ["date"] s = Some w /\
     readable "data/sols.csv" [] s = Some so /\
     readable "data/historique_rendements.csv" ["date"] s = Some y /\
     self s' = mkManager (Some m) (Some w) (Some so) (Some y) (scalar (self s))).
Proof.
  intros s'. subst s'.
  destruct (load_data_cases s)
    as [(Hm & line & E) | [(m & Hm & Hw & line & E) | [(m & w & Hm & Hw & Hs & line & E) |
       [(m & w & so & Hm & Hw & Hs & Hy & line & E) | (m & w & so & y & Hm & Hw & Hs & Hy & E)]]]];
    rewrite E; cbn [snd with_line with_self env fs stdout self]; (split; [reflexivity|]).
  1-4: split; [intros H; exfalso; exact (app_one_neq _ _ H)
              | intros (m' & w' & so' & y' & Hm' & Hw' & Hs' & Hy' & _); congruence].
  split; [|reflexivity]. intros _. exists m, w, so, y. repeat (split; [assumption|]). reflexivity.
Qed.

(** The load is not all or nothing: the tables read before the first file
    that cannot be read are stored, the tables after it keep their former
    value, and one line reports the failure. *)
Theorem load_data_stops_at_first_unreadable_file s :
  let s' := snd (load_data s) in
  let rm := readable "data/monitoring_cultures.csv" ["date"] s in
  let rw := readable "data/meteo_detaillee.csv" ["date"] s in
  let rs := readable "data/sols.csv" [] s in
  let ry := readable "data/historique_rendements.csv" ["date"] s in
  (rm = None -> self s' = self s) /\
  (forall m, rm = Some m -> monitoring_data (self s') = Some m) /\
  (forall m, rm = Some m -> rw = None ->
     weather_data (self s') = weather_data (self s) /\
     soil_data (self s') = soil_data (self s) /\
     yield_history (self s') = yield_history (self s)) /\
  (forall m w, rm = Some m -> rw = Some w ->
     weather_data (self s') = Some w) /\
  (forall m w, rm = Some m -> rw = Some w -> rs = None ->
     soil_data (self s') = soil_data (self s) /\
     yield_history (self s') = yield_history (self s)) /\
  (forall m w so, rm = Some m -> rw = Some w -> rs = Some so ->
     soil_data (self s') = Some so) /\
  (forall m w so, rm = Some m -> rw = Some w -> rs = Some so -> ry = None ->
     yield_history (self s') = yield_history (self s)) /\
  ((rm = None \/ rw = None \/ rs = None \/ ry = None) ->
   exists line, stdout (env s') = stdout (env s) ++ [line]).
Proof.
  intros s' rm rw rs ry. subst s'.
  destruct (load_data_cases s)
    as [(Hm & line & E) | [(m & Hm & Hw & line & E) | [(m & w & Hm & Hw & Hs & line & E) |
       [(m & w & so & Hm & Hw & Hs & Hy & line & E) | (m & w & so & y & Hm & Hw & Hs & Hy & E)]]]];
    rewrite E; cbn [snd with_line with_self env fs stdout self];
    fold rm in Hm; try fold rw in Hw; try fold rs in Hs; try fold ry in Hy;
    repeat split; intros; try congruence;
      try (eexists; reflexivity);
      try (cbn; congruence).
  all: repeat match goal with H : _ \/ _ |- _ => destruct H end; congruence.
Qed.

(** ** The cleaner *)

Lemma all_some_abs_cell col :
  all_some (map abs_cell col) =
  if forallb is_numeric col then Some (map abs_value col) else None.
Proof.
  induction col as [|c col IH]; [reflexivity|].
  cbn [map all_some forallb]. destruct c; cbn; try reflexivity;
    rewrite IH; destruct (forallb is_numeric col); reflexivity.
Qed.

Lemma clean_data_run s :
  clean_data s =
  match weather_data (self s) with
  | None => (Raise (TypeError "'NoneType' object is not subscriptable"), s)
  | Some w =>
      match get_col "rayonnement_solaire" w with
      | None => (Raise (KeyError "rayonnement_solaire"), s)
      | Some col =>
          if forallb is_numeric col
          then (Ok tt, with_self (set_weather_data
                                    (Some (set_col "rayonnement_solaire" (map abs_value col) w))
                                    (self s)) s)
          else (Raise (TypeError "bad operand type for abs()"), s)
      end
  end.
Proof.
  unfold clean_data, the_weather_data, getitem, bind, gets, or_raise, set_self, modify.
  destruct (weather_data (self s)) as [w|]; [|reflexivity].
  unfold ret, raise. destruct (get_col "rayonnement_solaire" w) as [col|]; [|reflexivity].
  rewrite all_some_abs_cell.
  destruct (forallb is_numeric col); reflexivity.
Qed.

(** The cleaner succeeds exactly when the weather table is loaded and has a
    column [rayonnement_solaire] of numbers and missing values; otherwise it
    raises and leaves the manager and the files as they were. *)
Theorem clean_data_succeeds_iff s :
  ((exists s', clean_data s = (Ok tt, s')) <->
   (exists w col, weather_data (self s) = Some w /\
                  get_col "rayonnement_solaire" w = Some col /\
                  forallb is_numeric col = true)) /\
  (forall e s', clean_data s = (Raise e, s') -> s' = s).
Proof.
  rewrite clean_data_run.
  destruct (weather_data (self s)) as [w|].
  2:{ split; [split|].
      - intros [s' H]. discriminate.
      - intros (w & col & H & _). discriminate.
      - intros e s' [= _ <-]. reflexivity. }
  destruct (get_col "rayonnement_solaire" w) as [col|] eqn:Ec.
  2:{ split; [split|].
      - intros [s' H]. discriminate.
      - intros (w' & col & [= <-] & H & _). congruence.
      - intros e s' [= _ <-]. reflexivity. }
  destruct (forallb is_numeric col) eqn:En.
  - split; [split|].
    + intros _. exists w, col. auto.
    + intros _. eexists. reflexivity.
    + intros e s' H. discriminate.
  - split; [split|].
    + intros [s' H]. discriminate.
    + intros (w' & col' & [= <-] & H & H'). congruence.
    + intros e s' [= _ <-]. reflexivity.
Qed.

Lemma abs_value_non_negative col x : In (Num x) (map abs_value col) -> (0 <= x)%R.
Proof.
  intros H. apply in_map_iff in H. destruct H as (c & Hc & _).
  destruct c; simpl in Hc; try discriminate. injection Hc as <-. apply Rabs_pos.
Qed.

(** After a clean that succeeded, no value of [rayonnement_solaire] is
    negative: each is the absolute value of the former one, missing values
    stay missing.  The table keeps its columns and its rows, every other
    column keeps its values, and nothing but the weather table changes. *)
Theorem clean_data_makes_radiation_non_negative s w s' :
  weather_data (self s) = Some w -> wf w ->
  clean_data s = (Ok tt, s') ->
  exists col w',
    get_col "rayonnement_solaire" w = Some col /\
    s' = with_self (set_weather_data (Some w') (self s)) s /\
    columns w' = columns w /\ nrows w' = nrows w /\
    get_col "rayonnement_solaire" w' = Some (map abs_value col) /\
    (forall x, In (Num x) (map abs_value col) -> (0 <= x)%R) /\
    (forall other, other <> "rayonnement_solaire" -> get_col other w' = get_col other w).
Proof.
  intros Hw Hwf. rewrite clean_data_run, Hw.
  destruct (get_col "rayonnement_solaire" w) as [col|] eqn:Ec; [|discriminate].
  destruct (forallb is_numeric col); [|discriminate]. intros [= <-].
  pose proof (length_get_col _ _ _ Ec) as Hlen.
  assert (Hlen' : length (map abs_value col) = nrows w) by (rewrite length_map; exact Hlen).
  exists col, (set_col "rayonnement_solaire" (map abs_value col) w).
  split; [reflexivity|]. split; [reflexivity|].
  split.
  { rewrite columns_set_col. unfold get_col in Ec.
    destruct (col_index "rayonnement_solaire" (columns w)); [reflexivity | discriminate]. }
  split; [apply rows_set_col; exact Hlen'|].
  split; [apply get_col_set_col_same; assumption|].
  split; [apply abs_value_non_negative|].
  intros other Hne. apply get_col_set_col_other; auto.
Qed.

Lemma clean_data_makes_radiation_non_negative_witness :
  exists col w',
    get_col "rayonnement_solaire" sample_weather = Some col /\
    snd (clean_data (state_with_weather sample_weather)) =
      with_self (set_weather_data (Some w') (self (state_with_weather sample_weather)))
                (state_with_weather sample_weather) /\
    columns w' = columns sample_weather /\ nrows w' = nrows sample_weather /\
    get_col "rayonnement_solaire" w' = Some (map abs_value col) /\
    (forall x, In (Num x) (map abs_value col) -> (0 <= x)%R) /\
    (forall other, other <> "rayonnement_solaire" ->
                   get_col other w' = get_col other sample_weather).
Proof.
  apply (clean_data_makes_radiation_non_negative
           (state_with_weather sample_weather) sample_weather).
  - reflexivity.
  - repeat constructor.
  - reflexivity.
Defined.

Lemma abs_value_idempotent c : abs_value (abs_value c) = abs_value c.
Proof. destruct c; simpl; try reflexivity. rewrite Rabs_Rabsolu. reflexivity. Qed.

Lemma forallb_is_numeric_abs col : forallb is_numeric (map abs_value col) = forallb is_numeric col.
Proof.
  induction col as [|c col IH]; [reflexivity|]. simpl. rewrite IH. destruct c; reflexivity.
Qed.

(** Cleaning a second time changes nothing: a clean that succeeded can be
    repeated, and the repetition leaves the state it finds. *)
Theorem clean_data_twice s w s' :
  weather_data (self s) = Some w -> wf w ->
  clean_data s = (Ok tt, s') ->
  clean_data s' = (Ok tt, s').
Proof.
  intros Hw Hwf. rewrite clean_data_run, Hw.
  destruct (get_col "rayonnement_solaire" w) as [col|] eqn:Ec; [|discriminate].
  destruct (forallb is_numeric col) eqn:En; [|discriminate]. intros [= <-].
  pose proof (length_get_col _ _ _ Ec) as Hlen.
  assert (Hlen' : length (map abs_value col) = nrows w) by (rewrite length_map; exact Hlen).
  rewrite clean_data_run. cbn [with_self self set_weather_data weather_data].
  rewrite get_col_set_col_same by assumption.
  rewrite forallb_is_numeric_abs, En.
  rewrite map_map, (map_ext _ _ abs_value_idempotent).
  rewrite (set_col_get_col "rayonnement_solaire" (map abs_value col)
             (set_col "rayonnement_solaire" (map abs_value col) w))
    by (apply get_col_set_col_same; assumption).
  destruct s as [[m0 w0 so0 y0 sc0] e0]. reflexivity.
Qed.

Lemma clean_data_twice_witness :
  clean_data (snd (clean_data (state_with_weather sample_weather))) =
  (Ok tt, snd (clean_data (state_with_weather sample_weather))).
Proof.
  apply (clean_data_twice (state_with_weather sample_weather) sample_weather).
  - reflexivity.
  - repeat constructor.
  - reflexivity.
Defined.

(** ** The resampler *)

Lemma series_mean_numeric col : is_numeric (series_mean col) = true.
Proof. unfold series_mean. destruct (nums col); reflexivity. Qed.

Lemma filter_all {A} (p : A -> bool) l : (forall a, In a l -> p a = true) -> filter p l = l.
Proof.
  induction l as [|a l IH]; intros H; [reflexivity|].
  simpl. rewrite (H a) by (left; reflexivity). f_equal. apply IH.
  intros b Hb. apply H. right. exact Hb.
Qed.

Lemma map_nth_seq0 {A} (l : list A) d : map (fun i => nth i l d) (seq 0 (length l)) = l.
Proof.
  induction l as [|a l IH]; [reflexivity|].
  cbn [length seq map nth]. f_equal. rewrite <- seq_shift, map_map. exact IH.
Qed.

Lemma map_nth_seq1 {A} (a : A) l d : map (fun i => nth i (a :: l) d) (seq 1 (length l)) = l.
Proof. rewrite <- seq_shift, map_map. apply map_nth_seq0. Qed.

Lemma numeric_cell_at i (r : row) :
  (forall c, In c r -> is_numeric c = true) -> is_numeric (cell_at i r) = true.
Proof.
  intros H. unfold cell_at. destruct (nth_in_or_default i r Null) as [Hin| ->];
    [apply H, Hin | reflexivity].
Qed.

(** A table of consecutive days, one row a day, with numeric columns, is a
    fixed point of the resampling. *)
Lemma resample_D_mean_daily names (vals : Z -> row) first n :
  (forall day, length (vals day) = length names) ->
  (forall day c, In c (vals day) -> is_numeric c = true) ->
  let out := mkDF ("date" :: names)
                  (map (fun day => Date (day_start day) :: vals day) (seqZ first n)) in
  resample_D_mean 0 out = Some out.
Proof.
  intros Hlen Hnum out.
  assert (Hkeep : mean_columns 0 out = seq 1 (length names)).
  { unfold mean_columns. cbn [out columns rows length seq filter Nat.eqb negb andb].
    apply filter_all. intros i Hi. apply in_seq in Hi.
    destruct i as [|j]; [lia|]. cbn [Nat.eqb negb andb].
    unfold numeric_column. apply forallb_forall. intros r Hr.
    apply in_map_iff in Hr. destruct Hr as (day & <- & _).
    unfold cell_at. cbn [nth]. apply (numeric_cell_at j (vals day)). apply Hnum. }
  assert (Hdays : map (row_day 0) (rows out) = map Some (seqZ first n)).
  { cbn [out rows]. rewrite map_map. apply map_ext. intros day.
    unfold row_day. cbn. rewrite day_of_day_start. reflexivity. }
  unfold resample_D_mean. rewrite Hkeep, Hdays, keep_some_map_Some.
  assert (Hcols : "date" :: map (fun i => nth i (columns out) "") (seq 1 (length names))
                  = columns out).
  { cbn [out columns]. f_equal. apply map_nth_seq1. }
  rewrite Hcols.
  destruct n as [|m]; [reflexivity|].
  cbn [seqZ].
  destruct (Zmin_list_spec first (seqZ (first + 1) m)) as [Hmin_in Hmin_le].
  destruct (Zmax_list_spec first (seqZ (first + 1) m)) as [Hmax_in Hmax_le].
  change (first :: seqZ (first + 1) m) with (seqZ first (S m)) in *.
  set (lo := Zmin_list first (seqZ (first + 1) m)) in *.
  set (hi := Zmax_list first (seqZ (first + 1) m)) in *.
  assert (Hlo : lo = first).
  { apply seqZ_In in Hmin_in. specialize (Hmin_le first). rewrite seqZ_In in Hmin_le. lia. }
  assert (Hhi : hi = (first + Z.of_nat m)%Z).
  { apply seqZ_In in Hmax_in. specialize (Hmax_le (first + Z.of_nat m)%Z).
    rewrite seqZ_In in Hmax_le. lia. }
  assert (Hcount : Z.to_nat (hi - lo + 1) = S m) by lia.
  rewrite Hcount, Hlo. unfold out at 3. f_equal. f_equal.
  apply map_ext_in. intros day Hday. f_equal.
  rewrite (filter_single (row_day 0) _ _ (Date (day_start day) :: vals day)).
  - rewrite <- (Hlen day).
    rewrite <- (map_nth_seq1 (Date (day_start day)) (vals day) Null) at 2.
    apply map_ext_in. intros i Hi. apply in_seq in Hi. cbn [map].
    apply series_mean_single.
    destruct i as [|j]; [lia|]. unfold cell_at. cbn [nth].
    apply (numeric_cell_at j (vals day)). apply Hnum.
  - rewrite Hdays. apply Finite.Injective_map_NoDup; [intros a b [=]; assumption|].
    apply seqZ_NoDup.
  - cbn [out rows]. apply in_map_iff. exists day. split; [reflexivity | exact Hday].
  - intros x.
    assert (Hr : row_day 0 (Date (day_start day) :: vals day) = Some day)
      by (unfold row_day; cbn; rewrite day_of_day_start; reflexivity).
    rewrite Hr. unfold on_day.
    destruct (row_day 0 x) as [d'|]; [|split; discriminate].
    rewrite Z.eqb_eq. split; congruence.
Qed.

Lemma resample_D_mean_fixed idate w out :
  resample_D_mean idate w = Some out -> resample_D_mean 0 out = Some out.
Proof.
  unfold resample_D_mean.
  destruct (keep_some (map (row_day idate) (rows w))) as [|d ds].
  - destruct (rows w); [|discriminate]. intros [= <-].
    apply (resample_D_mean_daily _ (fun _ => nulls (length (mean_columns idate w))) 0%Z 0).
    + intros _. unfold nulls. rewrite repeat_length, length_map. reflexivity.
    + intros _ c Hc. apply repeat_spec in Hc. subst c. reflexivity.
  - intros [= <-]. apply resample_D_mean_daily.
    + intros day. rewrite !length_map. reflexivity.
    + intros day c Hc. apply in_map_iff in Hc. destruct Hc as (i & <- & _).
      apply series_mean_numeric.
Qed.

Lemma to_datetime_coerce_idempotent c :
  to_datetime_coerce (to_datetime_coerce c) = to_datetime_coerce c.
Proof. destruct c; reflexivity. Qed.

Lemma replace_nth_twice {A} i (x y : A) l :
  replace_nth i x (replace_nth i y l) = replace_nth i x l.
Proof.
  revert i. induction l as [|h t IH]; intros [|i]; simpl; try reflexivity.
  f_equal. apply IH.
Qed.

Lemma coerce_row_idempotent idate r :
  coerce_row idate (coerce_row idate r) = coerce_row idate r.
Proof.
  unfold coerce_row. rewrite replace_nth_twice. f_equal.
  destruct (Nat.lt_ge_cases idate (length r)) as [H|H].
  - unfold cell_at at 1. rewrite nth_replace_nth_same by exact H.
    apply to_datetime_coerce_idempotent.
  - rewrite replace_nth_beyond by exact H. unfold cell_at.
    rewrite nth_overflow by exact H. reflexivity.
Qed.

(** The manager after a run of the resampler. *)
Lemma meteo_data_hourly_to_daily_self s :
  self (snd (meteo_data_hourly_to_daily s)) =
  match weather_data (self s) with
  | None => self s
  | Some w =>
      match col_index "date" (columns w) with
      | None => self s
      | Some idate =>
          set_weather_data
            (Some (match resample_D_mean idate w with
                   | Some out => out
                   | None => mkDF (columns w) (map (coerce_row idate) (rows w))
                   end))
            (self s)
      end
  end.
Proof.
  unfold meteo_data_hourly_to_daily, try_except.
  unfold the_weather_data, getitem, getpos, bind, gets, or_raise, set_self, modify, ret, raise.
  destruct (weather_data (self s)) as [w|] eqn:Hw; [|reflexivity].
  cbn beta iota delta [fst snd self weather_data set_weather_data].
  destruct (col_index "date" (columns w)) as [idate|] eqn:Hi.
  2:{ unfold get_col. rewrite Hi. reflexivity. }
  rewrite (get_col_at _ _ _ Hi). cbn beta iota delta [self weather_data set_weather_data].
  rewrite set_col_date_coerce by exact Hi. cbn [columns]. rewrite Hi.
  cbn beta iota. rewrite resample_D_mean_coerced.
  destruct (resample_D_mean idate w); reflexivity.
Qed.

(** Resampling a second time changes nothing: the manager after two runs of
    the resampler is the manager after one, whether the run succeeded or
    not. *)
Theorem meteo_data_hourly_to_daily_twice s :
  self (snd (meteo_data_hourly_to_daily (snd (meteo_data_hourly_to_daily s)))) =
  self (snd (meteo_data_hourly_to_daily s)).
Proof.
  rewrite (meteo_data_hourly_to_daily_self (snd (meteo_data_hourly_to_daily s))).
  rewrite (meteo_data_hourly_to_daily_self s).
  destruct (weather_data (self s)) as [w|] eqn:Hw; [|rewrite Hw; reflexivity].
  destruct (col_index "date" (columns w)) as [idate|] eqn:Hi.
  2:{ rewrite Hw, Hi. reflexivity. }
  cbn [weather_data set_weather_data].
  destruct (resample_D_mean idate w) as [out|] eqn:Er.
  - destruct (resampled_is_daily idate w out Er) as [H0 _]. rewrite H0.
    rewrite (resample_D_mean_fixed idate w out Er). reflexivity.
  - cbn [columns rows]. rewrite Hi, resample_D_mean_coerced, Er.
    rewrite map_map, (map_ext _ _ (coerce_row_idempotent idate)). reflexivity.
Qed.

(** *** The columns of the daily table *)

Lemma filter_seq_S (q : nat -> bool) a n :
  filter q (seq (S a) n) = map S (filter (fun j => q (S j)) (seq a n)).
Proof. rewrite <- seq_shift. apply filter_map_commute. reflexivity. Qed.

(** Where a column goes when columns are selected by position. *)
Lemma col_index_selected name cols (q : nat -> bool) i :
  col_index name cols = Some i -> q i = true ->
  col_index name (map (fun j => nth j cols "") (filter q (seq 0 (length cols)))) =
  Some (length (filter q (seq 0 i))).
Proof.
  revert q i. induction cols as [|c cs IH]; intros q i Hi Hq; [discriminate|].
  cbn [length seq filter]. rewrite filter_seq_S.
  simpl in Hi. destruct (String.eqb name c) eqn:Ec.
  - injection Hi as <-. rewrite Hq. cbn [map nth col_index seq filter length]. rewrite Ec.
    reflexivity.
  - destruct (col_index name cs) as [i'|] eqn:Ei; [|discriminate].
    simpl in Hi. injection Hi as <-.
    specialize (IH (fun j => q (S j)) i' eq_refl Hq).
    cbn [seq filter]. rewrite filter_seq_S.
    destruct (q 0%nat).
    + cbn [map nth col_index length]. rewrite Ec, map_map. cbn [nth].
      rewrite IH, length_map. reflexivity.
    + rewrite map_map. cbn [nth]. rewrite IH, length_map. reflexivity.
Qed.

Lemma nth_selected (q : nat -> bool) i n d :
  (i < n)%nat -> q i = true ->
  nth (length (filter q (seq 0 i))) (filter q (seq 0 n)) d = i.
Proof.
  intros Hlt Hq. replace n with (i + (n - i))%nat by lia.
  rewrite seq_app, filter_app, app_nth2 by lia. rewrite Nat.sub_diag.
  destruct (n - i)%nat as [|k] eqn:E; [lia|].
  cbn [seq filter]. rewrite Nat.add_0_l, Hq. reflexivity.
Qed.

(** Each numeric column of the table is a column of the daily table, under
    its name, and holds for each day the mean of its values on that day. *)
Lemma resample_D_mean_column idate w out name i :
  resample_D_mean idate w = Some out ->
  name <> "date" ->
  col_index name (columns w) = Some i ->
  i <> idate -> numeric_column (rows w) i = true ->
  exists days,
    get_col "date" out = Some (map (fun d => Date (day_start d)) days) /\
    get_col name out =
      Some (map (fun d => series_mean (map (cell_at i) (filter (on_day idate d) (rows w))))
                days).
Proof.
  intros Hr Hname Hi Hne Hnum.
  set (q := fun j => negb (Nat.eqb j idate) && numeric_column (rows w) j).
  assert (Hq : q i = true).
  { unfold q. rewrite Hnum. destruct (Nat.eqb_spec i idate); [contradiction | reflexivity]. }
  pose proof (col_index_selected name (columns w) q i Hi Hq) as Hsel.
  pose proof (nth_selected q i (length (columns w)) 0%nat (col_index_lt _ _ _ Hi) Hq)
    as Hnth.
  assert (Hcol : forall rs, col_index name (columns (mkDF ("date" :: map (fun j => nth j (columns w) "") (mean_columns idate w)) rs)) = Some (S (length (filter q (seq 0 i))))).
  { intros rs. cbn [columns col_index].
    destruct (String.eqb_spec name "date") as [E|_]; [contradiction|].
    unfold mean_columns. fold q. rewrite Hsel. reflexivity. }
  unfold resample_D_mean in Hr.
  destruct (keep_some (map (row_day idate) (rows w))) as [|d ds].
  - destruct (rows w); [|discriminate]. injection Hr as <-.
    exists []. split; [reflexivity|]. unfold get_col. rewrite Hcol. reflexivity.
  - injection Hr as <-.
    eexists. split.
    + unfold get_col. cbn [columns rows]. rewrite col_index_head, map_map. reflexivity.
    + unfold get_col. rewrite Hcol. cbn [rows]. rewrite map_map. f_equal.
      apply map_ext. intros day. unfold cell_at at 1. cbn [nth].
      unfold mean_columns. fold q.
      rewrite (nth_indep _ Null
                 (series_mean (map (cell_at 0) (filter (on_day idate day) (rows w))))).
      2:{ rewrite length_map.
          assert (Hin : In i (filter q (seq 0 (length (columns w)))))
            by (apply filter_In; split; [apply in_seq; pose proof (col_index_lt _ _ _ Hi); lia | exact Hq]).
          clear - Hin Hq Hi.
          pose proof (col_index_lt _ _ _ Hi) as Hlt.
          replace (length (columns w)) with (i + (length (columns w) - i))%nat by lia.
          rewrite seq_app, filter_app, length_app.
          destruct (length (columns w) - i)%nat as [|k] eqn:E; [lia|].
          cbn [seq filter]. rewrite Nat.add_0_l, Hq. simpl. lia. }
      rewrite (map_nth (fun j => series_mean (map (cell_at j) (filter (on_day idate day) (rows w))))
                 (filter q (seq 0 (length (columns w)))) 0%nat).
      rewrite Hnth. reflexivity.
Qed.

Lemma values_on_day_rows idate i rs d :
  values_on_day (map (cell_at idate) rs) (map (cell_at i) rs) d =
  map (cell_at i) (filter (on_day idate d) rs).
Proof.
  unfold values_on_day. induction rs as [|r rs IH]; [reflexivity|].
  cbn [map combine filter fst]. unfold on_day at 1, row_day.
  destruct (cell_at idate r); cbn [map snd]; try exact IH.
  destruct (Z.eqb d (day_of t)); cbn [map snd]; [f_equal|]; exact IH.
Qed.

Lemma resample_D_mean_with_a_date idate w t :
  In (Date t) (map (cell_at idate) (rows w)) ->
  exists out, resample_D_mean idate w = Some out.
Proof.
  intros H. unfold resample_D_mean.
  destruct (keep_some (map (row_day idate) (rows w))) as [|d ds] eqn:E; [|eauto].
  exfalso. apply in_map_iff in H. destruct H as (r & Hr & Hin).
  assert (Hd : In (day_of t) (keep_some (map (row_day idate) (rows w)))).
  { apply keep_some_In. apply in_map_iff. exists r. split; [|exact Hin].
    unfold row_day. rewrite Hr. reflexivity. }
  rewrite E in Hd. destruct Hd.
Qed.

Lemma values_on_day_incl dates col d c : In c (values_on_day dates col d) -> In c col.
Proof.
  unfold values_on_day. intros H. apply in_map_iff in H.
  destruct H as ([a b] & <- & H). apply filter_In in H. destruct H as [H _].
  apply in_combine_r in H. exact H.
Qed.

Lemma In_nums x col : In x (nums col) <-> In (Num x) col.
Proof.
  induction col as [|c col IH]; [reflexivity|].
  destruct c; simpl; rewrite IH; split; intros H; auto;
    try (destruct H as [H|H]; [discriminate | exact H]).
  - destruct H as [->|H]; auto.
  - destruct H as [[= ->]|H]; auto.
Qed.

(** The daily columns, by name: what the resampler leaves in the manager
    when the weather table has a date. *)
Lemma weather_after_column s w idate name dates col t :
  weather_data (self s) = Some w ->
  col_index "date" (columns w) = Some idate ->
  get_col "date" w = Some dates -> In (Date t) dates ->
  name <> "date" ->
  get_col name w = Some col -> forallb is_numeric col = true ->
  exists out days,
    weather_after s = Some out /\
    get_col "date" out = Some (map (fun d => Date (day_start d)) days) /\
    get_col name out = Some (map (fun d => series_mean (values_on_day dates col d)) days).
Proof.
  intros Hw Hi Hdates Ht Hname Hcol Hnum.
  rewrite (get_col_at _ _ _ Hi) in Hdates. injection Hdates as <-.
  unfold get_col in Hcol.
  destruct (col_index name (columns w)) as [i|] eqn:Ei; [|discriminate].
  injection Hcol as <-.
  destruct (resample_D_mean_with_a_date idate w t Ht) as [out Hout].
  assert (Hne : i <> idate).
  { intros ->. apply Hname. eapply col_index_inj; eassumption. }
  assert (Hnc : numeric_column (rows w) i = true).
  { unfold numeric_column. rewrite forallb_map in Hnum. exact Hnum. }
  destruct (resample_D_mean_column idate w out name i Hout Hname Ei Hne Hnc)
    as (days & Hd & Hc).
  exists out, days. rewrite (meteo_data_hourly_to_daily_run s w idate Hw Hi), Hout.
  split; [reflexivity|]. split; [exact Hd|].
  rewrite Hc. f_equal. apply map_ext. intros d. rewrite values_on_day_rows. reflexivity.
Qed.

(** Each numeric column of the weather table is found again in the daily
    table under its name, and holds on the row of each day the mean of the
    values the column had on that day, missing values left out. *)
Theorem daily_table_holds_daily_means s w name dates col t :
  weather_data (self s) = Some w ->
  get_col "date" w = Some dates -> In (Date t) dates ->
  name <> "date" ->
  get_col name w = Some col -> forallb is_numeric col = true ->
  exists out days,
    weather_after s = Some out /\
    get_col "date" out = Some (map (fun d => Date (day_start d)) days) /\
    get_col name out = Some (map (fun d => series_mean (values_on_day dates col d)) days) /\
    In (day_of t) days.
Proof.
  intros Hw Hdates Ht Hname Hcol Hnum.
  assert (Hi : exists idate, col_index "date" (columns w) = Some idate).
  { unfold get_col in Hdates. destruct (col_index "date" (columns w)); [eauto | discriminate]. }
  destruct Hi as [idate Hi].
  destruct (weather_after_column s w idate name dates col t Hw Hi Hdates Ht Hname Hcol Hnum)
    as (out & days & Ho & Hd & Hc).
  exists out, days. repeat (split; [assumption|]).
  (* the day of [t] is one of the days of the table *)
  rewrite (get_col_at _ _ _ Hi) in Hdates. injection Hdates as <-.
  assert (Hk : In (day_of t) (keep_some (map (row_day idate) (rows w)))).
  { apply in_map_iff in Ht. destruct Ht as (r & Hr & Hin).
    apply keep_some_In. apply in_map_iff. exists r. split; [|exact Hin].
    unfold row_day. rewrite Hr. reflexivity. }
  rewrite (meteo_data_hourly_to_daily_run s w idate Hw Hi) in Ho.
  unfold resample_D_mean in Ho.
  destruct (keep_some (map (row_day idate) (rows w))) as [|d0 ds] eqn:Ek; [destruct Hk|].
  injection Ho as <-.
  unfold get_col in Hd. cbn [columns rows] in Hd. rewrite col_index_head in Hd.
  rewrite map_map in Hd. cbn in Hd. injection Hd as Hd.
  assert (Hdays : days = seqZ (Zmin_list d0 ds) (Z.to_nat (Zmax_list d0 ds - Zmin_list d0 ds + 1))).
  { clear - Hd. revert Hd.
    generalize (seqZ (Zmin_list d0 ds) (Z.to_nat (Zmax_list d0 ds - Zmin_list d0 ds + 1))).
    intros l. revert days. induction l as [|a l IH]; intros [|b days] H; simpl in H;
      try discriminate; [reflexivity|].
    injection H as H1 H2. f_equal.
    - apply (f_equal day_of) in H1. rewrite !day_of_day_start in H1. congruence.
    - apply IH. exact H2. }
  rewrite Hdays. apply seqZ_In.
  destruct (Zmin_list_spec d0 ds) as [_ Hmin]. destruct (Zmax_list_spec d0 ds) as [_ Hmax].
  specialize (Hmin _ Hk). specialize (Hmax _ Hk). lia.
Qed.

Lemma daily_table_holds_daily_means_witness :
  exists out days,
    weather_after (state_with_weather sample_weather) = Some out /\
    get_col "date" out = Some (map (fun d => Date (day_start d)) days) /\
    get_col "rayonnement_solaire" out =
      Some (map (fun d => series_mean
                            (values_on_day [Date 0; Date 3600000000000;
                                            Date (2 * 86400000000000)]
                                           [Num 10; Num 20; Num 30] d)) days) /\
    In (day_of 0) days.
Proof.
  apply (daily_table_holds_daily_means (state_with_weather sample_weather) sample_weather
           "rayonnement_solaire").
  - reflexivity.
  - reflexivity.
  - left. reflexivity.
  - discriminate.
  - reflexivity.
  - reflexivity.
Defined.

(** Cleaning, then resampling: the daily table has no negative radiation,
    whatever the signs in the table that was loaded. *)
Theorem cleaned_daily_radiation_is_non_negative s w dates t s1 :
  weather_data (self s) = Some w -> wf w ->
  get_col "date" w = Some dates -> In (Date t) dates ->
  clean_data s = (Ok tt, s1) ->
  exists out col',
    weather_after s1 = Some out /\
    get_col "rayonnement_solaire" out = Some col' /\
    forall y, In (Num y) col' -> (0 <= y)%R.
Proof.
  intros Hw Hwf Hdates Ht. rewrite clean_data_run, Hw.
  destruct (get_col "rayonnement_solaire" w) as [col|] eqn:Ec; [|discriminate].
  destruct (forallb is_numeric col) eqn:En; [|discriminate]. intros [= <-].
  pose proof (length_get_col _ _ _ Ec) as Hlen.
  assert (Hlen' : length (map abs_value col) = nrows w) by (rewrite length_map; exact Hlen).
  set (w1 := set_col "rayonnement_solaire" (map abs_value col) w).
  set (s1 := with_self (set_weather_data (Some w1) (self s)) s).
  assert (Hw1 : weather_data (self s1) = Some w1) by reflexivity.
  assert (Hd1 : get_col "date" w1 = Some dates).
  { unfold w1. rewrite get_col_set_col_other; [exact Hdates | exact Hwf | exact Hlen' | discriminate]. }
  assert (Hc1 : get_col "rayonnement_solaire" w1 = Some (map abs_value col))
    by (apply get_col_set_col_same; assumption).
  assert (Hi : exists idate, col_index "date" (columns w1) = Some idate).
  { unfold get_col in Hd1. destruct (col_index "date" (columns w1)); [eauto | discriminate]. }
  destruct Hi as [idate Hi].
  assert (Hn1 : forallb is_numeric (map abs_value col) = true)
    by (rewrite forallb_is_numeric_abs; exact En).
  destruct (weather_after_column s1 w1 idate "rayonnement_solaire" dates (map abs_value col) t
              Hw1 Hi Hd1 Ht ltac:(discriminate) Hc1 Hn1)
    as (out & days & Ho & _ & Hc).
  exists out. eexists. split; [exact Ho|]. split; [exact Hc|].
  intros y Hy. apply in_map_iff in Hy. destruct Hy as (d & Hd & _).
  unfold series_mean in Hd.
  destruct (nums (values_on_day dates (map abs_value col) d)) as [|a l] eqn:E; [discriminate|].
  injection Hd as <-.
  assert (Hpos : forall x, In x (a :: l) -> (0 <= x)%R).
  { intros x Hx. rewrite <- E in Hx. apply In_nums in Hx.
    apply values_on_day_incl in Hx. eapply abs_value_non_negative. exact Hx. }
  clear E. unfold Rmean.
  assert (Hsum : (0 <= Rsum (a :: l))%R).
  { induction (a :: l) as [|b k IH]; [simpl; lra|].
    cbn [Rsum fold_right]. pose proof (Hpos b (or_introl eq_refl)).
    assert (0 <= Rsum k)%R by (apply IH; intros; apply Hpos; right; assumption).
    unfold Rsum in *. lra. }
  apply Rmult_le_pos; [exact Hsum|].
  left. apply Rinv_0_lt_compat. apply INR_length_pos. discriminate.
Qed.

Lemma cleaned_daily_radiation_is_non_negative_witness :
  exists out col',
    weather_after (snd (clean_data (state_with_weather sample_hourly))) = Some out /\
    get_col "rayonnement_solaire" out = Some col' /\
    forall y, In (Num y) col' -> (0 <= y)%R.
Proof.
  apply (cleaned_daily_radiation_is_non_negative
           (state_with_weather sample_hourly) sample_hourly
           (map (cell_at 0) (rows sample_hourly)) 0%Z).
  - reflexivity.
  - repeat constructor.
  - reflexivity.
  - left. reflexivity.
  - reflexivity.
Defined.

(** ** The feature merger *)

(** The two joins do not look at the manager nor at the files. *)
Lemma merge_asof_nearest_Ok {S} left right (st st' : S) d :
  merge_asof_nearest left right st = (Ok d, st') ->
  st' = st /\ nrows d = nrows left.
Proof.
  unfold merge_asof_nearest, getpos, or_raise, bind, ret, raise.
  destruct (col_index "date" (columns left)) as [il|]; [|discriminate].
  destruct (col_index "date" (columns right)) as [ir|]; [|discriminate].
  destruct (all_some (map (date_key il) (rows left))) as [lk|] eqn:El; [|discriminate].
  destruct (all_some (map (date_key ir) (rows right))) as [rk|]; [|discriminate].
  destruct (sortedb lk && sortedb rk); [|discriminate].
  intros [= <- <-]. split; [reflexivity|].
  unfold nrows. cbn [rows]. rewrite length_map, length_combine.
  apply length_all_some in El. rewrite length_map in El. lia.
Qed.

Lemma merge_asof_nearest_Raise {S} left right (st st' : S) e :
  merge_asof_nearest left right st = (Raise e, st') -> st' = st.
Proof.
  unfold merge_asof_nearest, getpos, or_raise, bind, ret, raise.
  destruct (col_index "date" (columns left)) as [il|]; [|intros [= _ <-]; reflexivity].
  destruct (col_index "date" (columns right)) as [ir|]; [|intros [= _ <-]; reflexivity].
  destruct (all_some (map (date_key il) (rows left))) as [lk|];
    [|intros [= _ <-]; reflexivity].
  destruct (all_some (map (date_key ir) (rows right))) as [rk|];
    [|intros [= _ <-]; reflexivity].
  destruct (sortedb lk && sortedb rk); [discriminate | intros [= _ <-]; reflexivity].
Qed.

Lemma length_flat_map_ge {A B} (f : A -> list B) l :
  (forall a, In a l -> (1 <= length (f a))%nat) -> (length l <= length (flat_map f l))%nat.
Proof.
  induction l as [|a l IH]; intros H; [simpl; lia|].
  cbn [flat_map length]. rewrite length_app.
  specialize (H a (or_introl eq_refl)) as Ha.
  assert (length l <= length (flat_map f l))%nat by (apply IH; intros; apply H; right; assumption).
  lia.
Qed.

Lemma check_merge_keys_state {S} keys li ri left right (st : S) :
  snd (check_merge_keys keys li ri left right st) = st.
Proof.
  revert li ri. induction keys as [|k keys IH]; intros [|i li] [|j ri]; try reflexivity.
  cbn [check_merge_keys]. destruct (merge_keys_agree _ _); [apply IH | reflexivity].
Qed.

Lemma merge_left_Ok {S} keys left right (st st' : S) d :
  merge_left keys left right st = (Ok d, st') ->
  st' = st /\ (nrows left <= nrows d)%nat /\ columns d = merged_columns keys left right.
Proof.
  unfold merge_left, or_raise, bind, ret, raise.
  destruct (positions keys (columns left)) as [li|]; [|discriminate].
  destruct (positions keys (columns right)) as [ri|]; [|discriminate].
  pose proof (check_merge_keys_state keys li ri left right st) as Hst.
  destruct (check_merge_keys keys li ri left right st) as [[u|e] st1]; [|discriminate].
  cbn [snd] in Hst. subst st1.
  intros [= <- <-]. split; [reflexivity|]. split; [|reflexivity].
  unfold nrows. cbn [rows]. apply length_flat_map_ge.
  intros lr _. destruct (filter (keys_match li ri lr) (rows right)) as [|m ms]; simpl; lia.
Qed.

Lemma merge_left_Raise {S} keys left right (st st' : S) e :
  merge_left keys left right st = (Raise e, st') -> st' = st.
Proof.
  unfold merge_left, or_raise, bind, ret, raise.
  destruct (positions keys (columns left)) as [li|]; [|intros [= _ <-]; reflexivity].
  destruct (positions keys (columns right)) as [ri|]; [|intros [= _ <-]; reflexivity].
  pose proof (check_merge_keys_state keys li ri left right st) as Hst.
  destruct (check_merge_keys keys li ri left right st) as [[u|e'] st1];
    cbn [snd] in Hst; subst st1; [discriminate | intros [= _ <-]; reflexivity].
Qed.

(** The run of the enrichment: the join with the yield history, or the
    table it was given and a line that reports why. *)
Lemma _enrich_with_yield_history_run data s :
  (exists y out,
      yield_history (self s) = Some y /\
      merge_left ["parcelle_id"; "date"] data y s = (Ok out, s) /\
      _enrich_with_yield_history data s = (Ok out, s)) \/
  (exists line,
      _enrich_with_yield_history data s = (Ok data, with_line line s)).
Proof.
  unfold _enrich_with_yield_history, try_except, bind, gets, or_raise.
  destruct (yield_history (self s)) as [y|].
  2:{ right. eexists. reflexivity. }
  unfold ret, print, modify. cbn beta iota.
  destruct (merge_left ["parcelle_id"; "date"] data y s) as [[out|e] s1] eqn:E.
  - destruct (merge_left_Ok _ _ _ _ _ _ E) as (-> & _). left. exists y, out. auto.
  - pose proof (merge_left_Raise _ _ _ _ _ _ E) as ->. right. eexists. reflexivity.
Qed.

(** The join with the yield history, on the parcel and the date: it goes
    through when both tables have both keys, each of one type on both sides,
    and is refused otherwise. *)
Lemma merge_left_on_parcel_and_date {S} data y (st : S) :
  (exists ip idl jp jd,
      col_index "parcelle_id" (columns data) = Some ip /\
      col_index "date" (columns data) = Some idl /\
      col_index "parcelle_id" (columns y) = Some jp /\
      col_index "date" (columns y) = Some jd /\
      merge_keys_agree (map (cell_at ip) (rows data)) (map (cell_at jp) (rows y)) = true /\
      merge_keys_agree (map (cell_at idl) (rows data)) (map (cell_at jd) (rows y)) = true /\
      merge_left ["parcelle_id"; "date"] data y st =
        (Ok (mkDF (merged_columns ["parcelle_id"; "date"] data y)
               (flat_map (fun lr =>
                            match filter (keys_match [ip; idl] [jp; jd] lr) (rows y) with
                            | [] => [lr ++ nulls (length (columns y) - 2)]
                            | ms => map (fun rr => lr ++ without [jp; jd] rr) ms
                            end)
                         (rows data))), st))
  \/ ((has_column "parcelle_id" data = false \/ has_column "date" data = false \/
       has_column "parcelle_id" y = false \/ has_column "date" y = false \/
       key_types_differ "parcelle_id" data y \/ key_types_differ "date" data y) /\
      exists e, merge_left ["parcelle_id"; "date"] data y st = (Raise e, st)).
Proof.
  assert (Hno : forall name df, col_index name (columns df) = None -> has_column name df = false).
  { intros name df H. destruct (has_column name df) eqn:E; [|reflexivity].
    apply has_column_col_index in E. congruence. }
  unfold merge_left, or_raise, bind, ret, raise. cbn [positions].
  destruct (col_index "parcelle_id" (columns data)) as [ip|] eqn:Eip.
  2:{ right. split; [left; apply Hno, Eip|]. eexists. reflexivity. }
  destruct (col_index "date" (columns data)) as [idl|] eqn:Eid.
  2:{ right. split; [right; left; apply Hno, Eid|]. eexists. reflexivity. }
  destruct (col_index "parcelle_id" (columns y)) as [jp|] eqn:Ejp.
  2:{ right. split; [do 2 right; left; apply Hno, Ejp|]. eexists. reflexivity. }
  destruct (col_index "date" (columns y)) as [jd|] eqn:Ejd.
  2:{ right. split; [do 3 right; left; apply Hno, Ejd|]. eexists. reflexivity. }
  cbn [check_merge_keys].
  destruct (merge_keys_agree (map (cell_at ip) (rows data)) (map (cell_at jp) (rows y))) eqn:A1.
  2:{ right. split; [|eexists; reflexivity].
      do 4 right; left. exists (map (cell_at ip) (rows data)), (map (cell_at jp) (rows y)).
      unfold get_col. rewrite Eip, Ejp. auto. }
  destruct (merge_keys_agree (map (cell_at idl) (rows data)) (map (cell_at jd) (rows y))) eqn:A2.
  2:{ right. split; [|eexists; reflexivity].
      do 5 right. exists (map (cell_at idl) (rows data)), (map (cell_at jd) (rows y)).
      unfold get_col. rewrite Eid, Ejd. auto. }
  left. exists ip, idl, jp, jd. do 4 (split; [reflexivity|]).
  split; [exact A1|]. split; [exact A2|]. reflexivity.
Qed.

(** The enrichment never fails.  Without a yield history, with a key column
    missing in one of the two tables, or with a key that is text on one side
    and a number or a date on the other, it returns the very table it was
    given, after one line that reports the fault.  Otherwise it returns the
    left join and prints nothing: the rows of the result are the rows of the
    table, each followed by the other columns of a row of the history with the
    same parcel and date, or by missing values when the history has no such
    row; no row of the table is lost.  It changes neither the manager nor the
    files. *)
Theorem _enrich_with_yield_history_returns_its_input_on_failure data s :
  (enrichment_fails data s ->
   exists line, _enrich_with_yield_history data s = (Ok data, with_line line s)) /\
  (~ enrichment_fails data s ->
   exists y ip idl jp jd out,
     yield_history (self s) = Some y /\
     col_index "parcelle_id" (columns data) = Some ip /\
     col_index "date" (columns data) = Some idl /\
     col_index "parcelle_id" (columns y) = Some jp /\
     col_index "date" (columns y) = Some jd /\
     _enrich_with_yield_history data s = (Ok out, s) /\
     columns out = merged_columns ["parcelle_id"; "date"] data y /\
     (nrows data <= nrows out)%nat /\
     (forall r, In r (rows out) <->
        exists lr, In lr (rows data) /\
          ((exists rr, In rr (rows y) /\
                       cell_at ip lr = cell_at jp rr /\ cell_at idl lr = cell_at jd rr /\
                       r = lr ++ without [jp; jd] rr) \/
           ((forall rr, In rr (rows y) ->
                        ~ (cell_at ip lr = cell_at jp rr /\ cell_at idl lr = cell_at jd rr)) /\
            r = lr ++ nulls (length (columns y) - 2))))).
Proof.
  assert (Hmatch : forall ip idl jp jd lr rr,
             keys_match [ip; idl] [jp; jd] lr rr = true <->
             cell_at ip lr = cell_at jp rr /\ cell_at idl lr = cell_at jd rr).
  { intros. unfold keys_match. cbn [combine forallb fst snd].
    rewrite !andb_true_iff, !cell_eqb_eq. tauto. }
  unfold enrichment_fails.
  unfold _enrich_with_yield_history, try_except, bind, gets, or_raise.
  destruct (yield_history (self s)) as [y|] eqn:Hy.
  2:{ split; [intros _; eexists; reflexivity | intros H; exfalso; apply H; exact I]. }
  unfold ret, print, modify. cbn beta iota.
  destruct (merge_left_on_parcel_and_date data y s)
    as [(ip & idl & jp & jd & Eip & Eid & Ejp & Ejd & A1 & A2 & E) | (Hwhy & e & E)];
    rewrite E.
  - split.
    + intros Hfail. exfalso.
      destruct Hfail as [H|[H|[H|[H|[H|H]]]]];
        try (apply (f_equal negb) in H; cbn in H;
             match type of H with negb (has_column ?n ?d) = true =>
               assert (Hc : has_column n d = true)
                 by (apply has_column_col_index; congruence);
               rewrite Hc in H; discriminate H end).
      * destruct H as (lk & rk & Hl & Hr & Hd). unfold get_col in Hl, Hr.
        rewrite Eip in Hl. rewrite Ejp in Hr. congruence.
      * destruct H as (lk & rk & Hl & Hr & Hd). unfold get_col in Hl, Hr.
        rewrite Eid in Hl. rewrite Ejd in Hr. congruence.
    + intros _. exists y, ip, idl, jp, jd. eexists.
      do 5 (split; [reflexivity || assumption|]).
      split; [reflexivity|]. split; [reflexivity|]. cbn [rows]. split.
      * unfold nrows. cbn [rows]. apply length_flat_map_ge.
        intros lr _. destruct (filter _ (rows y)); simpl; lia.
      * intros r. rewrite in_flat_map. split.
        -- intros (lr & Hlr & Hr). exists lr. split; [exact Hlr|].
           destruct (filter (keys_match [ip; idl] [jp; jd] lr) (rows y)) as [|m ms] eqn:Ef.
           ++ right. destruct Hr as [<-|[]]. split; [|reflexivity].
              intros rr Hrr Hk. apply Hmatch in Hk.
              assert (Hin : In rr (filter (keys_match [ip; idl] [jp; jd] lr) (rows y)))
                by (apply filter_In; auto).
              rewrite Ef in Hin. destruct Hin.
           ++ left. change (In r (map (fun rr => lr ++ without [jp; jd] rr) (m :: ms))) in Hr.
              apply in_map_iff in Hr. destruct Hr as (rr & <- & Hrr).
              rewrite <- Ef in Hrr. apply filter_In in Hrr. destruct Hrr as [Hrr Hk].
              apply Hmatch in Hk. destruct Hk as [K1 K2]. exists rr. auto.
        -- intros (lr & Hlr & Hcase). exists lr. split; [exact Hlr|].
           destruct Hcase as [(rr & Hrr & K1 & K2 & ->) | (Hnone & ->)].
           ++ assert (Hin : In rr (filter (keys_match [ip; idl] [jp; jd] lr) (rows y)))
                by (apply filter_In; split; [exact Hrr | apply Hmatch; auto]).
              destruct (filter (keys_match [ip; idl] [jp; jd] lr) (rows y)) as [|m ms];
                [destruct Hin|].
              change (In (lr ++ without [jp; jd] rr)
                         (map (fun rr => lr ++ without [jp; jd] rr) (m :: ms))).
              apply (in_map (fun rr => lr ++ without [jp; jd] rr)). exact Hin.
           ++ destruct (filter (keys_match [ip; idl] [jp; jd] lr) (rows y)) as [|m ms] eqn:Ef;
                [left; reflexivity|].
              exfalso. assert (Hin : In m (filter (keys_match [ip; idl] [jp; jd] lr) (rows y)))
                by (rewrite Ef; left; reflexivity).
              apply filter_In in Hin. destruct Hin as [Hm Hk].
              apply Hmatch in Hk. exact (Hnone m Hm Hk).
  - split.
    + intros _. eexists. reflexivity.
    + intros Hnot. exfalso. apply Hnot. exact Hwhy.
Qed.

(** Parcels numbered on one side and named on the other: the table comes
    back as it was given. *)
Lemma _enrich_with_yield_history_returns_its_input_on_failure_witness :
  exists line,
    _enrich_with_yield_history sample_numbered (state_with_yield sample_yield) =
    (Ok sample_numbered, with_line line (state_with_yield sample_yield)).
Proof.
  apply (proj1 (_enrich_with_yield_history_returns_its_input_on_failure
                  sample_numbered (state_with_yield sample_yield))).
  unfold enrichment_fails. cbn [state_with_yield self yield_history].
  do 4 right. left. eexists. eexists. split; [reflexivity|]. split; reflexivity.
Defined.

(** The run of [prepare_features]: the stages it goes through when the
    three tables are there and can be joined, and otherwise a line that
    reports the failure, with the files as they were. *)
Lemma prepare_features_run s :
  (exists m w soil ms ws d1 d2 d3 s3,
      monitoring_data (self s) = Some m /\
      weather_data (self s) = Some w /\
      soil_data (self s) = Some soil /\
      sort_values "date" m = Some ms /\
      sort_values "date" w = Some ws /\
      let s2 := with_self (set_weather_data (Some ws)
                             (set_monitoring_data (Some ms) (self s))) s in
      merge_asof_nearest ms ws s2 = (Ok d1, s2) /\
      merge_left ["parcelle_id"] d1 soil s2 = (Ok d2, s2) /\
      _enrich_with_yield_history d2 s2 = (Ok d3, s3) /\
      self s3 = self s2 /\ fs (env s3) = fs (env s) /\ writable (env s3) = writable (env s) /\
      prepare_features s =
        if writable (env s)
        then (Ok (Some (tidy d3)),
              with_line (columns_line (tidy d3)) (with_file "data/features.csv" (tidy d3) s3))
        else (Ok None,
              with_line ("Erreur lors de la préparation des caractéristiques : " ++
                         exn_str (OSError "Cannot save file into a non-existent directory: data/features.csv"))
                        s3))
  \/ (exists line s1,
      prepare_features s = (Ok None, with_line line s1) /\
      env s1 = env s /\
      (monitoring_data (self s) = None \/
       weather_data (self s) = None \/
       soil_data (self s) = None \/
       (exists m, monitoring_data (self s) = Some m /\ sort_values "date" m = None) \/
       (exists w, weather_data (self s) = Some w /\ sort_values "date" w = None) \/
       (exists m w ms ws e,
           monitoring_data (self s) = Some m /\ weather_data (self s) = Some w /\
           sort_values "date" m = Some ms /\ sort_values "date" w = Some ws /\
           merge_asof_nearest ms ws s1 = (Raise e, s1)) \/
       (exists m w soil ms ws d1 e,
           monitoring_data (self s) = Some m /\ weather_data (self s) = Some w /\
           soil_data (self s) = Some soil /\
           sort_values "date" m = Some ms /\ sort_values "date" w = Some ws /\
           merge_asof_nearest ms ws s1 = (Ok d1, s1) /\
           merge_left ["parcelle_id"] d1 soil s1 = (Raise e, s1)))).
Proof.
  unfold prepare_features, try_except, bind, gets, or_raise, set_self, modify, ret, raise, print.
  cbn beta iota.
  destruct (monitoring_data (self s)) as [m|] eqn:Hm.
  2:{ right. eexists. exists s. split; [reflexivity|]. split; [reflexivity|]. auto. }
  cbn beta iota.
  destruct (sort_values "date" m) as [ms|] eqn:Hms.
  2:{ right. eexists. exists s. split; [reflexivity|]. split; [reflexivity|].
      do 3 right. left. exists m. auto. }
  cbn beta iota delta [self weather_data set_monitoring_data].
  destruct (weather_data (self s)) as [w|] eqn:Hw.
  2:{ right. eexists. eexists. split; [reflexivity|]. split; [reflexivity|]. auto. }
  cbn beta iota.
  destruct (sort_values "date" w) as [ws|] eqn:Hws.
  2:{ right. eexists. eexists. split; [reflexivity|]. split; [reflexivity|].
      do 4 right. left. exists w. auto. }
  cbn beta iota delta [self env].
  set (s2 := mkState (set_weather_data (Some ws) (set_monitoring_data (Some ms) (self s)))
                     (env s)).
  destruct (merge_asof_nearest ms ws s2) as [[d1|e] s2'] eqn:E1.
  2:{ pose proof (merge_asof_nearest_Raise _ _ _ _ _ E1) as ->.
      right. eexists. exists s2. split; [reflexivity|]. split; [reflexivity|].
      do 5 right. left. exists m, w, ms, ws, e. auto. }
  destruct (merge_asof_nearest_Ok _ _ _ _ _ E1) as [-> _].
  cbn beta iota delta [s2 self soil_data set_weather_data set_monitoring_data]. fold s2.
  destruct (soil_data (self s)) as [soil|] eqn:Hsoil.
  2:{ right. eexists. exists s2. split; [reflexivity|]. split; [reflexivity|]. auto. }
  cbn beta iota.
  destruct (merge_left ["parcelle_id"] d1 soil s2) as [[d2|e] s2'] eqn:E2.
  2:{ pose proof (merge_left_Raise _ _ _ _ _ _ E2) as ->.
      right. eexists. exists s2. split; [reflexivity|]. split; [reflexivity|].
      do 6 right. exists m, w, soil, ms, ws, d1, e. auto 10. }
  destruct (merge_left_Ok _ _ _ _ _ _ E2) as [-> _].
  assert (H3 : exists d3 s3, _enrich_with_yield_history d2 s2 = (Ok d3, s3) /\
                 self s3 = self s2 /\ fs (env s3) = fs (env s) /\
                 writable (env s3) = writable (env s)).
  { destruct (_enrich_with_yield_history_run d2 s2)
      as [(y & out & _ & _ & E) | (line & E)]; rewrite E.
    - exists out, s2. repeat split; reflexivity.
    - exists d2, (with_line line s2). repeat split; reflexivity. }
  destruct H3 as (d3 & s3 & E3 & Hself & Hfs & Hwr). rewrite E3.
  fold (tidy d3). unfold to_csv. rewrite Hwr.
  left. exists m, w, soil, ms, ws, d1, d2, d3, s3.
  do 3 (split; [reflexivity|]). split; [exact Hms|]. split; [exact Hws|].
  cbv zeta. unfold with_self. fold s2.
  split; [exact E1|]. split; [exact E2|]. split; [exact E3|].
  split; [exact Hself|]. split; [exact Hfs|]. split; [exact Hwr|].
  destruct (writable (env s)); reflexivity.
Qed.

(** The features that a call returns are the table it has just written to
    data/features.csv, and the last line it prints names their columns; a call
    that returns nothing has written no file. *)
Theorem prepare_features_saves_what_it_returns s :
  (forall data, fst (prepare_features s) = Ok (Some data) ->
     lookup_file "data/features.csv" (fs (env (snd (prepare_features s))))
       = Some (CsvFile data) /\
     exists before,
       stdout (env (snd (prepare_features s))) = before ++ [columns_line data]) /\
  (fst (prepare_features s) = Ok None ->
     fs (env (snd (prepare_features s))) = fs (env s)).
Proof.
  destruct (prepare_features_run s)
    as [(m & w & soil & ms & ws & d1 & d2 & d3 & s3 & _ & _ & _ & _ & _ & H)
       | (line & s1 & E & Henv & _)].
  - cbv zeta in H. destruct H as (_ & _ & _ & _ & Hfs & _ & E). rewrite E.
    destruct (writable (env s)).
    + split; [|intros H; discriminate H].
      intros data [= <-]. cbn [snd]. split.
      * unfold with_line, with_file. cbn [env fs lookup_file self].
        rewrite String.eqb_refl. reflexivity.
      * exists (stdout (env s3)). reflexivity.
    + split; [intros data H; discriminate H|]. intros _. cbn. exact Hfs.
  - rewrite E. split; [intros data H; discriminate H|].
    intros _. cbn. rewrite Henv. reflexivity.
Qed.

Lemma sort_values_perm by_ df sorted :
  sort_values by_ df = Some sorted ->
  columns sorted = columns df /\ Permutation (rows sorted) (rows df).
Proof.
  unfold sort_values. destruct (col_index by_ (columns df)); [|discriminate].
  intros [= <-]. split; [reflexivity | apply sort_by_perm].
Qed.

Lemma nrows_drop names df : nrows (drop names df) = nrows df.
Proof. unfold nrows, drop. cbn [rows]. apply length_map. Qed.

Lemma nrows_rename old new df : nrows (rename old new df) = nrows df.
Proof. reflexivity. Qed.

Lemma nrows_tidy data : nrows (tidy data) = nrows data.
Proof.
  unfold tidy. rewrite nrows_rename, nrows_drop, !nrows_rename, nrows_drop. reflexivity.
Qed.

(** No observation is lost on the way to the features: the table returned
    has at least as many rows as the monitoring table, and exactly as many
    before the soil and the yield history are joined to it. *)
Theorem prepare_features_keeps_every_observation s data :
  fst (prepare_features s) = Ok (Some data) ->
  exists m, monitoring_data (self s) = Some m /\ (nrows m <= nrows data)%nat.
Proof.
  destruct (prepare_features_run s)
    as [(m & w & soil & ms & ws & d1 & d2 & d3 & s3 & Hm & _ & _ & Hms & _ & H)
       | (line & s1 & E & _ & _)].
  2:{ rewrite E. discriminate. }
  cbv zeta in H. destruct H as (E1 & E2 & E3 & _ & _ & _ & E). rewrite E.
  destruct (writable (env s)); [|discriminate]. intros [= <-].
  exists m. split; [exact Hm|].
  destruct (sort_values_perm _ _ _ Hms) as [_ Hperm].
  apply Permutation_length in Hperm.
  destruct (merge_asof_nearest_Ok _ _ _ _ _ E1) as [_ H1].
  destruct (merge_left_Ok _ _ _ _ _ _ E2) as (_ & H2 & _).
  assert (H3 : (nrows d2 <= nrows d3)%nat).
  { match type of E3 with _ ?st = _ => 
      destruct (_enrich_with_yield_history_run d2 st)
        as [(y & out & _ & Hmy & E') | (l & E')] end; rewrite E' in E3.
    - injection E3 as <- _. apply (merge_left_Ok _ _ _ _ _ _ Hmy).
    - injection E3 as <- _. lia. }
  rewrite nrows_tidy. unfold nrows in *. lia.
Qed.

Lemma prepare_features_keeps_every_observation_witness :
  exists m, monitoring_data (self sample_loaded) = Some m /\
            (nrows m <= nrows sample_merged)%nat.
Proof.
  apply (prepare_features_keeps_every_observation sample_loaded sample_merged).
  vm_compute. reflexivity.
Defined.

Lemma has_column_false name df : has_column name df = false <-> ~ In name (columns df).
Proof.
  unfold has_column. split.
  - intros H Hin. assert (existsb (String.eqb name) (columns df) = true).
    { apply existsb_exists. exists name. split; [exact Hin | apply String.eqb_refl]. }
    congruence.
  - intros H. destruct (existsb (String.eqb name) (columns df)) eqn:E; [|reflexivity].
    exfalso. apply H. apply existsb_exists in E. destruct E as (c & Hc & Ec).
    apply String.eqb_eq in Ec. subst c. exact Hc.
Qed.

Lemma columns_tidy data c :
  In c (columns (tidy data)) ->
  ~ In c ["latitude_x"; "latitude_y"; "longitude_x"; "longitude_y"; "culture_x"; "culture_y"].
Proof.
  unfold tidy, rename, drop. cbn [columns].
  intros H. apply in_map_iff in H. destruct H as (c3 & Hc & H).
  apply filter_In in H. destruct H as [H H3].
  apply in_map_iff in H. destruct H as (c2 & Hc3 & H).
  apply in_map_iff in H. destruct H as (c1 & Hc2 & H).
  apply filter_In in H. destruct H as [_ H1].
  unfold mem in H1, H3. cbn [existsb] in H1, H3.
  destruct (String.eqb_spec c1 "latitude_y") as [->|N1]; [discriminate H1|].
  destruct (String.eqb_spec c1 "longitude_y") as [->|N2]; [discriminate H1|].
  destruct (String.eqb_spec c3 "culture_y") as [->|N3]; [discriminate H3|].
  clear H1 H3.
  intros Hin. cbn [In] in Hin.
  destruct (String.eqb_spec c1 "latitude_x") as [E4|N4];
    destruct (String.eqb_spec c2 "longitude_x") as [E5|N5];
    destruct (String.eqb_spec c3 "culture_x") as [E6|N6];
    destruct Hin as [H|[H|[H|[H|[H|[H|[]]]]]]]; congruence.
Qed.

(** The features carry none of the suffixed names that the joins give to
    columns present on both sides: whatever the tables hold, the columns
    latitude_x, latitude_y, longitude_x, longitude_y, culture_x and culture_y
    are renamed or dropped. *)
Theorem prepare_features_leaves_no_suffixed_column s data c :
  fst (prepare_features s) = Ok (Some data) ->
  In c ["latitude_x"; "latitude_y"; "longitude_x"; "longitude_y"; "culture_x"; "culture_y"] ->
  has_column c data = false.
Proof.
  destruct (prepare_features_run s)
    as [(m & w & soil & ms & ws & d1 & d2 & d3 & s3 & _ & _ & _ & _ & _ & H)
       | (line & s1 & E & _ & _)].
  2:{ rewrite E. discriminate. }
  cbv zeta in H. destruct H as (_ & _ & _ & _ & _ & _ & E). rewrite E.
  destruct (writable (env s)); [|discriminate]. intros [= <-] Hc.
  apply has_column_false. intros Hin. exact (columns_tidy d3 c Hin Hc).
Qed.

Lemma prepare_features_leaves_no_suffixed_column_witness :
  has_column "culture_y" sample_merged = false.
Proof.
  apply (prepare_features_leaves_no_suffixed_column sample_loaded sample_merged "culture_y").
  - vm_compute. reflexivity.
  - simpl. tauto.
Defined.

(** A call that returns features has a side effect on the manager: its
    monitoring and weather tables are replaced by copies sorted by date, with
    the same columns and the same rows; the soil table, the yield history and
    the scaler are left alone. *)
Theorem prepare_features_sorts_the_tables s data :
  fst (prepare_features s) = Ok (Some data) ->
  exists m w ms ws,
    monitoring_data (self s) = Some m /\ weather_data (self s) = Some w /\
    sort_values "date" m = Some ms /\ sort_values "date" w = Some ws /\
    self (snd (prepare_features s)) =
      mkManager (Some ms) (Some ws) (soil_data (self s)) (yield_history (self s))
                (scalar (self s)) /\
    columns ms = columns m /\ Permutation (rows ms) (rows m) /\
    columns ws = columns w /\ Permutation (rows ws) (rows w).
Proof.
  destruct (prepare_features_run s)
    as [(m & w & soil & ms & ws & d1 & d2 & d3 & s3 & Hm & Hw & _ & Hms & Hws & H)
       | (line & s1 & E & _ & _)].
  2:{ rewrite E. discriminate. }
  cbv zeta in H. destruct H as (_ & _ & _ & Hself & _ & _ & E). rewrite E.
  destruct (writable (env s)); [|discriminate]. intros [= <-].
  exists m, w, ms, ws. do 4 (split; [assumption|]).
  destruct (sort_values_perm _ _ _ Hms) as [Hcm Hpm].
  destruct (sort_values_perm _ _ _ Hws) as [Hcw Hpw].
  split; [|auto]. cbn [snd with_line with_file self]. rewrite Hself. reflexivity.
Qed.

Lemma prepare_features_sorts_the_tables_witness :
  exists m w ms ws,
    monitoring_data (self sample_loaded) = Some m /\
    weather_data (self sample_loaded) = Some w /\
    sort_values "date" m = Some ms /\ sort_values "date" w = Some ws /\
    self (snd (prepare_features sample_loaded)) =
      mkManager (Some ms) (Some ws) (soil_data (self sample_loaded))
                (yield_history (self sample_loaded)) (scalar (self sample_loaded)) /\
    columns ms = columns m /\ Permutation (rows ms) (rows m) /\
    columns ws = columns w /\ Permutation (rows ws) (rows w).
Proof.
  apply (prepare_features_sorts_the_tables sample_loaded sample_merged).
  vm_compute. reflexivity.
Defined.

(** ** The feature merger pairs each observation with the nearest weather *)













(** ** The temporal analyser *)

(** The analysis reads; it writes nothing. *)
Lemma get_temporal_patterns_try_state pid s o s' :
  get_temporal_patterns_try pid s = (o, s') -> s' = s.
Proof.
  unfold get_temporal_patterns_try. unfold bind at 1. unfold read_csv.
  destruct (lookup_file "data/features.csv" (fs (env s))) as [[features|]|];
    try (intros [= _ <-]; reflexivity).
  cbn [forallb]. destruct (has_column "date" features && true);
    try (intros [= _ <-]; reflexivity).
  unfold getpos, or_raise, bind, ret, raise.
  destruct (col_index "parcelle_id" (columns features)) as [ipid|];
    try (intros [= _ <-]; reflexivity).
  fold (parcel_rows ipid pid features).
  destruct (negb (has_column "ndvi" _)); try (intros [= _ <-]; reflexivity).
  destruct (empty _); try (intros [= _ <-]; reflexivity).
  destruct (sort_values "date" _) as [sorted|]; try (intros [= _ <-]; reflexivity).
  destruct (col_index "date" (columns sorted)) as [idate|]; try (intros [= _ <-]; reflexivity).
  destruct (col_index "ndvi" (columns sorted)) as [indvi|]; try (intros [= _ <-]; reflexivity).
  destruct (Nat.ltb _ 12); try (intros [= _ <-]; reflexivity).
  destruct (all_some (map num_of _)) as [ndvi_values|]; try (intros [= _ <-]; reflexivity).
  destruct (seasonal_decompose _) as [dec|]; try (intros [= _ <-]; reflexivity).
  destruct (all_some (map (fun r0 => toordinal _) _)) as [ords|];
    try (intros [= _ <-]; reflexivity).
  destruct (LinearRegression_fit ords ndvi_values) as [fit|];
    intros [= _ <-]; reflexivity.
Qed.

(** The analyser is read-only and says when it gives up: it leaves the
    manager and the files as they are, and either returns a history and a
    trend, both present, without printing, or returns the pair of two absent
    values after exactly one line. *)
Theorem get_temporal_patterns_is_read_only pid s :
  (exists h t, get_temporal_patterns pid s = (Ok (Some h, Some t), s)) \/
  (exists line, get_temporal_patterns pid s = (Ok (None, None), with_line line s)).
Proof.
  unfold get_temporal_patterns, try_except, bind.
  destruct (get_temporal_patterns_try pid s) as [[r|e] s1] eqn:E;
    pose proof (get_temporal_patterns_try_state _ _ _ _ E) as ->.
  - left. exists (fst r), (snd r). reflexivity.
  - right. eexists. reflexivity.
Qed.

Lemma length_dropna_pairs {A} (f g : A -> cell) l :
  length (dropna (map (fun r => (f r, g r)) l)) =
  length (filter (fun c => negb (is_null c)) (map g l)).
Proof.
  induction l as [|a l IH]; [reflexivity|].
  cbn [map dropna filter]. destruct (g a); cbn [is_null negb length]; rewrite ?IH; reflexivity.
Qed.

Lemma length_filter_perm {A} (p : A -> bool) l l' :
  Permutation l l' -> length (filter p l) = length (filter p l').
Proof.
  induction 1 as [|x l l' _ IH|x y l|l l' l'' _ IH1 _ IH2]; simpl.
  - reflexivity.
  - destruct (p x); simpl; rewrite IH; reflexivity.
  - destruct (p x), (p y); reflexivity.
  - congruence.
Qed.

(** The number of values the analyser keeps is the number of NDVI
    observations of the parcel. *)
Lemma length_ndvi_series pid features ipid idate indvi sorted :
  col_index "parcelle_id" (columns features) = Some ipid ->
  col_index "ndvi" (columns features) = Some indvi ->
  sort_values "date" (mkDF (columns features) (parcel_rows ipid pid features)) = Some sorted ->
  length (dropna (map (fun r => (cell_at idate r, cell_at indvi r)) (rows sorted))) =
  length (ndvi_observations pid features).
Proof.
  intros Hp Hn Hs. unfold ndvi_observations. rewrite Hp, Hn.
  rewrite length_dropna_pairs.
  destruct (sort_values_perm _ _ _ Hs) as [_ Hperm]. cbn [rows] in Hperm.
  apply length_filter_perm. apply Permutation_map. exact Hperm.
Qed.

(** The faults the analyser looks for itself, in the order it looks for
    them, and the line each one leaves: a table without the column [ndvi], a
    parcel without any row, a parcel with fewer than 12 NDVI observations. *)
Theorem get_temporal_patterns_reports_why pid s features ids :
  readable "data/features.csv" ["date"] s = Some features ->
  get_col "parcelle_id" features = Some ids ->
  (has_column "ndvi" features = false ->
   get_temporal_patterns pid s =
     (Ok (None, None),
      with_line (patterns_error_line (KeyError "Colonne NDVI introuvable dans les données.")) s))
  /\
  (has_column "ndvi" features = true -> ~ In (Str pid) ids ->
   get_temporal_patterns pid s =
     (Ok (None, None),
      with_line (patterns_error_line
                   (ValueError ("Aucune donnée trouvée pour parcelle_id : " ++ pid)%string)) s))
  /\
  (has_column "ndvi" features = true -> In (Str pid) ids ->
   (length (ndvi_observations pid features) < 12)%nat ->
   get_temporal_patterns pid s =
     (Ok (None, None),
      with_line (patterns_error_line
                   (ValueError "Pas assez de points de données pour une décomposition saisonnière."))
                s)).
Proof.
  intros Hfile Hids.
  unfold readable in Hfile.
  destruct (lookup_file "data/features.csv" (fs (env s))) as [[f|]|] eqn:Efile;
    try discriminate Hfile.
  destruct (forallb (fun c => has_column c f) ["date"]) eqn:Edate; [|discriminate Hfile].
  injection Hfile as ->.
  unfold get_col in Hids.
  destruct (col_index "parcelle_id" (columns features)) as [ipid|] eqn:Eipid; [|discriminate].
  injection Hids as <-.
  assert (Hdate : exists idate, col_index "date" (columns features) = Some idate).
  { cbn [forallb] in Edate. apply andb_true_iff in Edate. destruct Edate as [Edate _].
    apply has_column_col_index in Edate.
    destruct (col_index "date" (columns features)); [eauto | congruence]. }
  destruct Hdate as [idate Hdate].
  assert (Hcol : has_column "ndvi" (mkDF (columns features) (parcel_rows ipid pid features))
                 = has_column "ndvi" features) by reflexivity.
  split; [|split].
  - intros Hn.
    unfold get_temporal_patterns, try_except, get_temporal_patterns_try.
    unfold bind at 1 2. unfold read_csv. rewrite Efile, Edate.
    unfold getpos, or_raise, bind, ret, raise, print, modify. rewrite Eipid.
    fold (parcel_rows ipid pid features). rewrite Hcol, Hn. reflexivity.
  - intros Hn Hnone.
    assert (Hempty : parcel_rows ipid pid features = []).
    { unfold parcel_rows. apply filter_nil_iff. intros r Hr.
      destruct (cell_eqb (cell_at ipid r) (Str pid)) eqn:E; [|reflexivity].
      exfalso. apply Hnone. apply cell_eqb_eq in E. rewrite <- E. apply in_map, Hr. }
    unfold get_temporal_patterns, try_except, get_temporal_patterns_try.
    unfold bind at 1 2. unfold read_csv. rewrite Efile, Edate.
    unfold getpos, or_raise, bind, ret, raise, print, modify. rewrite Eipid.
    fold (parcel_rows ipid pid features). rewrite Hcol, Hn.
    unfold empty. cbn [rows negb]. rewrite Hempty. reflexivity.
  - intros Hn Hsome Hlt.
    assert (Hne : parcel_rows ipid pid features <> []).
    { apply in_map_iff in Hsome. destruct Hsome as (r & Hr & Hin).
      intros Hnil. assert (Hin' : In r (parcel_rows ipid pid features)).
      { unfold parcel_rows. apply filter_In. split; [exact Hin|].
        apply cell_eqb_eq. exact Hr. }
      rewrite Hnil in Hin'. destruct Hin'. }
    destruct (sort_values "date" (mkDF (columns features) (parcel_rows ipid pid features)))
      as [sorted|] eqn:Esort.
    2:{ unfold sort_values in Esort. cbn [columns] in Esort. rewrite Hdate in Esort.
        discriminate. }
    destruct (sort_values_perm _ _ _ Esort) as [Hcols _]. cbn [columns] in Hcols.
    pose proof Hn as Hn'. apply has_column_col_index in Hn'.
    destruct (col_index "ndvi" (columns features)) as [indvi|] eqn:Endvi; [|congruence].
    pose proof (length_ndvi_series pid features ipid idate indvi sorted Eipid Endvi Esort)
      as Hlen.
    apply Nat.ltb_lt in Hlt. rewrite <- Hlen in Hlt.
    assert (Hemp : empty (mkDF (columns features) (parcel_rows ipid pid features)) = false).
    { unfold empty. cbn [rows]. destruct (parcel_rows ipid pid features); congruence. }
    unfold get_temporal_patterns, try_except, get_temporal_patterns_try.
    unfold bind at 1 2. unfold read_csv. rewrite Efile, Edate.
    unfold getpos, or_raise, bind, ret, raise, print, modify. rewrite Eipid.
    fold (parcel_rows ipid pid features). rewrite Hcol, Hn, Hemp. cbn [negb].
    rewrite Esort, Hcols, Hdate, Endvi, Hlt. reflexivity.
Qed.

Lemma get_temporal_patterns_reports_why_witness :
  get_temporal_patterns "P001" (state_with_features observations_without_ndvi) =
    (Ok (None, None),
     with_line (patterns_error_line (KeyError "Colonne NDVI introuvable dans les données."))
               (state_with_features observations_without_ndvi)) /\
  get_temporal_patterns "P002" (state_with_features twelve_observations) =
    (Ok (None, None),
     with_line (patterns_error_line
                  (ValueError "Aucune donnée trouvée pour parcelle_id : P002"))
               (state_with_features twelve_observations)) /\
  get_temporal_patterns "P001" (state_with_features (mkDF features_columns (observations 3))) =
    (Ok (None, None),
     with_line (patterns_error_line
                  (ValueError "Pas assez de points de données pour une décomposition saisonnière."))
               (state_with_features (mkDF features_columns (observations 3)))).
Proof.
  split; [|split].
  - refine (proj1 (get_temporal_patterns_reports_why "P001"
                     (state_with_features observations_without_ndvi)
                     observations_without_ndvi _ _ _) _); reflexivity.
  - refine (proj1 (proj2 (get_temporal_patterns_reports_why "P002"
                     (state_with_features twelve_observations)
                     twelve_observations _ _ _)) _ _); try reflexivity.
    cbn. intros H. repeat (destruct H as [H|H]; [discriminate H|]). exact H.
  - refine (proj2 (proj2 (get_temporal_patterns_reports_why "P001"
                     (state_with_features (mkDF features_columns (observations 3)))
                     (mkDF features_columns (observations 3)) _ _ _)) _ _ _); try reflexivity.
    + cbn. left. reflexivity.
    + vm_compute. lia.
Defined.

(** *** The lengths of the series returned *)

Lemma length_dropna_opt_combine {V} (idx : list cell) (l : list (option V)) :
  (length l <= length idx)%nat ->
  length (dropna_opt (combine idx l)) = length (filter present l).
Proof.
  revert l. induction idx as [|i idx IH]; intros [|[v|] l] H; simpl in *; try lia.
  - rewrite IH by lia. reflexivity.
  - apply IH. lia.
Qed.

Lemma length_filter_map {A B} (f : A -> B) (p : B -> bool) l :
  length (filter p (map f l)) = length (filter (fun a => p (f a)) l).
Proof.
  induction l as [|a l IH]; [reflexivity|]. simpl. destruct (p (f a)); simpl; rewrite IH; reflexivity.
Qed.

(** The positions of [0 .. n-1] between [a] and [b]. *)
Lemma length_filter_range (p : nat -> bool) a b n :
  (a <= b)%nat -> (b <= n)%nat ->
  (forall i, (i < n)%nat -> p i = true <-> (a <= i < b)%nat) ->
  length (filter p (seq 0 n)) = (b - a)%nat.
Proof.
  intros Hab Hbn Hp.
  replace n with (a + ((b - a) + (n - b)))%nat by lia.
  rewrite !seq_app, !filter_app, !length_app.
  rewrite (filter_nil_iff p (seq 0 a)).
  2:{ intros i Hi. apply in_seq in Hi. destruct (p i) eqn:E; [|reflexivity].
      apply Hp in E; lia. }
  rewrite (filter_all p (seq (0 + a) (b - a))).
  2:{ intros i Hi. apply in_seq in Hi. apply Hp; lia. }
  rewrite (filter_nil_iff p (seq (0 + a + (b - a)) (n - b))).
  2:{ intros i Hi. apply in_seq in Hi. destruct (p i) eqn:E; [|reflexivity].
      apply Hp in E; lia. }
  rewrite length_seq. simpl. lia.
Qed.

Lemma length_convolution_filter x : length (convolution_filter x) = length x.
Proof. unfold convolution_filter. rewrite length_map, length_seq. reflexivity. Qed.

Lemma present_convolution_filter x :
  (12 <= length x)%nat ->
  length (filter present (convolution_filter x)) = (length x - 12)%nat.
Proof.
  intros H. unfold convolution_filter. rewrite length_filter_map.
  rewrite (length_filter_range _ 6 (length x - 6) (length x)); try lia.
  intros i Hi. destruct (Nat.leb_spec 6 i), (Nat.ltb_spec (i + 6) (length x)); simpl;
    split; intros; try discriminate; try lia; reflexivity.
Qed.

Lemma present_detrended (x : list R) tr :
  length tr = length x ->
  length (filter present (map (fun p => opt_sub (Some (fst p)) (snd p)) (combine x tr))) =
  length (filter present tr).
Proof.
  revert tr. induction x as [|a x IH]; intros [|[t|] tr] H; simpl in *; try discriminate;
    try reflexivity; rewrite IH by lia; reflexivity.
Qed.

Lemma present_resid (d : list (option R)) (c : nat -> R) l :
  length l = length d ->
  length (filter present
            (map (fun p => opt_sub (fst p) (snd p))
                 (combine d (map (fun i => Some (c i)) l)))) =
  length (filter present d).
Proof.
  revert l. induction d as [|[a|] d IH]; intros [|i l] H; simpl in *; try discriminate;
    try reflexivity; rewrite IH by lia; reflexivity.
Qed.

(** The components of a decomposition of [n] values: the trend and the
    residual miss six values at either end, the seasonal component none. *)
Lemma seasonal_decompose_lengths s dec :
  seasonal_decompose s = Some dec ->
  length (dropna_opt (trend dec)) = (length s - 12)%nat /\
  length (seasonal dec) = length s /\
  length (dropna_opt (resid dec)) = (length s - 12)%nat.
Proof.
  intros Hdec. pose proof (seasonal_decompose_length Hdec) as Hn.
  unfold seasonal_decompose in Hdec.
  assert (Hx : length (values s) = length s) by (unfold values; apply length_map).
  assert (Hi : length (index s) = length s) by (unfold index; apply length_map).
  destruct (Nat.ltb (length (values s)) (2 * period)); [discriminate|].
  destruct (seasonal_means_exist (values s)) as [averages Hav]; [lia|].
  rewrite Hav in Hdec. injection Hdec as <-. cbn [trend seasonal resid].
  pose proof (length_convolution_filter (values s)) as Hc.
  split; [|split].
  - rewrite length_dropna_opt_combine by lia.
    rewrite present_convolution_filter by lia. lia.
  - rewrite length_combine, length_map, length_seq. lia.
  - rewrite length_dropna_opt_combine.
    2:{ rewrite length_map, length_combine, !length_map, length_combine, length_seq. lia. }
    rewrite (present_resid _ (fun i => nth (i mod period)
                                          (map (fun a => (a - Rmean averages)%R) averages) 0%R)).
    2:{ rewrite length_seq, length_map, length_combine. lia. }
    rewrite present_detrended by exact Hc.
    rewrite present_convolution_filter by lia. lia.
Qed.

Lemma length_rolling_mean window (s : Series R) :
  (1 <= window)%nat ->
  length (dropna_opt (rolling_mean window s)) = (length s - (window - 1))%nat.
Proof.
  intros Hw. unfold rolling_mean.
  rewrite length_dropna_opt_combine
    by (unfold index; rewrite !length_map, length_seq; lia).
  rewrite length_filter_map.
  destruct (Nat.le_gt_cases (window - 1) (length s)) as [Hle|Hgt].
  - rewrite (length_filter_range _ (window - 1) (length s) (length s)); try lia.
    intros i Hi. destruct (Nat.leb_spec window (i + 1)); simpl;
      split; intros; try discriminate; try lia; reflexivity.
  - rewrite filter_nil_iff; [simpl; lia|].
    intros i Hi. apply in_seq in Hi. destruct (Nat.leb_spec window (i + 1)); [lia | reflexivity].
Qed.

(** A result comes with series of known lengths: for the [n] NDVI
    observations of the parcel, which are at least 24, the seasonal series has
    [n] points, the trend and the residual [n - 12], six short at either end,
    and the 30-point moving average [n - 29], none below 30 observations. *)
Theorem get_temporal_patterns_series_lengths pid s h t :
  fst (get_temporal_patterns pid s) = Ok (Some h, t) ->
  exists features,
    lookup_file "data/features.csv" (fs (env s)) = Some (CsvFile features) /\
    let n := length (ndvi_observations pid features) in
    (24 <= n)%nat /\
    length (ndvi_seasonal h) = n /\
    length (ndvi_trend h) = (n - 12)%nat /\
    length (ndvi_residual h) = (n - 12)%nat /\
    length (ndvi_moving_avg h) = (n - 29)%nat.
Proof.
  intros H.
  destruct (get_temporal_patterns_inv _ _ _ _ H)
    as (features & ipid & idate & indvi & r & Hfile & Ha & -> & _).
  exists features. split; [exact Hfile|].
  destruct Ha as [ipid idate indvi sorted ndvi_values dec ords fit
                    Hipid Hsort Hidate Hindvi series Hvalues Hdec Hords Hfit].
  cbn [fst ndvi_trend ndvi_seasonal ndvi_residual ndvi_moving_avg].
  destruct (sort_values_perm _ _ _ Hsort) as [Hcols _]. cbn [columns] in Hcols.
  rewrite Hcols in Hindvi.
  pose proof (length_ndvi_series pid features ipid idate indvi sorted Hipid Hindvi Hsort)
    as Hlen. fold series in Hlen.
  apply length_all_some in Hvalues. unfold values in Hvalues. rewrite !length_map in Hvalues.
  assert (Hs : length (combine (index series) ndvi_values) =
               length (ndvi_observations pid features)).
  { rewrite length_combine. unfold index. rewrite length_map. lia. }
  destruct (seasonal_decompose_lengths _ _ Hdec) as (Ht & Hse & Hr).
  pose proof (seasonal_decompose_length Hdec) as Hn.
  rewrite Hs in *. cbv zeta.
  split; [exact Hn|]. split; [exact Hse|]. split; [exact Ht|]. split; [exact Hr|].
  rewrite length_rolling_mean by lia. rewrite Hs. reflexivity.
Qed.

Lemma get_temporal_patterns_series_lengths_witness :
  exists h t,
    fst (get_temporal_patterns "P001" (state_with_features twenty_four_observations))
      = Ok (Some h, t) /\
    exists features,
      lookup_file "data/features.csv" (fs (env (state_with_features twenty_four_observations)))
        = Some (CsvFile features) /\
      let n := length (ndvi_observations "P001" features) in
      (24 <= n)%nat /\
      length (ndvi_seasonal h) = n /\
      length (ndvi_trend h) = (n - 12)%nat /\
      length (ndvi_residual h) = (n - 12)%nat /\
      length (ndvi_moving_avg h) = (n - 29)%nat.
Proof.
  destruct twenty_four_observations_are_analysed as (h & t & E & _).
  exists h, (Some t). split; [exact E|].
  apply (get_temporal_patterns_series_lengths "P001"
           (state_with_features twenty_four_observations) h (Some t)).
  exact E.
Defined.

(** *** The summary of the observations *)

Lemma Rmin_list_spec x :
  x <> [] -> In (Rmin_list x) x /\ forall y, In y x -> (Rmin_list x <= y)%R.
Proof.
  destruct x as [|a t]; [congruence|]. intros _. unfold Rmin_list.
  induction t as [|b t [IHin IHle]]; simpl.
  - split; [auto | intros y [<-|[]]; lra].
  - split.
    + destruct (Rle_dec b (fold_right Rmin a t)) as [r|r];
        [rewrite (Rmin_left _ _ r) | rewrite Rmin_right by lra].
      * right. left. reflexivity.
      * destruct IHin as [H|H]; [left; exact H | right; right; exact H].
    + intros y [<-|[<-|H]].
      * eapply Rle_trans; [apply Rmin_r | apply IHle; left; reflexivity].
      * apply Rmin_l.
      * eapply Rle_trans; [apply Rmin_r | apply IHle; right; exact H].
Qed.

Lemma Rmax_list_spec x :
  x <> [] -> In (Rmax_list x) x /\ forall y, In y x -> (y <= Rmax_list x)%R.
Proof.
  destruct x as [|a t]; [congruence|]. intros _. unfold Rmax_list.
  induction t as [|b t [IHin IHle]]; simpl.
  - split; [auto | intros y [<-|[]]; lra].
  - split.
    + destruct (Rle_dec b (fold_right Rmax a t)) as [r|r];
        [rewrite (Rmax_right _ _ r) | rewrite Rmax_left by lra].
      * destruct IHin as [H|H]; [left; exact H | right; right; exact H].
      * right. left. reflexivity.
    + intros y [<-|[<-|H]].
      * eapply Rle_trans; [apply IHle; left; reflexivity | apply Rmax_r].
      * apply Rmax_l.
      * eapply Rle_trans; [apply IHle; right; exact H | apply Rmax_r].
Qed.

Lemma all_some_In {A B} (f : A -> option B) l vs v :
  all_some (map f l) = Some vs -> In v vs -> exists a, In a l /\ f a = Some v.
Proof.
  revert vs. induction l as [|a l IH]; intros vs H Hin; simpl in H.
  - injection H as <-. destruct Hin.
  - destruct (f a) as [b|] eqn:Ea; [|discriminate].
    destruct (all_some (map f l)) as [vs'|]; [|discriminate].
    simpl in H. injection H as <-. destruct Hin as [<-|Hin].
    + exists a. split; [left; reflexivity | exact Ea].
    + destruct (IH vs' eq_refl Hin) as (a' & Ha' & Hf). exists a'.
      split; [right; exact Ha' | exact Hf].
Qed.

Lemma In_values_dropna {A} (f g : A -> cell) l c :
  In c (values (dropna (map (fun r => (f r, g r)) l))) ->
  In c (filter (fun c => negb (is_null c)) (map g l)).
Proof.
  unfold values. induction l as [|a l IH]; [intros []|].
  cbn [map dropna filter]. destruct (g a) eqn:Eg; cbn [is_null negb map snd In];
    try (intros [<-|H]; [left; reflexivity | right; apply IH, H]).
  exact IH.
Qed.

(** The values the analyser works on are NDVI observations of the parcel. *)
Lemma ndvi_values_observed pid features ipid idate indvi sorted ndvi_values v :
  col_index "parcelle_id" (columns features) = Some ipid ->
  col_index "ndvi" (columns features) = Some indvi ->
  sort_values "date" (mkDF (columns features) (parcel_rows ipid pid features)) = Some sorted ->
  all_some (map num_of
              (values (dropna (map (fun r => (cell_at idate r, cell_at indvi r)) (rows sorted)))))
    = Some ndvi_values ->
  In v ndvi_values -> In (Num v) (ndvi_observations pid features).
Proof.
  intros Hp Hn Hs Hv Hin.
  destruct (all_some_In _ _ _ _ Hv Hin) as (c & Hc & Hnum).
  destruct c; try discriminate Hnum. injection Hnum as ->.
  apply In_values_dropna in Hc.
  unfold ndvi_observations. rewrite Hp, Hn.
  apply filter_In in Hc. destruct Hc as [Hc Hnn]. apply filter_In. split; [|exact Hnn].
  destruct (sort_values_perm _ _ _ Hs) as [_ Hperm]. cbn [rows] in Hperm.
  apply (Permutation_in _ (Permutation_map (cell_at indvi) Hperm)). exact Hc.
Qed.

Lemma all_some_In_image {A B} (f : A -> option B) l vs a v :
  all_some (map f l) = Some vs -> In a l -> f a = Some v -> In v vs.
Proof.
  revert vs. induction l as [|x l IH]; intros vs H Hin Hf; [destruct Hin|].
  simpl in H. destruct (f x) as [b|] eqn:Ex; [|discriminate].
  destruct (all_some (map f l)) as [vs'|]; [|discriminate].
  simpl in H. injection H as <-. destruct Hin as [->|Hin].
  - left. congruence.
  - right. exact (IH vs' eq_refl Hin Hf).
Qed.

Lemma In_dropna_values {A} (f g : A -> cell) l c :
  In c (filter (fun c => negb (is_null c)) (map g l)) ->
  In c (values (dropna (map (fun r => (f r, g r)) l))).
Proof.
  unfold values. induction l as [|a l IH]; [intros []|].
  cbn [map dropna filter]. destruct (g a) eqn:Eg; cbn [is_null negb map snd In];
    try (intros [<-|H]; [left; reflexivity | right; apply IH, H]).
  exact IH.
Qed.

(** Every NDVI observation of the parcel is among the values the analyser
    works on. *)
Lemma observed_ndvi_values pid features ipid idate indvi sorted ndvi_values v :
  col_index "parcelle_id" (columns features) = Some ipid ->
  col_index "ndvi" (columns features) = Some indvi ->
  sort_values "date" (mkDF (columns features) (parcel_rows ipid pid features)) = Some sorted ->
  all_some (map num_of
              (values (dropna (map (fun r => (cell_at idate r, cell_at indvi r)) (rows sorted)))))
    = Some ndvi_values ->
  In (Num v) (ndvi_observations pid features) -> In v ndvi_values.
Proof.
  intros Hp Hn Hs Hv Hin. unfold ndvi_observations in Hin. rewrite Hp, Hn in Hin.
  apply filter_In in Hin. destruct Hin as [Hin Hnn].
  destruct (sort_values_perm _ _ _ Hs) as [_ Hperm]. cbn [rows] in Hperm.
  apply (Permutation_in _ (Permutation_sym (Permutation_map (cell_at indvi) Hperm))) in Hin.
  eapply (all_some_In_image num_of _ _ (Num v) v Hv); [|reflexivity].
  apply In_dropna_values. apply filter_In. split; [exact Hin | exact Hnn].
Qed.

(** The summary that comes with a history describes the observations of
    the parcel: its minimum and its maximum are NDVI values of the parcel in
    data/features.csv, every NDVI value of the parcel lies between them, and
    its standard deviation is not negative. *)
Theorem get_temporal_patterns_summary_stats pid s h t :
  fst (get_temporal_patterns pid s) = Ok (Some h, t) ->
  exists features,
    lookup_file "data/features.csv" (fs (env s)) = Some (CsvFile features) /\
    In (Num (min_ndvi (stats h))) (ndvi_observations pid features) /\
    In (Num (max_ndvi (stats h))) (ndvi_observations pid features) /\
    (forall v, In (Num v) (ndvi_observations pid features) ->
               (min_ndvi (stats h) <= v <= max_ndvi (stats h))%R) /\
    (0 <= std_ndvi (stats h))%R.
Proof.
  intros H.
  destruct (get_temporal_patterns_inv _ _ _ _ H)
    as (features & ipid & idate & indvi & r & Hfile & Ha & -> & _).
  exists features. split; [exact Hfile|].
  destruct Ha as [ipid idate indvi sorted ndvi_values dec ords fit
                    Hipid Hsort Hidate Hindvi series Hvalues Hdec Hords Hfit].
  cbn [fst stats min_ndvi max_ndvi mean_ndvi std_ndvi].
  destruct (sort_values_perm _ _ _ Hsort) as [Hcols _]. cbn [columns] in Hcols.
  rewrite Hcols in Hindvi.
  assert (Hne : ndvi_values <> []).
  { pose proof (seasonal_decompose_length Hdec) as Hn.
    rewrite length_combine in Hn. intros ->. simpl in Hn. lia. }
  destruct (Rmin_list_spec ndvi_values Hne) as [Hmin_in Hmin_le].
  destruct (Rmax_list_spec ndvi_values Hne) as [Hmax_in Hmax_le].
  split; [eapply ndvi_values_observed; eassumption|].
  split; [eapply ndvi_values_observed; eassumption|].
  split.
  - intros v Hv.
    assert (Hin : In v ndvi_values) by (eapply observed_ndvi_values; eassumption).
    split; [apply Hmin_le | apply Hmax_le]; exact Hin.
  - unfold series_std. apply sqrt_pos.
Qed.

Lemma get_temporal_patterns_summary_stats_witness :
  exists h t,
    fst (get_temporal_patterns "P001" (state_with_features twenty_four_observations))
      = Ok (Some h, t) /\
    exists features,
      lookup_file "data/features.csv" (fs (env (state_with_features twenty_four_observations)))
        = Some (CsvFile features) /\
      In (Num (min_ndvi (stats h))) (ndvi_observations "P001" features) /\
      In (Num (max_ndvi (stats h))) (ndvi_observations "P001" features) /\
      (forall v, In (Num v) (ndvi_observations "P001" features) ->
                 (min_ndvi (stats h) <= v <= max_ndvi (stats h))%R) /\
      (0 <= std_ndvi (stats h))%R.
Proof.
  destruct twenty_four_observations_are_analysed as (h & t & E & _).
  exists h, (Some t). split; [exact E|].
  apply (get_temporal_patterns_summary_stats "P001"
           (state_with_features twenty_four_observations) h (Some t)).
  exact E.
Defined.
